(** * geojson_validate: structural GeoJSON linting, verified against its specification

    A shallow embedding of [geojson_validator/schema_validation.py] (class
    [GeoJsonLint]) and of the pure functions of [geojsonfix/checks_problematic.py].

    - Parsed JSON documents are the inductive type [json]; Python's [int],
      [float] and [bool] stay distinct constructors because the code tells
      them apart with [isinstance] and truthiness.
    - The validator instance is a record; every method is a function in a
      state monad over that record which can also raise a Python exception.
    - The two external libraries ([json.dumps] + [json_source_map.calculate],
      and Python's [repr] of floats and containers) are section variables. *)

From Stdlib Require Import String Ascii List ZArith Bool Arith Lia.
From Stdlib Require Import DecimalString.
From Stdlib Require Import Floats.SpecFloat.
Import ListNotations.

Open Scope list_scope.
Open Scope string_scope.

(* ================================================================== *)
(** * Python values as they come out of [json.loads] *)
(* ================================================================== *)

#[local] Set Warnings "-register-all".

Inductive json : Type :=
| JNull
| JBool (b : bool)
| JInt (n : Z)
| JFloat (f : spec_float)
| JStr (s : string)
| JArr (items : list json)
| JObj (members : list (string * json)).

(** A [dict] with string keys: an association list read left to right. *)
Definition dict := list (string * json).

Fixpoint dict_lookup (name : string) (d : dict) : option json :=
  match d with
  | [] => None
  | (k, v) :: rest => if String.eqb k name then Some v else dict_lookup name rest
  end.

(** [name in obj] *)
Definition dict_contains (name : string) (d : dict) : bool :=
  match dict_lookup name d with Some _ => true | None => false end.

(** [obj.get(name)]: Python's [None] when the key is absent. *)
Definition dict_get (name : string) (d : dict) : json :=
  match dict_lookup name d with Some v => v | None => JNull end.

(** Python truthiness, [bool(v)]. *)
Definition py_truthy (v : json) : bool :=
  match v with
  | JNull => false
  | JBool b => b
  | JInt n => negb (Z.eqb n 0)
  | JFloat (S754_zero _) => false
  | JFloat _ => true
  | JStr s => negb (String.eqb s "")
  | JArr items => match items with [] => false | _ => true end
  | JObj members => match members with [] => false | _ => true end
  end.

(** [isinstance(v, dict)], [isinstance(v, list)] *)
Definition is_dict (v : json) : bool :=
  match v with JObj _ => true | _ => false end.

Definition is_list (v : json) : bool :=
  match v with JArr _ => true | _ => false end.

(** [v is None] *)
Definition is_none (v : json) : bool :=
  match v with JNull => true | _ => false end.

(** [isinstance(v, (int, float))]: [bool] is a subclass of [int]. *)
Definition is_int_or_float (v : json) : bool :=
  match v with JInt _ | JFloat _ | JBool _ => true | _ => false end.

(** [isinstance(v, (str, int))] *)
Definition is_str_or_int (v : json) : bool :=
  match v with JStr _ | JInt _ | JBool _ => true | _ => false end.

(** [v == s] for a [str] literal [s]: only a [str] compares equal to it. *)
Definition py_eq_str (v : json) (s : string) : bool :=
  match v with JStr s' => String.eqb s' s | _ => false end.

(** [v in l] for a list [l] of [str] *)
Definition py_in (v : json) (l : list string) : bool :=
  existsb (py_eq_str v) l.

(** [type(v).__name__] *)
Definition py_type_name (v : json) : string :=
  match v with
  | JNull => "NoneType"
  | JBool _ => "bool"
  | JInt _ => "int"
  | JFloat _ => "float"
  | JStr _ => "str"
  | JArr _ => "list"
  | JObj _ => "dict"
  end.

(** [str(n)] for a non-negative index and for an [int]. *)
Definition str_of_nat (n : nat) : string :=
  NilEmpty.string_of_uint (Nat.to_uint n).

Definition str_of_Z (n : Z) : string :=
  NilZero.string_of_int (Z.to_int n).

(** The character [chr(34)], written this way to keep literals plain. *)
Definition dquote : string := String (ascii_of_nat 34) "".

(** [repr(l)] of a list of plain words: ['a', 'b']. *)
Definition repr_words (l : list string) : string :=
  "[" ++ String.concat ", " (map (fun s => "'" ++ s ++ "'") l) ++ "]".

(** ** [str.split] *)

Fixpoint starts_with (sep s : string) : bool :=
  match sep, s with
  | EmptyString, _ => true
  | String a sep', String b s' => Ascii.eqb a b && starts_with sep' s'
  | String _ _, EmptyString => false
  end.

(** [py_split_go sep skip cur s]: [cur] is the piece being read, [skip] the
    number of characters of a separator still to drop. *)
Fixpoint py_split_go (sep : string) (skip : nat) (cur s : string) : list string :=
  match s with
  | EmptyString => [cur]
  | String c s' =>
      match skip with
      | S k => py_split_go sep k cur s'
      | O =>
          if starts_with sep s
          then cur :: py_split_go sep (String.length sep - 1) "" s'
          else py_split_go sep 0 (cur ++ String c "") s'
      end
  end.

(** [s.split(sep)] for a non-empty [sep] *)
Definition py_split (sep s : string) : list string := py_split_go sep 0 "" s.

(** [s.split(sep)[0]] *)
Definition split_head (sep s : string) : string := hd "" (py_split sep s).

(** Does [sep] occur in [s]? *)
Fixpoint occurs (sep s : string) : bool :=
  starts_with sep s ||
  match s with
  | EmptyString => false
  | String _ s' => occurs sep s'
  end.

(** ** Exceptions and results *)

Inductive exn : Type :=
| AttributeError
| RecursionError
| TypeError
| IndexError
| KeyError.

Inductive outcome (A : Type) : Type :=
| Returns (a : A)
| Raises (e : exn).

Arguments Returns {A} a.
Arguments Raises {A} e.

(** ** Nesting depth *)

(** Nesting depth of a document: bounds the recursion of the walk. *)
Fixpoint json_depth (v : json) : nat :=
  match v with
  | JArr items =>
      S ((fix go (l : list json) : nat :=
            match l with
            | [] => 0
            | x :: r => Nat.max (json_depth x) (go r)
            end) items)
  | JObj members =>
      S ((fix go (l : list (string * json)) : nat :=
            match l with
            | [] => 0
            | (_, x) :: r => Nat.max (json_depth x) (go r)
            end) members)
  | _ => 0
  end.

(* ================================================================== *)
(** * The validator instance and its monad *)
(* ================================================================== *)

(** One value of the [errors] dict: {"lines": [...], "features": [...]}. *)
Record error_entry : Type := mkEntry {
  lines : list (option nat);
  features : list (option nat)
}.

(** The [errors] dict, keyed by message text, in insertion order. *)
Definition report := list (string * error_entry).

(** The attributes [__init__] creates.  [line_map] holds, for each path of
    the source map, the zero-indexed [value_start.line]. *)
Record GeoJsonLint : Type := mkLint {
  check_crs : bool;
  feature_idx : option nat;
  line_map : option (string -> option nat);
  errors : report
}.

(** A method body: reads and writes [self], returns or raises. *)
Definition M (A : Type) : Type := GeoJsonLint -> outcome A * GeoJsonLint.

Definition ret {A : Type} (a : A) : M A := fun self => (Returns a, self).

Definition raise {A : Type} (e : exn) : M A := fun self => (Raises e, self).

Definition bind {A B : Type} (m : M A) (k : A -> M B) : M B :=
  fun self =>
    match m self with
    | (Returns a, self') => k a self'
    | (Raises e, self') => (Raises e, self')
    end.

Notation "x <- m ;; k" := (bind m (fun x => k))
  (at level 61, m at next level, right associativity).
Notation "m ;; k" := (bind m (fun _ => k))
  (at level 61, right associativity).

(** [for idx, x in enumerate(l): body], counting from [idx]. *)
Fixpoint for_enumerate {A : Type} (body : nat -> A -> M unit) (idx : nat)
  (l : list A) : M unit :=
  match l with
  | [] => ret tt
  | x :: rest => body idx x ;; for_enumerate body (S idx) rest
  end.

(** [for x in l: body] *)
Fixpoint for_each {A : Type} (body : A -> M unit) (l : list A) : M unit :=
  match l with
  | [] => ret tt
  | x :: rest => body x ;; for_each body rest
  end.

(** [obj[name]] *)
Definition dict_getitem (name : string) (d : dict) : M json :=
  match dict_lookup name d with
  | Some v => ret v
  | None => raise KeyError
  end.

(** The elements of a value a gate has already shown to be a [list]. *)
Definition as_list (v : json) : M (list json) :=
  match v with
  | JArr items => ret items
  | _ => raise TypeError
  end.

(** [self.errors = errs] *)
Definition with_errors (errs : report) (self : GeoJsonLint) : GeoJsonLint :=
  mkLint (check_crs self) (feature_idx self) (line_map self) errs.

(** [entry.value_start.line + 1 if entry else None] *)
Definition one_indexed (entries : string -> option nat) (path : string) : option nat :=
  match entries path with
  | Some line => Some (line + 1)
  | None => None
  end.

(** The insertion or in-place update [_add_error] performs on the dict. *)
Fixpoint record_error (message : string) (line fidx : option nat)
  (errs : report) : report :=
  match errs with
  | [] => [(message, mkEntry [line] [fidx])]
  | (m, e) :: rest =>
      if String.eqb m message
      then (m, mkEntry (lines e ++ [line])%list (features e ++ [fidx])%list) :: rest
      else (m, e) :: record_error message line fidx rest
  end.

(** [message in report] *)
Definition has_message (message : string) (errs : report) : bool :=
  existsb (fun kv => String.eqb (fst kv) message) errs.

(** [report.get(message)] *)
Fixpoint report_lookup (message : string) (errs : report) : option error_entry :=
  match errs with
  | [] => None
  | (m, e) :: rest => if String.eqb m message then Some e else report_lookup message rest
  end.

(* ================================================================== *)
(** * class GeoJsonLint *)
(* ================================================================== *)

Definition GEOMETRY_TYPES : list string :=
  [ "FeatureCollection";
    "Feature";
    "Point";
    "LineString";
    "Polygon";
    "MultiPoint";
    "MultiLineString";
    "MultiPolygon";
    "GeometryCollection" ].

Definition GEOJSON_TYPES : list string :=
  ([ "FeatureCollection"; "Feature" ] ++ GEOMETRY_TYPES)%list.

(** The fixed message texts. *)
Definition msg_root : string := "Root of GeoJSON must be an object/dictionary".
Definition msg_crs : string :=
  "The newest GeoJSON specification defines GeoJSON as always latitude/longitude, remove "
  ++ "CRS (coordinate reference system) member".
Definition msg_feature_object : string := "Every feature must be a dictionary/object.".
Definition msg_feature_id : string :=
  "Feature " ++ dquote ++ "id" ++ dquote ++ " member must be a string or int number".
Definition msg_missing_type : string := "Missing 'type' member".
Definition msg_position_array : string := "Coordinate position must be an array".
Definition msg_position_length : string :=
  "Coordinate position must have exactly 2 or 3 values".
Definition msg_position_number : string :=
  "Each element in a coordinate position must be a number".
Definition msg_coordinates_array : string := "Coordinates must be an array".

Section Lint.

(** [source_map doc path]: the zero-indexed line at which the value at
    [path] starts in [json.dumps(doc, sort_keys=True, indent=2)], as
    [json_source_map.calculate] reports it; [None] for an unknown path.
    Both library calls are taken to return for every document. *)
Variable source_map : json -> string -> option nat.

(** Python's [repr] for the values whose text is not modelled here
    (floats, lists and dicts). *)
Variable py_repr : json -> string.

(** [str(v)], as an f-string renders it. *)
Definition py_str (v : json) : string :=
  match v with
  | JStr s => s
  | JInt n => str_of_Z n
  | JBool true => "True"
  | JBool false => "False"
  | JNull => "None"
  | _ => py_repr v
  end.

Definition msg_invalid_type (obj_type : json) (allowed_types : list string) : string :=
  "Invalid 'type' member, is '" ++ py_str obj_type ++ "', must be one of "
  ++ repr_words allowed_types.

Definition msg_member_required (name : string) : string :=
  dquote ++ name ++ dquote ++ " member required".

Definition msg_member_array (name : string) (v : json) : string :=
  dquote ++ name ++ dquote ++ " member must be an array, but is a "
  ++ py_type_name v ++ " instead".

Definition msg_member_object (name : string) (v : json) : string :=
  dquote ++ name ++ dquote ++ " member must be an object/dictionary, but is a "
  ++ py_type_name v ++ " instead".

Definition __init__ (check_crs : bool) : GeoJsonLint :=
  mkLint check_crs None None [].

Definition _add_error (message : string) (line : option nat) : M unit :=
  fun self =>
    (Returns tt,
     with_errors (record_error message line (feature_idx self) (errors self)) self).

Definition _get_line_number (path : string) : M (option nat) :=
  fun self =>
    match line_map self with
    | None => (Raises AttributeError, self)
    | Some entries => (Returns (one_indexed entries path), self)
    end.

(** Attribute reads and writes of [self]. *)
Definition get_check_crs : M bool := fun self => (Returns (check_crs self), self).

Definition get_errors : M report := fun self => (Returns (errors self), self).

Definition set_feature_idx (idx : nat) : M unit :=
  fun self =>
    (Returns tt, mkLint (check_crs self) (Some idx) (line_map self) (errors self)).

Definition set_line_map (entries : string -> option nat) : M unit :=
  fun self =>
    (Returns tt, mkLint (check_crs self) (feature_idx self) (Some entries) (errors self)).

Definition _is_invalid_type_member (obj : json) (allowed_types : list string)
  (path : string) : M bool :=
  match obj with
  | JObj members =>
      let obj_type := dict_get "type" members in
      if negb (py_truthy obj_type) then
        line <- _get_line_number (split_head "/type" path) ;;
        _add_error msg_missing_type line ;;
        ret true
      else if negb (py_in obj_type allowed_types) then
        line <- _get_line_number path ;;
        _add_error (msg_invalid_type obj_type allowed_types) line ;;
        ret true
      else ret false
  | _ => ret true
  end.

(** [obj] is a [dict] at every call site. *)
Definition _is_invalid_property (obj : dict) (name type_str path : string) : M bool :=
  match dict_lookup name obj with
  | None =>
      line <- _get_line_number (split_head ("/" ++ name) path) ;;
      _add_error (msg_member_required name) line ;;
      ret true
  | Some v =>
      if String.eqb type_str "array" && negb (is_list v) then
        line <- _get_line_number path ;;
        _add_error (msg_member_array name v) line ;;
        ret true
      else if String.eqb type_str "object" && negb (is_dict v) then
        if existsb (String.eqb name) ["geometry"; "properties"]
           && is_none v
        then ret false
        else
          line <- _get_line_number path ;;
          _add_error (msg_member_object name v) line ;;
          ret true
      else ret false
  end.

Definition _validate_position (coords : json) (path : string) : M unit :=
  match coords with
  | JArr items =>
      (if (List.length items <? 2)%nat || (3 <? List.length items)%nat then
         line <- _get_line_number path ;;
         _add_error msg_position_length line
       else ret tt) ;;
      (if negb (forallb is_int_or_float items) then
         line <- _get_line_number path ;;
         _add_error msg_position_number line
       else ret tt)
  | _ =>
      line <- _get_line_number path ;;
      _add_error msg_position_array line
  end.

(** [depth] is one of the literals 1, 2, 3 at the call sites and counts
    down to the [depth == 0] test. *)
Fixpoint _validate_position_array (coords : json) (depth : nat) (path : string)
  {struct depth} : M unit :=
  match depth with
  | O => _validate_position coords path
  | S depth' =>
      match coords with
      | JArr items =>
          for_each (fun p => _validate_position_array p depth' path) items
      | _ =>
          line <- _get_line_number path ;;
          _add_error msg_coordinates_array line
      end
  end.

(** [fuel] bounds the depth of the Python call stack. *)
Fixpoint _validate_geometry (fuel : nat) (geometry : json) (path : string)
  : M unit :=
  match fuel with
  | O => raise RecursionError
  | S fuel' =>
      invalid <- _is_invalid_type_member geometry GEOMETRY_TYPES (path ++ "/type") ;;
      if invalid then ret tt
      else
        match geometry with
        | JObj members =>
            let obj_type := dict_get "type" members in
            if py_eq_str obj_type "GeometryCollection" then
              invalid <- _is_invalid_property members "geometries" "array" path ;;
              if negb invalid then
                geometries <- dict_getitem "geometries" members ;;
                geoms <- as_list geometries ;;
                for_enumerate
                  (fun idx geom =>
                     _validate_geometry fuel' geom
                       (path ++ "/geometries/" ++ str_of_nat idx))
                  0 geoms
              else ret tt
            else
              invalid <- _is_invalid_property members "coordinates" "array" path ;;
              if negb invalid then
                if py_in obj_type ["Point"] then
                  coords <- dict_getitem "coordinates" members ;;
                  _validate_position coords (path ++ "/coordinates")
                else if py_in obj_type ["LineString"; "MultiPoint"] then
                  coords <- dict_getitem "coordinates" members ;;
                  _validate_position_array coords 1 (path ++ "/coordinates")
                else if py_in obj_type ["Polygon"; "MultiLineString"] then
                  coords <- dict_getitem "coordinates" members ;;
                  _validate_position_array coords 2 (path ++ "/coordinates")
                else if py_in obj_type ["MultiPolygon"] then
                  coords <- dict_getitem "coordinates" members ;;
                  _validate_position_array coords 3 (path ++ "/coordinates")
                else ret tt
              else ret tt
        | _ => raise AttributeError
        end
  end.

(** [feature] is a [dict] at every call site. *)
Definition _validate_feature (fuel : nat) (feature : dict) (path : string) : M unit :=
  _is_invalid_type_member (JObj feature) ["Feature"] (path ++ "/type") ;;
  (if dict_contains "id" feature && negb (is_str_or_int (dict_get "id" feature)) then
     line <- _get_line_number (path ++ "/id") ;;
     _add_error msg_feature_id line
   else ret tt) ;;
  _is_invalid_property feature "properties" "object" (path ++ "/properties") ;;
  _is_invalid_property feature "geometry" "object" (path ++ "/geometry") ;;
  let geom := dict_get "geometry" feature in
  if py_truthy geom then _validate_geometry fuel geom (path ++ "/geometry")
  else ret tt.

(** [feature_collection] is a [dict] at the only call site. *)
Definition _validate_feature_collection (fuel : nat) (feature_collection : dict)
  (path : string) : M unit :=
  _is_invalid_type_member (JObj feature_collection) ["FeatureCollection"]
    (path ++ "/type") ;;
  crs <- get_check_crs ;;
  (if crs && dict_contains "crs" feature_collection then
     line <- _get_line_number (path ++ "/crs") ;;
     _add_error msg_crs line
   else ret tt) ;;
  invalid <- _is_invalid_property feature_collection "features" "array"
               (path ++ "/features") ;;
  if negb invalid then
    features_member <- dict_getitem "features" feature_collection ;;
    feats <- as_list features_member ;;
    for_enumerate
      (fun idx feature =>
         set_feature_idx idx ;;
         match feature with
         | JObj members =>
             _validate_feature fuel members
               (path ++ "/features/" ++ str_of_nat idx)
         | _ =>
             line <- _get_line_number (path ++ "/features/" ++ str_of_nat idx) ;;
             _add_error msg_feature_object line
         end)
      0 feats
  else ret tt.

Definition _validate_geojson_root (fuel : nat) (obj : json) : M unit :=
  let root_path := "" in
  invalid <- _is_invalid_type_member obj GEOJSON_TYPES root_path ;;
  if invalid then ret tt
  else
    match obj with
    | JObj members =>
        let obj_type := dict_get "type" members in
        if py_eq_str obj_type "FeatureCollection" then
          _validate_feature_collection fuel members root_path
        else if py_eq_str obj_type "Feature" then
          _validate_feature fuel members root_path
        else if py_in obj_type GEOMETRY_TYPES then
          _validate_geometry fuel obj root_path
        else ret tt
    | _ => raise AttributeError
    end.

(** [lint] returns the dict [self.errors] itself: the value below is its
    content at the moment of the return, and what the caller reads through
    that object later is the [errors] field of the later instance.
    The call stack is taken to be deep enough for the document: the bound
    handed to the walk is one more than the document's nesting depth. *)
Definition lint (geojson_data : json) : M report :=
  match geojson_data with
  | JObj _ =>
      set_line_map (source_map geojson_data) ;;
      _validate_geojson_root (S (json_depth geojson_data)) geojson_data ;;
      get_errors
  | _ =>
      _add_error msg_root (Some 0) ;;
      get_errors
  end.

End Lint.

(* ================================================================== *)
(** * geojsonfix/checks_problematic.py *)
(* ================================================================== *)

(** Sequencing of plain Python expressions that may raise. *)
Definition and_then {A B : Type} (o : outcome A) (k : A -> outcome B) : outcome B :=
  match o with
  | Returns a => k a
  | Raises e => Raises e
  end.

(** [v[name]] for a [str] subscript *)
Definition py_getitem_str (v : json) (name : string) : outcome json :=
  match v with
  | JObj members =>
      match dict_lookup name members with
      | Some x => Returns x
      | None => Raises KeyError
      end
  | _ => Raises TypeError
  end.

(** [v[i]] for a non-negative [int] subscript *)
Definition py_getitem_int (v : json) (i : nat) : outcome json :=
  match v with
  | JArr items =>
      match nth_error items i with
      | Some x => Returns x
      | None => Raises IndexError
      end
  | JStr s =>
      match String.get i s with
      | Some c => Returns (JStr (String c ""))
      | None => Raises IndexError
      end
  | JObj _ => Raises KeyError
  | _ => Raises TypeError
  end.

(** [v[:n]]; on a dict the exception is TypeError before Python 3.12 and
    KeyError from then on, and stands here as TypeError. *)
Definition py_slice_prefix (v : json) (n : nat) : outcome json :=
  match v with
  | JArr items => Returns (JArr (firstn n items))
  | JStr s => Returns (JStr (String.substring 0 n s))
  | _ => Raises TypeError
  end.

(** The elements [for x in v] visits; a [str] is read character by
    character as [string] has it. *)
Definition py_iter (v : json) : outcome (list json) :=
  match v with
  | JArr items => Returns items
  | JStr s => Returns (map (fun c => JStr (String c "")) (list_ascii_of_string s))
  | JObj members => Returns (map (fun kv => JStr (fst kv)) members)
  | _ => Raises TypeError
  end.

(** [len(v)] *)
Definition py_len (v : json) : outcome nat :=
  match v with
  | JArr items => Returns (List.length items)
  | JStr s => Returns (String.length s)
  | JObj members => Returns (List.length members)
  | _ => Raises TypeError
  end.

(** A list comprehension [[f(x) for x in l]]: the first raise wins. *)
Fixpoint comprehension {A B : Type} (f : A -> outcome B) (l : list A)
  : outcome (list B) :=
  match l with
  | [] => Returns []
  | x :: rest =>
      and_then (f x) (fun y =>
      and_then (comprehension f rest) (fun ys => Returns (y :: ys)))
  end.

(** What the checks read of a shapely [Polygon]. *)
Record Polygon : Type := mkPolygon {
  interiors : list (list (Z * Z));
  is_valid : bool
}.

Definition check_holes (geom : Polygon) : outcome json :=
  match nth_error (interiors geom) 0 with
  | Some _ => Returns (JBool true)
  | None => Returns (JBool false)
  end.

Definition check_self_intersection (geom : Polygon) : outcome json :=
  Returns (JBool (negb (is_valid geom))).

Section Checks.

Variable py_repr : json -> string.

Definition check_excessive_coordinate_precision (geometry : json) : outcome json :=
  and_then (py_getitem_str geometry "coordinates") (fun coordinates =>
  and_then (py_getitem_int coordinates 0) (fun coords =>
  and_then (py_slice_prefix coords 2) (fun first_two =>
  and_then (py_iter first_two) (fun pairs =>
  and_then
    (comprehension
       (fun coord =>
          and_then (py_getitem_int coord 0) (fun x =>
          match nth_error (py_split "." (py_str py_repr x)) 1 with
          | Some decimals => Returns (6 <? String.length decimals)%nat
          | None => Raises IndexError
          end))
       pairs)
    (fun verdicts => Returns (JBool (existsb (fun b => b) verdicts))))))).

(** The inner loops of [check_more_than_2d_coordinates]: [Some true] when a
    [return True] is reached, [None] when the loops run to their end. *)
Fixpoint any_coord_longer (ring : list json) : outcome (option bool) :=
  match ring with
  | [] => Returns None
  | coord :: rest =>
      and_then (py_len coord) (fun n =>
      if (2 <? n)%nat then Returns (Some true) else any_coord_longer rest)
  end.

Fixpoint any_ring_longer (rings : list json) : outcome (option bool) :=
  match rings with
  | [] => Returns None
  | ring :: rest =>
      and_then (py_iter ring) (fun coords =>
      and_then (any_coord_longer coords) (fun found =>
      match found with
      | Some b => Returns (Some b)
      | None => any_ring_longer rest
      end))
  end.

Definition check_more_than_2d_coordinates (geometry : json)
  (check_all_coordinates : bool) : outcome json :=
  and_then (py_getitem_str geometry "coordinates") (fun coordinates =>
  and_then (py_getitem_int coordinates 0) (fun coords =>
  and_then (py_getitem_int coords 0) (fun first_coord =>
  and_then (py_len first_coord) (fun n =>
  if (2 <? n)%nat then Returns (JBool true)
  else if check_all_coordinates then
    and_then (py_iter coords) (fun rings =>
    and_then (any_ring_longer rings) (fun found =>
    match found with
    | Some b => Returns (JBool b)
    | None => Returns JNull
    end))
  else Returns (JBool false))))).

(** The body is [pass]: the call returns [None]. *)
Definition check_crosses_antimeridian (geom : Polygon) : outcome json :=
  Returns JNull.

End Checks.

(** [True] or [False], the values a [-> bool] function may return. *)
Definition returns_bool (o : outcome json) : Prop :=
  exists b : bool, o = Returns (JBool b).

(* ================================================================== *)
(** * Documents used below *)
(* ================================================================== *)

(** {"type": ty, "coordinates": coordinates} *)
Definition geometry_doc (ty : string) (coordinates : json) : json :=
  JObj [("type", JStr ty); ("coordinates", coordinates)].

(** {"type": "FeatureCollection", "features": features} *)
Definition feature_collection_doc (feats : list json) : json :=
  JObj [("type", JStr "FeatureCollection"); ("features", JArr feats)].

(** {"type": "Feature", "properties": null, "geometry": null} *)
Definition bare_feature : json :=
  JObj [("type", JStr "Feature"); ("properties", JNull); ("geometry", JNull)].

(** {"geometry": {"type": "Point", "coordinates": [1]}}: a feature without
    its "type" member. *)
Definition untyped_feature : json :=
  JObj [("geometry", geometry_doc "Point" (JArr [JInt 1]))].

(** {"type": "Feature", "properties": {}, "geometry": {}} *)
Definition feature_with_empty_geometry : json :=
  JObj [("type", JStr "Feature"); ("properties", JObj []); ("geometry", JObj [])].

(** {"type": "GeometryCollection", "geometries": geoms} *)
Definition geometry_collection_doc (geoms : list json) : json :=
  JObj [("type", JStr "GeometryCollection"); ("geometries", JArr geoms)].

(** [[[1, 2], [3, 4]]]: one ring of two positions, the nesting of a Polygon. *)
Definition polygon_coordinates : json :=
  JArr [JArr [JArr [JInt 1; JInt 2]; JArr [JInt 3; JInt 4]]].

(** [[[0, 0], [4, 0], [4, 4], [0, 0]]]: a closed ring with integer coordinates. *)
Definition integer_ring : json :=
  JArr [JArr [JArr [JInt 0; JInt 0]; JArr [JInt 4; JInt 0];
              JArr [JInt 4; JInt 4]; JArr [JInt 0; JInt 0]]].

(** A source map that places every value on the first line, and a [repr]
    that prints a placeholder: instances for the closed examples below. *)
Definition first_line_map : json -> string -> option nat := fun _ _ => Some 0.

Definition opaque_repr : json -> string := fun _ => "<repr>".

(** Array nesting [depth] levels above positions, a position being an
    array of values that are not arrays. *)
Fixpoint nested_positions (depth : nat) (v : json) : bool :=
  match depth with
  | O =>
      match v with
      | JArr items => forallb (fun x => negb (is_list x)) items
      | _ => false
      end
  | S depth' =>
      match v with
      | JArr items => forallb (nested_positions depth') items
      | _ => false
      end
  end.

(** Number of position elements under [depth] levels of arrays. *)
Fixpoint leaf_count (depth : nat) (v : json) : nat :=
  match depth with
  | O =>
      match v with
      | JArr items => List.length items
      | _ => 0
      end
  | S depth' =>
      match v with
      | JArr items => list_sum (map (leaf_count depth') items)
      | _ => 0
      end
  end.

(** One call of [_add_error], as data: message, line, feature index. *)
Definition event : Type := (string * option nat * option nat)%type.

(** The dict after the calls of [log], in order. *)
Definition replay (log : list event) (errs : report) : report :=
  fold_left (fun acc ev => record_error (fst (fst ev)) (snd (fst ev)) (snd ev) acc)
            log errs.

(** An entry that kept what it had and possibly gained occurrences. *)
Definition entry_extends (e e' : error_entry) : Prop :=
  exists ls fs,
    lines e' = (lines e ++ ls)%list /\ features e' = (features e ++ fs)%list.

(** Every entry of [old] is still in [new], extended. *)
Definition report_persists (old new : report) : Prop :=
  forall message e,
    report_lookup message old = Some e ->
    exists e', report_lookup message new = Some e' /\ entry_extends e e'.

(** The report of a run that recorded [message] [n] times and nothing else. *)
Definition repeated_entry (message : string) (line fidx : option nat) (n : nat)
  : report :=
  match n with
  | O => []
  | S _ => [(message, mkEntry (repeat line n) (repeat fidx n))]
  end.

(** The instances one walk passes through: the line map [entries] and the
    feature index [fidx] stay as they are. *)
Definition walking (entries : string -> option nat) (fidx : option nat)
  (self : GeoJsonLint) : Prop :=
  line_map self = Some entries /\ feature_idx self = fidx.

(** A method that records [count] times the event [ev] and returns. *)
Definition emits (entries : string -> option nat) (fidx : option nat)
  (ev : event) (count : nat) (m : M unit) : Prop :=
  forall self, walking entries fidx self ->
    m self = (Returns tt, with_errors (replay (repeat ev count) (errors self)) self).

(** The message recorded where a value that is not an array is met with
    [levels_left] levels still to descend. *)
Definition leaf_message (levels_left : nat) : string :=
  match levels_left with
  | O => msg_position_array
  | S _ => msg_coordinates_array
  end.

(** An instance in the middle of a walk that started from the report
    [errs0]: its line map is set, and its report is [errs0] plus a log of
    recorded events. *)
Definition well_started (errs0 : report) (self : GeoJsonLint) : Prop :=
  line_map self <> None /\ exists log, errors self = replay log errs0.

(** [m] returns, on every such instance, a value satisfying [Q], and leaves
    such an instance. *)
Definition safe {A : Type} (errs0 : report) (Q : A -> Prop) (m : M A) : Prop :=
  forall self, well_started errs0 self ->
    exists a self', m self = (Returns a, self') /\ well_started errs0 self' /\ Q a.

(** Any returned value will do. *)
Definition anything {A : Type} : A -> Prop := fun _ => True.

(** An instance in the middle of a walk inside the feature at index 0, with
    every value on the first line and an empty report. *)
Definition inside_first_feature : GeoJsonLint :=
  mkLint false (Some 0) (Some (fun _ => Some 0)) [].

(** An instance as a lint call on a FeatureCollection of one feature leaves
    it when nothing was wrong: feature index 0, empty report. *)
Definition after_clean_collection : GeoJsonLint :=
  mkLint false (Some 0) (Some (first_line_map (feature_collection_doc [bare_feature]))) [].

(* ================================================================== *)
(** * Shapes of reports and of coordinates *)
(* ================================================================== *)

(** An entry as [_add_error] builds it: as many lines as feature indices,
    and at least one occurrence. *)
Definition entry_ok (e : error_entry) : Prop :=
  List.length (lines e) = List.length (features e) /\ lines e <> [].

(** A report as a dict holds it: one entry per message text. *)
Definition report_ok (errs : report) : Prop :=
  NoDup (map fst errs) /\ Forall (fun kv => entry_ok (snd kv)) errs.

(** A position as the leaf check wants it: an array of two or three
    numbers. *)
Definition is_position (v : json) : bool :=
  match v with
  | JArr items =>
      (2 <=? List.length items)%nat && (List.length items <=? 3)%nat
      && forallb is_int_or_float items
  | _ => false
  end.

(** Positions under exactly [depth] levels of arrays. *)
Fixpoint well_nested (depth : nat) (v : json) : bool :=
  match depth with
  | O => is_position v
  | S depth' =>
      match v with
      | JArr items => forallb (well_nested depth') items
      | _ => false
      end
  end.

(** The depth [_validate_geometry] validates the coordinates of each leaf
    geometry type at; [None] for every other type name. *)
Definition coordinates_depth (ty : string) : option nat :=
  if String.eqb ty "Point" then Some 0
  else if String.eqb ty "LineString" || String.eqb ty "MultiPoint" then Some 1
  else if String.eqb ty "Polygon" || String.eqb ty "MultiLineString" then Some 2
  else if String.eqb ty "MultiPolygon" then Some 3
  else None.

(** The four messages of the position validators. *)
Definition position_messages : list string :=
  [msg_position_array; msg_position_length; msg_position_number;
   msg_coordinates_array].

(** Every event of a log, and every entry of a report, within given bounds
    on message, line and feature index. *)
Definition log_all (PM : string -> Prop) (PL PF : option nat -> Prop)
  (log : list event) : Prop :=
  Forall (fun ev => PM (fst (fst ev)) /\ PL (snd (fst ev)) /\ PF (snd ev)) log.

Definition report_all (PM : string -> Prop) (PL PF : option nat -> Prop)
  (errs : report) : Prop :=
  Forall (fun kv => PM (fst kv) /\ Forall PL (lines (snd kv))
                    /\ Forall PF (features (snd kv))) errs.

(** What a position validator leaves on [self]: the events of [log], each
    one of the four position messages, at the line of [path] and with the
    feature index [fidx]. *)
Definition position_run (entries : string -> option nat) (fidx : option nat)
  (path : string) (log : list event) (m : M unit) (self : GeoJsonLint) : Prop :=
  m self = (Returns tt, with_errors (replay log (errors self)) self)
  /\ log_all (fun message => In message position_messages)
             (eq (one_indexed entries path)) (eq fidx) log.

(** An instance in the middle of a walk that started from the report
    [errs0]: the line map is set, [check_crs] is [crs0], the feature index
    is within [J], and the report is [errs0] plus a log of events whose
    messages are within [PM] and whose feature indices are within [J]. *)
Definition tracked (PM : string -> Prop) (J : option nat -> Prop) (crs0 : bool)
  (errs0 : report) (self : GeoJsonLint) : Prop :=
  line_map self <> None
  /\ check_crs self = crs0
  /\ J (feature_idx self)
  /\ exists log, log_all PM (fun _ => True) J log /\ errors self = replay log errs0.

(** [m] returns, on every such instance, a value satisfying [Q], and leaves
    such an instance. *)
Definition keeps {A : Type} (PM : string -> Prop) (J : option nat -> Prop)
  (crs0 : bool) (errs0 : report) (Q : A -> Prop) (m : M A) : Prop :=
  forall self, tracked PM J crs0 errs0 self ->
    exists a self',
      m self = (Returns a, self') /\ tracked PM J crs0 errs0 self' /\ Q a.

(** The feature indices a report on [doc] may carry: none, or the index of
    an element of the "features" array of a root FeatureCollection. *)
Definition feature_index_of (doc : json) (f : option nat) : Prop :=
  match f with
  | None => True
  | Some i =>
      exists members feats,
        doc = JObj members
        /\ dict_get "type" members = JStr "FeatureCollection"
        /\ dict_lookup "features" members = Some (JArr feats)
        /\ i < List.length feats
  end.

(** The message texts of the validator. *)
Definition fixed_messages : list string :=
  [msg_root; msg_crs; msg_feature_object; msg_feature_id; msg_missing_type;
   msg_position_array; msg_position_length; msg_position_number;
   msg_coordinates_array].

Definition known_message (py_repr : json -> string) (message : string) : Prop :=
  In message fixed_messages
  \/ (exists obj_type allowed, message = msg_invalid_type py_repr obj_type allowed)
  \/ (exists name, message = msg_member_required name)
  \/ (exists name v, message = msg_member_array name v)
  \/ (exists name v, message = msg_member_object name v).

(** Every message the walk can record is within [PM]; the CRS message
    only has to be when the CRS test is switched on. *)
Definition messages_within (PM : string -> Prop) (py_repr : json -> string)
  (crs0 : bool) : Prop :=
  PM msg_root
  /\ PM msg_missing_type
  /\ (forall obj_type allowed, PM (msg_invalid_type py_repr obj_type allowed))
  /\ (forall name, PM (msg_member_required name))
  /\ (forall name v, PM (msg_member_array name v))
  /\ (forall name v, PM (msg_member_object name v))
  /\ PM msg_position_array
  /\ PM msg_position_length
  /\ PM msg_position_number
  /\ PM msg_coordinates_array
  /\ PM msg_feature_id
  /\ PM msg_feature_object
  /\ (crs0 = true -> PM msg_crs).

(** The part of [_validate_feature_collection] that follows the CRS test:
    the gate on "features" and the loop over its elements. *)
Definition features_loop (py_repr : json -> string) (fuel : nat)
  (feature_collection : dict) (path : string) : M unit :=
  invalid <- _is_invalid_property feature_collection "features" "array"
               (path ++ "/features") ;;
  if negb invalid then
    features_member <- dict_getitem "features" feature_collection ;;
    feats <- as_list features_member ;;
    for_enumerate
      (fun idx feature =>
         set_feature_idx idx ;;
         match feature with
         | JObj members =>
             _validate_feature py_repr fuel members
               (path ++ "/features/" ++ str_of_nat idx)
         | _ =>
             line <- _get_line_number (path ++ "/features/" ++ str_of_nat idx) ;;
             _add_error msg_feature_object line
         end)
      0 feats
  else ret tt.

(** [c not in s] for a character [c] *)
Fixpoint no_char (c : ascii) (s : string) : bool :=
  match s with
  | EmptyString => true
  | String a s' => negb (Ascii.eqb a c) && no_char c s'
  end.

(** A line map that tells the root (line 0) from every other path (line 5). *)
Definition root_or_inner : string -> option nat :=
  fun path => if String.eqb path "" then Some 0 else Some 5.

(** The event of a feature that is not an object, at index [i]. *)
Definition non_object_event (entries : string -> option nat) (path : string)
  (i : nat) : event :=
  (msg_feature_object,
   one_indexed entries (path ++ "/features/" ++ str_of_nat i), Some i).

(** What a method does to the feature index when it returns: the indices
    before and after are related by [R]. *)
Definition idx_after {A : Type} (R : option nat -> option nat -> Prop) (m : M A)
  : Prop :=
  forall self a self',
    m self = (Returns a, self') -> R (feature_idx self) (feature_idx self').

(** The feature index an instance holds after linting [doc], given the one
    it held before: the last index of a non-empty features array of a root
    FeatureCollection, and the earlier index in every other case. *)
Definition index_left_by (doc : json) (f : option nat) : option nat :=
  match doc with
  | JObj members =>
      if py_eq_str (dict_get "type" members) "FeatureCollection" then
        match dict_lookup "features" members with
        | Some (JArr (x :: feats)) => Some (List.length feats)
        | _ => f
        end
      else f
  | _ => f
  end.

(** ** Structurally valid documents *)

(** A leaf geometry: "coordinates" holds positions at the depth of the type. *)
Definition valid_leaf (members : dict) (ty : string) : bool :=
  match coordinates_depth ty, dict_lookup "coordinates" members with
  | Some depth, Some coords => well_nested depth coords
  | _, _ => false
  end.

(** A geometry: a leaf geometry, or a GeometryCollection whose "geometries"
    is an array of geometries; [bound] limits the nesting of collections. *)
Fixpoint valid_geometry (bound : nat) (g : json) : bool :=
  match bound with
  | O => false
  | S bound' =>
      match g with
      | JObj members =>
          match dict_get "type" members with
          | JStr ty =>
              if String.eqb ty "GeometryCollection" then
                match dict_lookup "geometries" members with
                | Some (JArr geoms) => forallb (valid_geometry bound') geoms
                | _ => false
                end
              else valid_leaf members ty
          | _ => false
          end
      | _ => false
      end
  end.

(** A Feature: an optional string or integer "id", "properties" an object
    or null, "geometry" a geometry or null. *)
Definition valid_feature (bound : nat) (members : dict) : bool :=
  py_eq_str (dict_get "type" members) "Feature"
  && (negb (dict_contains "id" members) || is_str_or_int (dict_get "id" members))
  && match dict_lookup "properties" members with
     | Some JNull | Some (JObj _) => true
     | _ => false
     end
  && match dict_lookup "geometry" members with
     | Some JNull => true
     | Some g => valid_geometry bound g
     | None => false
     end.

(** A document: a FeatureCollection of Features (without "crs" when the
    CRS test is on), a Feature, or a geometry. *)
Definition valid_document (bound : nat) (crs : bool) (doc : json) : bool :=
  match doc with
  | JObj members =>
      if py_eq_str (dict_get "type" members) "FeatureCollection" then
        negb (crs && dict_contains "crs" members)
        && match dict_lookup "features" members with
           | Some (JArr feats) =>
               forallb (fun feature =>
                          match feature with
                          | JObj fm => valid_feature bound fm
                          | _ => false
                          end) feats
           | _ => false
           end
      else if py_eq_str (dict_get "type" members) "Feature" then
        valid_feature bound members
      else valid_geometry bound doc
  | _ => false
  end.

(** [m] returns a value satisfying [Q] and records nothing, on every
    instance whose line map is set and whose [check_crs] is [crs0]. *)
Definition quiet {A : Type} (crs0 : bool) (Q : A -> Prop) (m : M A) : Prop :=
  forall self,
    line_map self <> None -> check_crs self = crs0 ->
    exists a self',
      m self = (Returns a, self')
      /\ errors self' = errors self
      /\ line_map self' <> None
      /\ check_crs self' = crs0
      /\ Q a.

(** A Feature that is valid apart from its "id", which is not looked at. *)
Definition valid_feature_rest (bound : nat) (members : dict) : bool :=
  py_eq_str (dict_get "type" members) "Feature"
  && match dict_lookup "properties" members with
     | Some JNull | Some (JObj _) => true
     | _ => false
     end
  && match dict_lookup "geometry" members with
     | Some JNull => true
     | Some g => valid_geometry bound g
     | None => false
     end.

(** ** Calls of [_add_error], whatever report the instance holds *)

(** The message of an event. *)
Definition event_message (ev : event) : string := fst (fst ev).

(** The messages of [messages] that are not in [seen], each once, in the
    order in which [messages] first has them: the keys a dict gains. *)
Fixpoint first_seen (seen messages : list string) : list string :=
  match messages with
  | [] => []
  | m :: rest =>
      if existsb (fun k => String.eqb k m) seen then first_seen seen rest
      else m :: first_seen (seen ++ [m])%list rest
  end.

(** [m] returns, on every instance whose line map is set, a value
    satisfying [Q]; the value, the events it records and the attributes it
    leaves are the same whatever report the instance holds, and the report
    it leaves is the held one with those events applied. *)
Definition steady {A : Type} (Q : A -> Prop) (m : M A) : Prop :=
  forall self, line_map self <> None ->
    exists a log self',
      Q a
      /\ line_map self' <> None
      /\ forall held,
           m (with_errors held self) =
           (Returns a, with_errors (replay log held) self').


(** An instance that holds a report of two messages from earlier calls. *)
Definition after_two_messages : GeoJsonLint :=
  mkLint false None None
    [(msg_root, mkEntry [Some 0] [None]);
     (msg_missing_type, mkEntry [Some 1; Some 7] [None; Some 2])].

(* ================================================================== *)
(** * Sanity checks of the Python primitives *)
(* ================================================================== *)

Example split_examples :
  py_split "." "1.25" = ["1"; "25"] /\
  py_split "." "17" = ["17"] /\
  py_split "/type" "/features/0/type" = ["/features/0"; ""] /\
  split_head "/type" "" = "" /\
  split_head "/geometry" "/features/3/geometry" = "/features/3" /\
  str_of_nat 0 = "0" /\ str_of_nat 12 = "12" /\ str_of_Z (-7) = "-7" /\
  repr_words ["Feature"] = "['Feature']".
Proof. repeat split; reflexivity. Qed.

Example truthiness_examples :
  py_truthy (JObj []) = false /\ py_truthy (JStr "") = false /\
  py_truthy (JInt 0) = false /\ py_truthy (JFloat S754_nan) = true /\
  py_truthy (JStr "Point") = true /\ py_truthy (JArr [JNull]) = true.
Proof. repeat split; reflexivity. Qed.

(* ================================================================== *)
(** * Leaf position checks *)
(* ================================================================== *)

(** Linting a Point whose coordinates are the array [items], on a new
    instance: the two leaf checks decide the whole report. *)
Lemma lint_point (source_map : json -> string -> option nat)
  (py_repr : json -> string) (check_crs : bool) (items : list json) :
  let doc := geometry_doc "Point" (JArr items) in
  let line := one_indexed (source_map doc) "/coordinates" in
  fst (lint source_map py_repr doc (__init__ check_crs)) =
  Returns
    ((if (List.length items <? 2)%nat || (3 <? List.length items)%nat
      then [(msg_position_length, mkEntry [line] [None])] else []) ++
     (if negb (forallb is_int_or_float items)
      then [(msg_position_number, mkEntry [line] [None])] else []))%list.
Proof.
  intros doc line. subst doc line.
  unfold lint, geometry_doc, bind, set_line_map, _validate_geojson_root.
  cbn -[Nat.ltb forallb one_indexed].
  destruct ((List.length items <? 2)%nat || (3 <? List.length items)%nat);
    destruct (forallb is_int_or_float items); reflexivity.
Qed.

(** C4: the two leaf position checks fire independently of each other.
    Linting {"type": "Point", "coordinates": [1]} on a new validator returns
    exactly the length message; linting {"type": "Point", "coordinates": ["a"]}
    returns the length message and the number message; and for every array
    of coordinates each message is present exactly when its own test fails. *)
Theorem position_checks_fire_independently :
  forall (source_map : json -> string -> option nat) (py_repr : json -> string)
         (check_crs : bool),
    let run := fun doc => fst (lint source_map py_repr doc (__init__ check_crs)) in
    let at_coordinates := fun doc => one_indexed (source_map doc) "/coordinates" in
    run (geometry_doc "Point" (JArr [JInt 1])) =
      Returns
        [("Coordinate position must have exactly 2 or 3 values",
          mkEntry [at_coordinates (geometry_doc "Point" (JArr [JInt 1]))] [None])]
    /\ run (geometry_doc "Point" (JArr [JStr "a"])) =
      Returns
        [("Coordinate position must have exactly 2 or 3 values",
          mkEntry [at_coordinates (geometry_doc "Point" (JArr [JStr "a"]))] [None]);
         ("Each element in a coordinate position must be a number",
          mkEntry [at_coordinates (geometry_doc "Point" (JArr [JStr "a"]))] [None])]
    /\ forall items : list json,
        exists errs,
          run (geometry_doc "Point" (JArr items)) = Returns errs
          /\ has_message "Coordinate position must have exactly 2 or 3 values" errs
             = ((List.length items <? 2)%nat || (3 <? List.length items)%nat)
          /\ has_message "Each element in a coordinate position must be a number" errs
             = negb (forallb is_int_or_float items).
Proof.
  intros source_map py_repr check_crs run at_coordinates.
  split; [reflexivity | split; [reflexivity | ]].
  intros items. subst run. cbv beta.
  rewrite lint_point. eexists. split; [reflexivity | ].
  destruct ((List.length items <? 2)%nat || (3 <? List.length items)%nat);
    destruct (forallb is_int_or_float items); split; reflexivity.
Qed.

(** C10: JSON booleans pass the numeric test of a position.  Linting
    {"type": "Point", "coordinates": [true, false]} on a new validator
    returns the empty report. *)
Theorem boolean_coordinates_are_numbers :
  forall (source_map : json -> string -> option nat) (py_repr : json -> string)
         (check_crs : bool),
    fst (lint source_map py_repr
           (geometry_doc "Point" (JArr [JBool true; JBool false]))
           (__init__ check_crs)) = Returns []
    /\ forall b : bool, is_int_or_float (JBool b) = true.
Proof.
  intros. split; [reflexivity | intros b; reflexivity].
Qed.

(* ================================================================== *)
(** * Required members and the features loop *)
(* ================================================================== *)

(** An explicit null under "geometry" or "properties" passes the
    object gate without a message. *)
Lemma null_member_passes (obj : dict) (name path : string) (self : GeoJsonLint) :
  In name ["geometry"; "properties"] ->
  dict_lookup name obj = Some JNull ->
  _is_invalid_property obj name "object" path self = (Returns false, self).
Proof.
  intros Hname Hnull. unfold _is_invalid_property. rewrite Hnull.
  destruct Hname as [<- | [<- | []]]; reflexivity.
Qed.

(** C5: linting the FeatureCollection whose features are
    [{"type": "Feature", "properties": null, "geometry": null}, 42] returns
    exactly one entry, "Every feature must be a dictionary/object.", recorded
    once with feature index 1; the feature at index 0, with its two explicit
    nulls, contributes nothing; and in every object an explicit null under
    "properties" or "geometry" passes the object gate without a message. *)
Theorem null_members_accepted_and_non_object_feature_reported :
  forall (source_map : json -> string -> option nat) (py_repr : json -> string)
         (check_crs : bool),
    let doc := feature_collection_doc [bare_feature; JInt 42] in
    fst (lint source_map py_repr doc (__init__ check_crs)) =
      Returns
        [("Every feature must be a dictionary/object.",
          mkEntry [one_indexed (source_map doc) "/features/1"] [Some 1])]
    /\ fst (lint source_map py_repr (feature_collection_doc [bare_feature])
              (__init__ check_crs)) = Returns []
    /\ forall (obj : dict) (name path : string) (self : GeoJsonLint),
        name = "properties" \/ name = "geometry" ->
        dict_lookup name obj = Some JNull ->
        _is_invalid_property obj name "object" path self = (Returns false, self).
Proof.
  intros source_map py_repr check_crs doc. subst doc.
  split; [destruct check_crs; reflexivity | ].
  split; [destruct check_crs; reflexivity | ].
  intros obj name path self Hname Hnull.
  apply null_member_passes; [ | assumption].
  destruct Hname as [-> | ->]; cbn; auto.
Qed.

(** {"properties": null} passes the object gate for "properties". *)
Lemma null_members_accepted_witness :
  _is_invalid_property [("properties", JNull)] "properties" "object"
    "/features/0/properties" inside_first_feature =
  (Returns false, inside_first_feature).
Proof.
  exact (proj2 (proj2
           (null_members_accepted_and_non_object_feature_reported
              first_line_map opaque_repr false))
           [("properties", JNull)] "properties" "/features/0/properties"
           inside_first_feature (or_introl eq_refl) eq_refl).
Defined.

(* ================================================================== *)
(** * Places where the walk departs from the specification *)
(* ================================================================== *)

(** C1: a feature inside a FeatureCollection whose "type" member is
    missing fails the type gate, and the walk goes on below it all the same:
    linting {"type": "FeatureCollection", "features": [{"geometry": {"type":
    "Point", "coordinates": [1]}}]} records the missing type and then two
    errors found under that feature. *)
Theorem feature_gate_failure_does_not_stop_descent :
  forall (source_map : json -> string -> option nat) (py_repr : json -> string)
         (check_crs : bool),
    let doc := feature_collection_doc [untyped_feature] in
    let line := one_indexed (source_map doc) in
    fst (lint source_map py_repr doc (__init__ check_crs)) =
      Returns
        [("Missing 'type' member", mkEntry [line "/features/0"] [Some 0]);
         (msg_member_required "properties", mkEntry [line "/features/0"] [Some 0]);
         ("Coordinate position must have exactly 2 or 3 values",
          mkEntry [line "/features/0/geometry/coordinates"] [Some 0])].
Proof.
  intros source_map py_repr check_crs doc line. subst doc line.
  destruct check_crs; reflexivity.
Qed.

(** C3: the list the geometry gate checks against has nine entries and
    contains "Feature" and "FeatureCollection"; a geometry node of either
    type inside a GeometryCollection is accepted without any message. *)
Theorem geometry_gate_admits_feature_types :
  List.length GEOMETRY_TYPES = 9
  /\ In "Feature" GEOMETRY_TYPES
  /\ In "FeatureCollection" GEOMETRY_TYPES
  /\ forall (source_map : json -> string -> option nat) (py_repr : json -> string)
            (check_crs : bool),
      fst (lint source_map py_repr
             (geometry_collection_doc [geometry_doc "Feature" (JArr [])])
             (__init__ check_crs)) = Returns []
      /\ fst (lint source_map py_repr
                (geometry_collection_doc [geometry_doc "FeatureCollection" (JArr [])])
                (__init__ check_crs)) = Returns [].
Proof.
  split; [reflexivity | ].
  split; [cbn; tauto | ].
  split; [cbn; tauto | ].
  intros. split; reflexivity.
Qed.

(** C8: a Feature whose "geometry" is the empty object is not handed to the
    geometry validator: linting {"type": "Feature", "properties": {},
    "geometry": {}} returns the empty report, while the same empty object as
    a member of a GeometryCollection is reported for its missing type. *)
Theorem empty_geometry_object_is_not_validated :
  forall (source_map : json -> string -> option nat) (py_repr : json -> string)
         (check_crs : bool),
    fst (lint source_map py_repr feature_with_empty_geometry (__init__ check_crs))
      = Returns []
    /\ fst (lint source_map py_repr (geometry_collection_doc [JObj []])
              (__init__ check_crs))
      = Returns
          [("Missing 'type' member",
            mkEntry [one_indexed (source_map (geometry_collection_doc [JObj []]))
                       "/geometries/0"] [None])].
Proof.
  intros. split; reflexivity.
Qed.

(** C9: geometries the linter accepts without any message on which a
    downstream check raises, and a check that returns [None]:
    the precision check raises IndexError on a Polygon with integer
    coordinates and TypeError on a Point; the antimeridian check returns
    [None] for every polygon. *)
Theorem downstream_checks_raise_or_return_none :
  forall (source_map : json -> string -> option nat) (py_repr : json -> string),
    fst (lint source_map py_repr (geometry_doc "Polygon" integer_ring) (__init__ false))
      = Returns []
    /\ check_excessive_coordinate_precision py_repr (geometry_doc "Polygon" integer_ring)
      = Raises IndexError
    /\ fst (lint source_map py_repr (geometry_doc "Point" (JArr [JInt 1; JInt 2]))
              (__init__ false))
      = Returns []
    /\ check_excessive_coordinate_precision py_repr
         (geometry_doc "Point" (JArr [JInt 1; JInt 2]))
      = Raises TypeError
    /\ check_more_than_2d_coordinates (geometry_doc "Point" (JArr [JInt 1; JInt 2])) false
      = Raises TypeError
    /\ (forall geom : Polygon,
          check_crosses_antimeridian geom = Returns JNull
          /\ ~ returns_bool (check_crosses_antimeridian geom)).
Proof.
  intros source_map py_repr.
  do 5 (split; [reflexivity | ]).
  intros geom. split; [reflexivity | ].
  intros [b Hb]. discriminate Hb.
Qed.

(* ================================================================== *)
(** * The type-membership gate *)
(* ================================================================== *)

Lemma append_empty_r (s : string) : s ++ "" = s.
Proof. induction s as [| c s IH]; cbn; [reflexivity | now rewrite IH]. Qed.

Lemma append_assoc (s1 s2 s3 : string) : (s1 ++ s2) ++ s3 = s1 ++ (s2 ++ s3).
Proof. induction s1 as [| c s1 IH]; cbn; [reflexivity | now rewrite IH]. Qed.










(* ================================================================== *)
(** * Coordinates that are not nested deeply enough *)
(* ================================================================== *)

Lemma replay_app (log1 log2 : list event) (errs : report) :
  replay (log1 ++ log2)%list errs = replay log2 (replay log1 errs).
Proof. unfold replay. apply fold_left_app. Qed.

Lemma replay_repeat_add (ev : event) (n1 n2 : nat) (errs : report) :
  replay (repeat ev (n1 + n2)) errs = replay (repeat ev n2) (replay (repeat ev n1) errs).
Proof. now rewrite repeat_app, replay_app. Qed.

(** Recording the same message again extends the one entry it has. *)
Lemma replay_repeat_single (message : string) (line fidx : option nat)
  (n : nat) (ls fs : list (option nat)) :
  replay (repeat (message, line, fidx) n) [(message, mkEntry ls fs)] =
  [(message, mkEntry (ls ++ repeat line n)%list (fs ++ repeat fidx n)%list)].
Proof.
  revert ls fs. induction n as [| n IH]; intros ls fs.
  - cbn. now rewrite !app_nil_r.
  - cbn [repeat replay fold_left fst snd record_error lines features].
    rewrite String.eqb_refl. fold (replay (repeat (message, line, fidx) n)).
    rewrite IH. cbn [lines features]. now rewrite <- !app_assoc.
Qed.

(** The report of a run that recorded one message [n] times and nothing else. *)
Lemma replay_repeat_fresh (message : string) (line fidx : option nat) (n : nat) :
  replay (repeat (message, line, fidx) n) [] = repeated_entry message line fidx n.
Proof.
  destruct n as [| n]; [reflexivity | ].
  cbn [repeat replay fold_left fst snd record_error].
  fold (replay (repeat (message, line, fidx) n)).
  now rewrite replay_repeat_single.
Qed.

Lemma list_sum_ones {A : Type} (l : list A) :
  list_sum (map (fun _ => 1) l) = List.length l.
Proof.
  induction l as [| x l IH]; [reflexivity | ].
  change (list_sum (map (fun _ : A => 1) (x :: l)))
    with (1 + list_sum (map (fun _ : A => 1) l)).
  rewrite IH. reflexivity.
Qed.

Section Shallow.

Variable entries : string -> option nat.
Variable fidx : option nat.
Variable path : string.

Lemma walking_with_errors (errs : report) (self : GeoJsonLint) :
  walking entries fidx self -> walking entries fidx (with_errors errs self).
Proof. intros [H1 H2]. split; assumption. Qed.

Lemma for_each_emits (ev : event) (count : json -> nat) (body : json -> M unit)
  (items : list json) :
  (forall x, In x items -> emits entries fidx ev (count x) (body x)) ->
  emits entries fidx ev (list_sum (map count items)) (for_each body items).
Proof.
  induction items as [| x items IH]; intros Hbody self Hself.
  - cbn. unfold ret, with_errors. destruct self; reflexivity.
  - change (list_sum (map count (x :: items)))
      with (count x + list_sum (map count items)).
    cbn [for_each]. unfold bind.
    rewrite (Hbody x (or_introl eq_refl) self Hself).
    rewrite IH.
    + rewrite replay_repeat_add. reflexivity.
    + intros y Hy. apply Hbody. now right.
    + now apply walking_with_errors.
Qed.

Lemma non_array_emits (levels_left : nat) (x : json) :
  is_list x = false ->
  emits entries fidx (leaf_message levels_left, one_indexed entries path, fidx) 1
        (_validate_position_array x levels_left path).
Proof.
  intros Hx self [Hmap Hidx].
  destruct levels_left as [| k]; destruct x; try discriminate Hx;
    cbn [_validate_position_array _validate_position leaf_message];
    unfold bind, _get_line_number, _add_error; rewrite Hmap, Hidx; reflexivity.
Qed.

(** Coordinates nested [depth] levels above positions, validated at a
    depth [extra + 1] greater: every position element is met where an array
    is expected, [extra] levels above the leaf check. *)
Lemma too_shallow_emits (extra depth : nat) (v : json) :
  nested_positions depth v = true ->
  emits entries fidx (leaf_message extra, one_indexed entries path, fidx) (leaf_count depth v)
        (_validate_position_array v (S depth + extra) path).
Proof.
  revert v. induction depth as [| depth IH]; intros v Hv.
  - destruct v; try discriminate Hv. cbn [nested_positions] in Hv.
    cbn [plus leaf_count _validate_position_array].
    rewrite <- (list_sum_ones items).
    apply for_each_emits. intros x Hx.
    rewrite forallb_forall in Hv. specialize (Hv x Hx).
    apply non_array_emits. now apply negb_true_iff in Hv.
  - destruct v; try discriminate Hv. cbn [nested_positions] in Hv.
    cbn [plus leaf_count _validate_position_array].
    apply for_each_emits. intros x Hx.
    rewrite forallb_forall in Hv. specialize (Hv x Hx).
    apply (IH x Hv).
Qed.

End Shallow.

(** Linting a MultiPolygon whose coordinates are an array comes down to the
    depth-3 walk over them, started on the instance [lint] has prepared. *)
Lemma lint_multipolygon (source_map : json -> string -> option nat)
  (py_repr : json -> string) (check_crs : bool) (items : list json) :
  let doc := geometry_doc "MultiPolygon" (JArr items) in
  fst (lint source_map py_repr doc (__init__ check_crs)) =
  match _validate_position_array (JArr items) 3 "/coordinates"
          (mkLint check_crs None (Some (source_map doc)) []) with
  | (Returns _, self) => Returns (errors self)
  | (Raises e, _) => Raises e
  end.
Proof.
  intros doc. subst doc.
  unfold lint, geometry_doc, bind, set_line_map, _validate_geojson_root.
  cbn -[_validate_position_array].
  destruct (_validate_position_array (JArr items) 3 "/coordinates" _) as [[u | e] self];
    reflexivity.
Qed.

Lemma lint_multipolygon_too_shallow (source_map : json -> string -> option nat)
  (py_repr : json -> string) (check_crs : bool) (extra depth : nat) (coords : json) :
  S depth + extra = 3 ->
  nested_positions depth coords = true ->
  let doc := geometry_doc "MultiPolygon" coords in
  fst (lint source_map py_repr doc (__init__ check_crs)) =
  Returns (repeated_entry (leaf_message extra)
             (one_indexed (source_map doc) "/coordinates") None
             (leaf_count depth coords)).
Proof.
  intros Hdepth Hnested doc. subst doc.
  assert (Harr : exists items, coords = JArr items).
  { destruct depth; destruct coords; try discriminate Hnested; eauto. }
  destruct Harr as [items ->].
  rewrite lint_multipolygon. rewrite <- Hdepth.
  rewrite (too_shallow_emits
             (source_map (geometry_doc "MultiPolygon" (JArr items))) None
             "/coordinates" extra depth (JArr items) Hnested)
    by (split; reflexivity).
  cbn [errors with_errors]. unfold repeated_entry.
  now rewrite replay_repeat_fresh.
Qed.

(** C6, as the code has it: linting a MultiPolygon whose coordinates nest
    to depth 2 (arrays of arrays of positions) records "Coordinate position
    must be an array", once for every number met where a position is
    expected, and nothing else; "Coordinates must be an array" is what the
    walk records when the coordinates nest to depth 1 or 0. *)
Theorem multipolygon_shallow_coordinates :
  forall (source_map : json -> string -> option nat) (py_repr : json -> string)
         (check_crs : bool) (coords : json),
    let doc := geometry_doc "MultiPolygon" coords in
    let line := one_indexed (source_map doc) "/coordinates" in
    let report_of := fst (lint source_map py_repr doc (__init__ check_crs)) in
    (nested_positions 2 coords = true ->
       report_of =
         Returns (repeated_entry "Coordinate position must be an array" line None
                    (leaf_count 2 coords)))
    /\ (nested_positions 1 coords = true ->
          report_of =
            Returns (repeated_entry "Coordinates must be an array" line None
                       (leaf_count 1 coords)))
    /\ (nested_positions 0 coords = true ->
          report_of =
            Returns (repeated_entry "Coordinates must be an array" line None
                       (leaf_count 0 coords))).
Proof.
  intros source_map py_repr check_crs coords doc line report_of.
  subst doc line report_of. repeat split; intros Hnested.
  - exact (lint_multipolygon_too_shallow source_map py_repr check_crs 0 2 coords
             eq_refl Hnested).
  - exact (lint_multipolygon_too_shallow source_map py_repr check_crs 1 1 coords
             eq_refl Hnested).
  - exact (lint_multipolygon_too_shallow source_map py_repr check_crs 2 0 coords
             eq_refl Hnested).
Qed.

(** The claim holds at the depth-2 coordinates [[[1, 2], [3, 4]]]. *)
Lemma multipolygon_shallow_coordinates_witness :
  nested_positions 2 polygon_coordinates = true
  /\ fst (lint first_line_map opaque_repr
            (geometry_doc "MultiPolygon" polygon_coordinates) (__init__ false)) =
     Returns
       [("Coordinate position must be an array",
         mkEntry [Some 1; Some 1; Some 1; Some 1] [None; None; None; None])].
Proof.
  split; [reflexivity | ].
  exact (proj1 (multipolygon_shallow_coordinates first_line_map opaque_repr false
                  polygon_coordinates) eq_refl).
Defined.

(** Against C6 as stated: on the depth-2 coordinates [[[1, 2], [3, 4]]] the
    report has no entry "Coordinates must be an array". *)
Lemma multipolygon_depth_two_has_no_coordinates_error :
  exists errs,
    fst (lint first_line_map opaque_repr
           (geometry_doc "MultiPolygon" polygon_coordinates) (__init__ false)) =
    Returns errs
    /\ has_message "Coordinates must be an array" errs = false
    /\ map fst errs = ["Coordinate position must be an array"].
Proof.
  eexists. split; [reflexivity | split; reflexivity].
Qed.

(* ================================================================== *)
(** * The report only grows, and the walk always returns *)
(* ================================================================== *)

Lemma entry_extends_refl (e : error_entry) : entry_extends e e.
Proof. exists [], []. now rewrite !app_nil_r. Qed.

Lemma entry_extends_trans (e1 e2 e3 : error_entry) :
  entry_extends e1 e2 -> entry_extends e2 e3 -> entry_extends e1 e3.
Proof.
  intros (ls & fs & Hl & Hf) (ls' & fs' & Hl' & Hf').
  exists (ls ++ ls')%list, (fs ++ fs')%list.
  rewrite Hl', Hf', Hl, Hf. now rewrite !app_assoc.
Qed.

Lemma report_persists_refl (errs : report) : report_persists errs errs.
Proof. intros m e H. exists e. split; [assumption | apply entry_extends_refl]. Qed.

Lemma report_persists_trans (r1 r2 r3 : report) :
  report_persists r1 r2 -> report_persists r2 r3 -> report_persists r1 r3.
Proof.
  intros H12 H23 m e H.
  destruct (H12 m e H) as (e2 & H2 & Hext2).
  destruct (H23 m e2 H2) as (e3 & H3 & Hext3).
  exists e3. split; [assumption | eapply entry_extends_trans; eassumption].
Qed.

(** One more occurrence leaves every entry in place, extended or untouched. *)
Lemma record_error_persists (message : string) (line fidx : option nat)
  (errs : report) :
  report_persists errs (record_error message line fidx errs).
Proof.
  induction errs as [| [m e] errs IH]; intros m' e' Hlook.
  - discriminate Hlook.
  - cbn [record_error report_lookup] in *.
    destruct (String.eqb m message) eqn:Hm.
    + cbn [report_lookup]. destruct (String.eqb m m') eqn:Hm'.
      * injection Hlook as <-. eexists. split; [reflexivity | ].
        eexists _, _. cbn [lines features]. split; reflexivity.
      * exists e'. split; [assumption | apply entry_extends_refl].
    + cbn [report_lookup]. destruct (String.eqb m m') eqn:Hm'.
      * injection Hlook as <-. exists e. split; [reflexivity | apply entry_extends_refl].
      * apply IH. assumption.
Qed.

Lemma replay_persists (log : list event) (errs : report) :
  report_persists errs (replay log errs).
Proof.
  revert errs. induction log as [| ev log IH]; intros errs.
  - apply report_persists_refl.
  - cbn [replay fold_left]. fold (replay log).
    eapply report_persists_trans; [apply record_error_persists | apply IH].
Qed.

Lemma json_depth_array (items : list json) :
  json_depth (JArr items) = S (list_max (map json_depth items)).
Proof.
  cbn [json_depth]. f_equal.
  induction items as [| x items IH]; [reflexivity | ].
  cbn [map list_max fold_right]. now rewrite IH.
Qed.

Lemma json_depth_object (members : dict) :
  json_depth (JObj members) =
  S (list_max (map (fun kv => json_depth (snd kv)) members)).
Proof.
  cbn [json_depth]. f_equal.
  induction members as [| [k x] members IH]; [reflexivity | ].
  cbn [map list_max fold_right snd]. now rewrite IH.
Qed.

Lemma json_depth_element (x : json) (items : list json) :
  In x items -> json_depth x < json_depth (JArr items).
Proof.
  intros Hin. rewrite json_depth_array.
  assert (H : Forall (fun k => k <= list_max (map json_depth items))
                     (map json_depth items))
    by (apply list_max_le; lia).
  rewrite Forall_forall in H.
  specialize (H (json_depth x) (in_map json_depth _ _ Hin)). lia.
Qed.

Lemma json_depth_member (name : string) (v : json) (members : dict) :
  dict_lookup name members = Some v -> json_depth v < json_depth (JObj members).
Proof.
  intros Hlook. rewrite json_depth_object.
  assert (Hin : In v (map snd members)).
  { induction members as [| [k x] members IH]; [discriminate | ].
    cbn [dict_lookup] in Hlook. destruct (String.eqb k name).
    - injection Hlook as ->. now left.
    - right. now apply IH. }
  assert (H : Forall (fun k => k <= list_max (map (fun kv => json_depth (snd kv)) members))
                     (map (fun kv => json_depth (snd kv)) members))
    by (apply list_max_le; lia).
  rewrite Forall_forall in H.
  apply in_map_iff in Hin as ([k x] & <- & Hin).
  specialize (H (json_depth x)
                (in_map (fun kv => json_depth (snd kv)) _ _ Hin)). cbn [snd]. lia.
Qed.

Section Safe.

Variable errs0 : report.

Lemma safe_ret {A : Type} (Q : A -> Prop) (a : A) : Q a -> safe errs0 Q (ret a).
Proof.
  intros HQ self Hself. exists a, self.
  split; [reflexivity | split; assumption].
Qed.

Lemma safe_bind {A B : Type} (Q : A -> Prop) (R : B -> Prop) (m : M A)
  (k : A -> M B) :
  safe errs0 Q m -> (forall a, Q a -> safe errs0 R (k a)) -> safe errs0 R (bind m k).
Proof.
  intros Hm Hk self Hself.
  destruct (Hm self Hself) as (a & self' & Hrun & Hself' & HQ).
  destruct (Hk a HQ self' Hself') as (b & self'' & Hrun' & Hself'' & HR).
  exists b, self''. unfold bind. rewrite Hrun.
  split; [assumption | split; assumption].
Qed.

Lemma safe_weaken {A : Type} (Q Q' : A -> Prop) (m : M A) :
  safe errs0 Q m -> (forall a, Q a -> Q' a) -> safe errs0 Q' m.
Proof.
  intros Hm Himp self Hself.
  destruct (Hm self Hself) as (a & self' & Hrun & Hself' & HQ).
  exists a, self'. split; [assumption | split; auto].
Qed.

Lemma safe_add_error (message : string) (line : option nat) :
  safe errs0 anything (_add_error message line).
Proof.
  intros self [Hmap [log Hlog]]. eexists tt, _. split; [reflexivity | ].
  split; [ | exact I]. split; [exact Hmap | ].
  exists (log ++ [(message, line, feature_idx self)])%list.
  cbn [errors with_errors]. rewrite replay_app, <- Hlog. reflexivity.
Qed.

Lemma safe_get_line_number (path : string) :
  safe errs0 anything (_get_line_number path).
Proof.
  intros self [Hmap Hlog]. unfold _get_line_number.
  destruct (line_map self) as [entries |] eqn:E; [ | congruence].
  eexists _, self. split; [reflexivity | ].
  split; [ | exact I]. split; [congruence | exact Hlog].
Qed.

Lemma safe_get_check_crs : safe errs0 anything get_check_crs.
Proof.
  intros self Hself. exists (check_crs self), self.
  split; [reflexivity | split; [assumption | exact I]].
Qed.

Lemma safe_set_feature_idx (idx : nat) : safe errs0 anything (set_feature_idx idx).
Proof.
  intros self [Hmap Hlog]. eexists tt, _. split; [reflexivity | ].
  split; [ | exact I]. split; [exact Hmap | exact Hlog].
Qed.

Lemma safe_for_each {A : Type} (body : A -> M unit) (l : list A) :
  (forall x, In x l -> safe errs0 anything (body x)) ->
  safe errs0 anything (for_each body l).
Proof.
  induction l as [| x l IH]; intros Hbody; cbn [for_each].
  - now apply safe_ret.
  - eapply safe_bind; [apply Hbody; now left | intros _ _].
    apply IH. intros y Hy. apply Hbody. now right.
Qed.

Lemma safe_for_enumerate {A : Type} (body : nat -> A -> M unit) (l : list A) :
  forall idx,
    (forall i x, In x l -> safe errs0 anything (body i x)) ->
    safe errs0 anything (for_enumerate body idx l).
Proof.
  induction l as [| x l IH]; intros idx Hbody; cbn [for_enumerate].
  - now apply safe_ret.
  - eapply safe_bind; [apply Hbody; now left | intros _ _].
    apply IH. intros i y Hy. apply Hbody. now right.
Qed.

Create HintDb safe.

#[local] Hint Resolve safe_add_error safe_get_line_number safe_get_check_crs
  safe_set_feature_idx : safe.

#[local] Hint Extern 1 (anything _) => exact I : safe.

(** Walks through a method body made of binds, conditionals and the
    primitives above. *)
Ltac safe_walk :=
  repeat first
    [ apply safe_ret; auto with safe
    | solve [auto with safe]
    | eapply safe_bind; [ | intros ? ? ]
    | match goal with
      | |- safe _ _ (if ?c then _ else _) => destruct c
      end ].

(** The message for a failed gate: a line lookup, a record, [return True]. *)
Lemma safe_report_failure (Q : bool -> Prop) (path message : string) :
  Q true ->
  safe errs0 Q (line <- _get_line_number path ;; _add_error message line ;; ret true).
Proof.
  intros HQ.
  eapply safe_bind; [apply safe_get_line_number | intros line _].
  eapply safe_bind; [apply safe_add_error | intros _ _].
  now apply safe_ret.
Qed.

(** When the type gate passes, the object is a dict. *)
Lemma safe_type_gate (py_repr : json -> string) (obj : json)
  (allowed_types : list string) (path : string) :
  safe errs0 (fun invalid => invalid = false -> exists members, obj = JObj members)
       (_is_invalid_type_member py_repr obj allowed_types path).
Proof.
  unfold _is_invalid_type_member.
  destruct obj; try (apply safe_ret; discriminate).
  cbv zeta.
  destruct (negb (py_truthy (dict_get "type" members)));
    [apply safe_report_failure; discriminate | ].
  destruct (negb (py_in (dict_get "type" members) allowed_types));
    [apply safe_report_failure; discriminate | ].
  apply safe_ret. eauto.
Qed.

(** When the array gate passes, the member is there and is a list. *)
Lemma safe_property_gate (obj : dict) (name type_str path : string) :
  safe errs0
       (fun invalid =>
          invalid = false -> type_str = "array" ->
          exists items, dict_lookup name obj = Some (JArr items))
       (_is_invalid_property obj name type_str path).
Proof.
  unfold _is_invalid_property.
  destruct (dict_lookup name obj) as [v |];
    [ | apply safe_report_failure; discriminate].
  destruct (String.eqb type_str "array" && negb (is_list v)) eqn:Harr;
    [apply safe_report_failure; discriminate | ].
  assert (Hlist : type_str = "array" -> exists items, Some v = Some (JArr items)).
  { intros ->. rewrite String.eqb_refl in Harr. cbn [andb] in Harr.
    destruct v; try discriminate Harr. eauto. }
  destruct (String.eqb type_str "object" && negb (is_dict v)).
  - destruct (existsb (String.eqb name) ["geometry"; "properties"] && is_none v).
    + apply safe_ret. auto.
    + apply safe_report_failure. discriminate.
  - apply safe_ret. auto.
Qed.

Lemma safe_validate_position (coords : json) (path : string) :
  safe errs0 anything (_validate_position coords path).
Proof.
  unfold _validate_position. destruct coords; safe_walk.
Qed.

Lemma safe_validate_position_array (depth : nat) :
  forall (coords : json) (path : string),
    safe errs0 anything (_validate_position_array coords depth path).
Proof.
  induction depth as [| depth IH]; intros coords path;
    cbn [_validate_position_array].
  - apply safe_validate_position.
  - destruct coords; safe_walk.
    apply safe_for_each. intros p _. apply IH.
Qed.

Variable py_repr : json -> string.

Lemma bind_ret_l {A B : Type} (a : A) (k : A -> M B) : bind (ret a) k = k a.
Proof. reflexivity. Qed.

Lemma safe_validate_geometry (fuel : nat) :
  forall (geometry : json) (path : string),
    json_depth geometry < fuel ->
    safe errs0 anything (_validate_geometry py_repr fuel geometry path).
Proof.
  induction fuel as [| fuel IH]; intros geometry path Hdepth; [lia | ].
  cbn [_validate_geometry].
  eapply safe_bind; [apply safe_type_gate | intros invalid Hdict].
  destruct invalid; [now apply safe_ret | ].
  destruct (Hdict eq_refl) as [members ->]. cbv zeta.
  destruct (py_eq_str (dict_get "type" members) "GeometryCollection").
  - eapply safe_bind; [apply safe_property_gate | intros invalid Hlist].
    destruct invalid; cbn [negb]; [now apply safe_ret | ].
    destruct (Hlist eq_refl eq_refl) as [items Hitems].
    unfold dict_getitem. rewrite Hitems, bind_ret_l.
    cbn [as_list]. rewrite bind_ret_l.
    apply safe_for_enumerate. intros idx geom Hgeom. apply IH.
    pose proof (json_depth_element geom items Hgeom).
    pose proof (json_depth_member _ _ _ Hitems). lia.
  - eapply safe_bind; [apply safe_property_gate | intros invalid Hlist].
    destruct invalid; cbn [negb]; [now apply safe_ret | ].
    destruct (Hlist eq_refl eq_refl) as [items Hitems].
    unfold dict_getitem. rewrite Hitems.
    repeat match goal with
           | |- safe _ _ (if ?c then _ else _) => destruct c
           end;
      try (now apply safe_ret);
      rewrite bind_ret_l;
      first [apply safe_validate_position | apply safe_validate_position_array].
Qed.

Lemma safe_validate_feature (fuel : nat) (feature : dict) (path : string) :
  json_depth (JObj feature) <= fuel ->
  safe errs0 anything (_validate_feature py_repr fuel feature path).
Proof.
  intros Hdepth. unfold _validate_feature.
  eapply safe_bind; [apply safe_type_gate | intros _ _].
  eapply safe_bind; [safe_walk | intros _ _].
  eapply safe_bind; [apply safe_property_gate | intros _ _].
  eapply safe_bind; [apply safe_property_gate | intros _ _].
  cbv zeta. unfold dict_get.
  destruct (dict_lookup "geometry" feature) as [geom |] eqn:Hgeom.
  - destruct (py_truthy geom); [ | now apply safe_ret].
    apply safe_validate_geometry.
    pose proof (json_depth_member _ _ _ Hgeom). lia.
  - now apply safe_ret.
Qed.

Lemma safe_validate_feature_collection (fuel : nat) (feature_collection : dict)
  (path : string) :
  json_depth (JObj feature_collection) <= fuel ->
  safe errs0 anything
       (_validate_feature_collection py_repr fuel feature_collection path).
Proof.
  intros Hdepth. unfold _validate_feature_collection.
  eapply safe_bind; [apply safe_type_gate | intros _ _].
  eapply safe_bind; [apply safe_get_check_crs | intros crs _].
  eapply safe_bind; [safe_walk | intros _ _].
  eapply safe_bind; [apply safe_property_gate | intros invalid Hlist].
  destruct invalid; cbn [negb]; [now apply safe_ret | ].
  destruct (Hlist eq_refl eq_refl) as [feats Hfeats].
  unfold dict_getitem. rewrite Hfeats, bind_ret_l.
  cbn [as_list]. rewrite bind_ret_l.
  apply safe_for_enumerate. intros idx feature Hfeature.
  eapply safe_bind; [apply safe_set_feature_idx | intros _ _].
  pose proof (json_depth_element feature feats Hfeature).
  pose proof (json_depth_member _ _ _ Hfeats).
  destruct feature; try (apply safe_validate_feature; lia); safe_walk.
Qed.

Lemma safe_validate_geojson_root (fuel : nat) (obj : json) :
  json_depth obj < fuel ->
  safe errs0 anything (_validate_geojson_root py_repr fuel obj).
Proof.
  intros Hdepth. unfold _validate_geojson_root. cbv zeta.
  eapply safe_bind; [apply safe_type_gate | intros invalid Hdict].
  destruct invalid; [now apply safe_ret | ].
  destruct (Hdict eq_refl) as [members ->].
  repeat match goal with
         | |- safe _ _ (if ?c then _ else _) => destruct c
         end.
  - apply safe_validate_feature_collection. lia.
  - apply safe_validate_feature. lia.
  - now apply safe_validate_geometry.
  - now apply safe_ret.
Qed.

End Safe.

(** [lint] always returns: the value is the report the instance holds
    afterwards, which is the report it held before plus the events of this
    call. *)
Lemma lint_returns_grown_report (source_map : json -> string -> option nat)
  (py_repr : json -> string) (geojson_data : json) (self : GeoJsonLint) :
  exists errs self',
    lint source_map py_repr geojson_data self = (Returns errs, self')
    /\ errs = errors self'
    /\ exists log, errs = replay log (errors self).
Proof.
  assert (Hroot : forall v, is_dict v = false ->
            lint source_map py_repr v self =
            (fun s => (Returns (errors s), s))
              (with_errors (record_error msg_root (Some 0) (feature_idx self)
                              (errors self)) self)).
  { intros v Hv. destruct v; try discriminate Hv; reflexivity. }
  destruct (is_dict geojson_data) eqn:Hdict.
  - destruct geojson_data; try discriminate Hdict.
    unfold lint.
    pose (self1 := mkLint (check_crs self) (feature_idx self)
                     (Some (source_map (JObj members))) (errors self)).
    assert (Hstart : well_started (errors self) self1).
    { split; [discriminate | exists []; reflexivity]. }
    destruct (safe_validate_geojson_root (errors self) py_repr
                (S (json_depth (JObj members))) (JObj members)
                (Nat.lt_succ_diag_r _) self1 Hstart)
      as (u & self2 & Hrun & [_ [log Hlog]] & _).
    exists (errors self2), self2.
    split; [ | split; [reflexivity | exists log; exact Hlog]].
    unfold bind, set_line_map. fold self1. rewrite Hrun. reflexivity.
  - rewrite (Hroot geojson_data Hdict). eexists _, _.
    split; [reflexivity | split; [reflexivity | ]].
    exists [(msg_root, Some 0, feature_idx self)]. reflexivity.
Qed.

(* ================================================================== *)
(** * One instance, several calls *)
(* ================================================================== *)

(** C2, as the code has it: [__init__] gives an empty report and no
    feature index, and [lint] resets neither.  From any instance state it
    returns the report the instance then holds, in which every entry held
    before the call is still present, its lines and feature indices extended
    at the end; the root-shape error is recorded with the feature index the
    instance held when the call began.  What a call returns and leaves as
    report and feature index depends on the instance only through
    [check_crs], the held report and the held feature index (the line map
    of an earlier call is never read); so a call on an instance whose
    report is empty and whose feature index is absent returns what a new
    instance returns, and leaves the same report and feature index. *)
Theorem lint_keeps_instance_state :
  forall (source_map : json -> string -> option nat) (py_repr : json -> string),
    (forall check_crs : bool,
        errors (__init__ check_crs) = [] /\ feature_idx (__init__ check_crs) = None)
    /\ (forall (geojson_data : json) (self : GeoJsonLint),
          exists errs self',
            lint source_map py_repr geojson_data self = (Returns errs, self')
            /\ errs = errors self'
            /\ report_persists (errors self) errs)
    /\ (forall (geojson_data : json) (self : GeoJsonLint),
          is_dict geojson_data = false ->
          fst (lint source_map py_repr geojson_data self) =
          Returns (record_error "Root of GeoJSON must be an object/dictionary"
                     (Some 0) (feature_idx self) (errors self)))
    /\ (forall (geojson_data : json) (self other : GeoJsonLint),
          check_crs other = check_crs self ->
          feature_idx other = feature_idx self ->
          errors other = errors self ->
          let here := lint source_map py_repr geojson_data self in
          let there := lint source_map py_repr geojson_data other in
          fst here = fst there
          /\ errors (snd here) = errors (snd there)
          /\ feature_idx (snd here) = feature_idx (snd there))
    /\ (forall (geojson_data : json) (self : GeoJsonLint),
          errors self = [] -> feature_idx self = None ->
          let reused := lint source_map py_repr geojson_data self in
          let new := lint source_map py_repr geojson_data (__init__ (check_crs self)) in
          fst reused = fst new
          /\ errors (snd reused) = errors (snd new)
          /\ feature_idx (snd reused) = feature_idx (snd new)).
Proof.
  intros source_map py_repr.
  split; [intros check_crs; split; reflexivity | split; [ | split; [ | split]]].
  - intros geojson_data self.
    destruct (lint_returns_grown_report source_map py_repr geojson_data self)
      as (errs & self' & Hrun & Herrs & log & Hlog).
    exists errs, self'. split; [exact Hrun | split; [exact Herrs | ]].
    rewrite Hlog. apply replay_persists.
  - intros geojson_data self Hdict.
    destruct geojson_data; try discriminate Hdict; reflexivity.
  - intros geojson_data [crs fidx lmap errs] [crs' fidx' lmap' errs'] Hcrs Hidx Herrs.
    cbn [errors feature_idx check_crs] in *. subst crs' fidx' errs'.
    destruct geojson_data; repeat split; reflexivity.
  - intros geojson_data [crs fidx lmap errs] Herrs Hidx.
    cbn [errors feature_idx check_crs] in *. subst errs fidx.
    destruct geojson_data; repeat split; reflexivity.
Qed.

(** A root-shape error on an instance that an earlier call left inside
    feature 0 carries that index; and an instance that an earlier call on a
    valid Point left with an empty report and no feature index returns, on
    a FeatureCollection with a feature that is not an object, what a new
    instance returns. *)
Lemma lint_keeps_instance_state_witness :
  (is_dict (JInt 7) = false
   /\ fst (lint first_line_map opaque_repr (JInt 7) after_clean_collection) =
      Returns [("Root of GeoJSON must be an object/dictionary",
                mkEntry [Some 0] [Some 0])])
  /\ (snd (lint first_line_map opaque_repr
             (geometry_doc "Point" (JArr [JInt 1; JInt 2])) (__init__ false))
      = mkLint false None (Some (fun _ => Some 0)) []
      /\ fst (lint first_line_map opaque_repr (feature_collection_doc [JInt 42])
                (mkLint false None (Some (fun _ => Some 0)) []))
         = fst (lint first_line_map opaque_repr (feature_collection_doc [JInt 42])
                  (__init__ false))).
Proof.
  split; split; [reflexivity | | reflexivity | ].
  - exact (proj1 (proj2 (proj2 (lint_keeps_instance_state first_line_map opaque_repr)))
             (JInt 7) after_clean_collection eq_refl).
  - exact (proj1 (proj2 (proj2 (proj2 (proj2
                    (lint_keeps_instance_state first_line_map opaque_repr))))
                   (feature_collection_doc [JInt 42])
                   (mkLint false None (Some (fun _ => Some 0)) [])
                   eq_refl eq_refl)).
Defined.

(** Against C2 as stated: after linting {"type": "FeatureCollection",
    "features": [42]}, a second call on the same instance, on the document
    7, begins with feature index 0 and returns a report that still holds
    the first call's entry; a new instance returns the root error alone. *)
Lemma second_call_inherits_first_call :
  feature_idx
    (snd (lint first_line_map opaque_repr (feature_collection_doc [JInt 42])
            (__init__ false))) = Some 0
  /\ fst (lint first_line_map opaque_repr (JInt 7)
            (snd (lint first_line_map opaque_repr (feature_collection_doc [JInt 42])
                    (__init__ false)))) =
     Returns [("Every feature must be a dictionary/object.", mkEntry [Some 1] [Some 0]);
              ("Root of GeoJSON must be an object/dictionary", mkEntry [Some 0] [Some 0])]
  /\ fst (lint first_line_map opaque_repr (JInt 7) (__init__ false)) =
     Returns [("Root of GeoJSON must be an object/dictionary", mkEntry [Some 0] [None])].
Proof. repeat split; reflexivity. Qed.

(* ================================================================== *)
(** * What holds of the walk beyond the cases above *)
(* ================================================================== *)

(** X1: [lint] returns a report for every document and from every instance
    state: no exception leaves it, and the recursion bound is never hit. *)
Theorem lint_always_returns :
  forall (source_map : json -> string -> option nat) (py_repr : json -> string)
         (geojson_data : json) (self : GeoJsonLint),
    exists errs : report,
      fst (lint source_map py_repr geojson_data self) = Returns errs
      /\ errs = errors (snd (lint source_map py_repr geojson_data self)).
Proof.
  intros source_map py_repr geojson_data self.
  destruct (lint_returns_grown_report source_map py_repr geojson_data self)
    as (errs & self' & Hrun & Herrs & _).
  exists errs. rewrite Hrun. split; [reflexivity | exact Herrs].
Qed.

(** X2: a document that is not an object: a new validator returns the single
    root-shape entry, at line 0, and does not look at the document further. *)
Theorem non_object_root_yields_one_entry :
  forall (source_map : json -> string -> option nat) (py_repr : json -> string)
         (check_crs : bool) (geojson_data : json),
    is_dict geojson_data = false ->
    lint source_map py_repr geojson_data (__init__ check_crs) =
    (Returns [("Root of GeoJSON must be an object/dictionary",
               mkEntry [Some 0] [None])],
     mkLint check_crs None None
       [("Root of GeoJSON must be an object/dictionary", mkEntry [Some 0] [None])]).
Proof.
  intros source_map py_repr check_crs geojson_data Hdict.
  destruct geojson_data; try discriminate Hdict; reflexivity.
Qed.

Lemma non_object_root_yields_one_entry_witness :
  fst (lint first_line_map opaque_repr (JArr [JInt 1; JInt 2]) (__init__ true)) =
  Returns [("Root of GeoJSON must be an object/dictionary", mkEntry [Some 0] [None])].
Proof.
  exact (f_equal fst
           (non_object_root_yields_one_entry first_line_map opaque_repr true
              (JArr [JInt 1; JInt 2]) eq_refl)).
Defined.

(** X3: where the gate's verdict is used: when the type gate fails at the root
    or at a geometry node, the walk of that node ends with the state the
    gate left, nothing below the node being looked at. *)
Theorem failed_gate_ends_root_and_geometry_walk :
  forall (py_repr : json -> string) (fuel : nat) (node : json) (path : string)
         (self after_gate : GeoJsonLint),
    (_is_invalid_type_member py_repr node GEOMETRY_TYPES (path ++ "/type") self
       = (Returns true, after_gate) ->
     _validate_geometry py_repr (S fuel) node path self = (Returns tt, after_gate))
    /\ (_is_invalid_type_member py_repr node GEOJSON_TYPES "" self
          = (Returns true, after_gate) ->
        _validate_geojson_root py_repr fuel node self = (Returns tt, after_gate)).
Proof.
  intros py_repr fuel node path self after_gate. split; intros Hgate.
  - cbn [_validate_geometry]. unfold bind. rewrite Hgate. reflexivity.
  - unfold _validate_geojson_root, bind. cbv zeta. rewrite Hgate. reflexivity.
Qed.

Lemma failed_gate_ends_root_and_geometry_walk_witness :
  _validate_geometry opaque_repr 2
    (JObj [("coordinates", JArr [JInt 1])]) "/features/0/geometry"
    inside_first_feature =
  (Returns tt,
   with_errors [("Missing 'type' member", mkEntry [Some 1] [Some 0])]
     inside_first_feature).
Proof.
  exact (proj1 (failed_gate_ends_root_and_geometry_walk opaque_repr 1
                  (JObj [("coordinates", JArr [JInt 1])]) "/features/0/geometry"
                  inside_first_feature
                  (with_errors [("Missing 'type' member", mkEntry [Some 1] [Some 0])]
                     inside_first_feature)) eq_refl).
Defined.

(* ================================================================== *)
(** * The shape of the report *)
(* ================================================================== *)

Lemma has_message_in (message : string) (errs : report) :
  has_message message errs = true <-> In message (map fst errs).
Proof.
  unfold has_message. rewrite existsb_exists. split.
  - intros ([m e] & Hin & Heq). cbn [fst] in Heq.
    apply String.eqb_eq in Heq. subst. now apply (in_map fst) in Hin.
  - intros Hin. apply in_map_iff in Hin as ([m e] & <- & Hin).
    exists (m, e). split; [assumption | apply String.eqb_refl].
Qed.

(** A message already there keeps the keys as they are; a new one goes to
    the end. *)
Lemma record_error_keys (message : string) (line fidx : option nat) (errs : report) :
  map fst (record_error message line fidx errs) =
  (if has_message message errs then map fst errs
   else map fst errs ++ [message])%list.
Proof.
  induction errs as [| [m e] errs IH]; [reflexivity | ].
  cbn [record_error has_message existsb fst].
  destruct (String.eqb m message) eqn:Hm; cbn [orb map fst].
  - reflexivity.
  - rewrite IH. fold (has_message message errs).
    destruct (has_message message errs); reflexivity.
Qed.

Lemma record_error_ok (message : string) (line fidx : option nat) (errs : report) :
  report_ok errs -> report_ok (record_error message line fidx errs).
Proof.
  intros [Hkeys Hentries]. split.
  - rewrite record_error_keys.
    destruct (has_message message errs) eqn:Hhas; [assumption | ].
    apply NoDup_app; [assumption | repeat constructor; intros [] | ].
    intros m Hin [<- | []].
    apply has_message_in in Hin. congruence.
  - clear Hkeys. induction Hentries as [| [m e] errs [Hlen Hne] Hrest IH].
    + repeat constructor; discriminate.
    + cbn [record_error]. destruct (String.eqb m message).
      * constructor; [ | assumption]. simpl in *. split; simpl.
        -- rewrite !length_app. simpl. lia.
        -- intros Habs. apply app_eq_nil in Habs as [_ Habs]. discriminate.
      * constructor; [split; assumption | exact IH].
Qed.

Lemma replay_cons (ev : event) (log : list event) (errs : report) :
  replay (ev :: log) errs =
  replay log (record_error (fst (fst ev)) (snd (fst ev)) (snd ev) errs).
Proof. reflexivity. Qed.

Lemma replay_ok (log : list event) (errs : report) :
  report_ok errs -> report_ok (replay log errs).
Proof.
  revert errs. induction log as [| ev log IH]; intros errs Hok; [exact Hok | ].
  rewrite replay_cons. apply IH. now apply record_error_ok.
Qed.

Lemma replay_keys (log : list event) (errs : report) :
  exists added, map fst (replay log errs) = (map fst errs ++ added)%list.
Proof.
  revert errs. induction log as [| ev log IH]; intros errs.
  - exists []. cbn. now rewrite app_nil_r.
  - rewrite replay_cons.
    destruct (IH (record_error (fst (fst ev)) (snd (fst ev)) (snd ev) errs))
      as [added Hadded].
    rewrite record_error_keys in Hadded.
    destruct (has_message (fst (fst ev)) errs).
    + now exists added.
    + exists (fst (fst ev) :: added). now rewrite Hadded, <- app_assoc.
Qed.

(* ================================================================== *)
(** * The records of a call do not depend on the report held *)
(* ================================================================== *)

Section Steady.

Lemma steady_ret {A : Type} (Q : A -> Prop) (a : A) : Q a -> steady Q (ret a).
Proof.
  intros HQ self Hmap. exists a, [], self.
  split; [exact HQ | split; [exact Hmap | reflexivity]].
Qed.

Lemma steady_bind {A B : Type} (Q : A -> Prop) (R : B -> Prop) (m : M A)
  (k : A -> M B) :
  steady Q m -> (forall a, Q a -> steady R (k a)) -> steady R (bind m k).
Proof.
  intros Hm Hk self Hmap.
  destruct (Hm self Hmap) as (a & log1 & self1 & HQ & Hmap1 & Hrun1).
  destruct (Hk a HQ self1 Hmap1) as (b & log2 & self2 & HR & Hmap2 & Hrun2).
  exists b, (log1 ++ log2)%list, self2.
  split; [exact HR | split; [exact Hmap2 | ]].
  intros held. unfold bind. rewrite Hrun1, Hrun2, replay_app. reflexivity.
Qed.

Lemma steady_add_error (message : string) (line : option nat) :
  steady anything (_add_error message line).
Proof.
  intros self Hmap. exists tt, [(message, line, feature_idx self)], self.
  split; [exact I | split; [exact Hmap | reflexivity]].
Qed.

Lemma steady_get_line_number (path : string) :
  steady anything (_get_line_number path).
Proof.
  intros self Hmap.
  destruct (line_map self) as [entries |] eqn:E; [ | congruence].
  exists (one_indexed entries path), [], self.
  split; [exact I | split; [congruence | ]].
  intros held. unfold _get_line_number. cbn [with_errors line_map].
  rewrite E. reflexivity.
Qed.

Lemma steady_get_check_crs : steady anything get_check_crs.
Proof.
  intros self Hmap. exists (check_crs self), [], self.
  split; [exact I | split; [exact Hmap | reflexivity]].
Qed.

Lemma steady_set_feature_idx (idx : nat) : steady anything (set_feature_idx idx).
Proof.
  intros self Hmap.
  exists tt, [], (mkLint (check_crs self) (Some idx) (line_map self) (errors self)).
  split; [exact I | split; [exact Hmap | reflexivity]].
Qed.

Lemma steady_for_each {A : Type} (body : A -> M unit) (l : list A) :
  (forall x, In x l -> steady anything (body x)) ->
  steady anything (for_each body l).
Proof.
  induction l as [| x l IH]; intros Hbody; cbn [for_each].
  - now apply steady_ret.
  - eapply steady_bind; [apply Hbody; now left | intros _ _].
    apply IH. intros y Hy. apply Hbody. now right.
Qed.

Lemma steady_for_enumerate {A : Type} (body : nat -> A -> M unit) (l : list A) :
  forall idx,
    (forall i x, In x l -> steady anything (body i x)) ->
    steady anything (for_enumerate body idx l).
Proof.
  induction l as [| x l IH]; intros idx Hbody; cbn [for_enumerate].
  - now apply steady_ret.
  - eapply steady_bind; [apply Hbody; now left | intros _ _].
    apply IH. intros i y Hy. apply Hbody. now right.
Qed.

Create HintDb steady.

#[local] Hint Resolve steady_add_error steady_get_line_number steady_get_check_crs
  steady_set_feature_idx : steady.

#[local] Hint Extern 1 (anything _) => exact I : steady.

(** Walks through a method body made of binds, conditionals and the
    primitives above. *)
Ltac steady_walk :=
  repeat first
    [ apply steady_ret; auto with steady
    | solve [auto with steady]
    | eapply steady_bind; [ | intros ? ? ]
    | match goal with
      | |- steady _ (if ?c then _ else _) => destruct c
      end ].

(** The message for a failed gate: a line lookup, a record, [return True]. *)
Lemma steady_report_failure (Q : bool -> Prop) (path message : string) :
  Q true ->
  steady Q (line <- _get_line_number path ;; _add_error message line ;; ret true).
Proof.
  intros HQ.
  eapply steady_bind; [apply steady_get_line_number | intros line _].
  eapply steady_bind; [apply steady_add_error | intros _ _].
  now apply steady_ret.
Qed.

(** When the type gate passes, the object is a dict. *)
Lemma steady_type_gate (py_repr : json -> string) (obj : json)
  (allowed_types : list string) (path : string) :
  steady (fun invalid => invalid = false -> exists members, obj = JObj members)
       (_is_invalid_type_member py_repr obj allowed_types path).
Proof.
  unfold _is_invalid_type_member.
  destruct obj; try (apply steady_ret; discriminate).
  cbv zeta.
  destruct (negb (py_truthy (dict_get "type" members)));
    [apply steady_report_failure; discriminate | ].
  destruct (negb (py_in (dict_get "type" members) allowed_types));
    [apply steady_report_failure; discriminate | ].
  apply steady_ret. eauto.
Qed.

(** When the array gate passes, the member is there and is a list. *)
Lemma steady_property_gate (obj : dict) (name type_str path : string) :
  steady
       (fun invalid =>
          invalid = false -> type_str = "array" ->
          exists items, dict_lookup name obj = Some (JArr items))
       (_is_invalid_property obj name type_str path).
Proof.
  unfold _is_invalid_property.
  destruct (dict_lookup name obj) as [v |];
    [ | apply steady_report_failure; discriminate].
  destruct (String.eqb type_str "array" && negb (is_list v)) eqn:Harr;
    [apply steady_report_failure; discriminate | ].
  assert (Hlist : type_str = "array" -> exists items, Some v = Some (JArr items)).
  { intros ->. rewrite String.eqb_refl in Harr. cbn [andb] in Harr.
    destruct v; try discriminate Harr. eauto. }
  destruct (String.eqb type_str "object" && negb (is_dict v)).
  - destruct (existsb (String.eqb name) ["geometry"; "properties"] && is_none v).
    + apply steady_ret. auto.
    + apply steady_report_failure. discriminate.
  - apply steady_ret. auto.
Qed.

Lemma steady_validate_position (coords : json) (path : string) :
  steady anything (_validate_position coords path).
Proof.
  unfold _validate_position. destruct coords; steady_walk.
Qed.

Lemma steady_validate_position_array (depth : nat) :
  forall (coords : json) (path : string),
    steady anything (_validate_position_array coords depth path).
Proof.
  induction depth as [| depth IH]; intros coords path;
    cbn [_validate_position_array].
  - apply steady_validate_position.
  - destruct coords; steady_walk.
    apply steady_for_each. intros p _. apply IH.
Qed.

Variable py_repr : json -> string.

Lemma steady_validate_geometry (fuel : nat) :
  forall (geometry : json) (path : string),
    json_depth geometry < fuel ->
    steady anything (_validate_geometry py_repr fuel geometry path).
Proof.
  induction fuel as [| fuel IH]; intros geometry path Hdepth; [lia | ].
  cbn [_validate_geometry].
  eapply steady_bind; [apply steady_type_gate | intros invalid Hdict].
  destruct invalid; [now apply steady_ret | ].
  destruct (Hdict eq_refl) as [members ->]. cbv zeta.
  destruct (py_eq_str (dict_get "type" members) "GeometryCollection").
  - eapply steady_bind; [apply steady_property_gate | intros invalid Hlist].
    destruct invalid; cbn [negb]; [now apply steady_ret | ].
    destruct (Hlist eq_refl eq_refl) as [items Hitems].
    unfold dict_getitem. rewrite Hitems, bind_ret_l.
    cbn [as_list]. rewrite bind_ret_l.
    apply steady_for_enumerate. intros idx geom Hgeom. apply IH.
    pose proof (json_depth_element geom items Hgeom).
    pose proof (json_depth_member _ _ _ Hitems). lia.
  - eapply steady_bind; [apply steady_property_gate | intros invalid Hlist].
    destruct invalid; cbn [negb]; [now apply steady_ret | ].
    destruct (Hlist eq_refl eq_refl) as [items Hitems].
    unfold dict_getitem. rewrite Hitems.
    repeat match goal with
           | |- steady _ (if ?c then _ else _) => destruct c
           end;
      try (now apply steady_ret);
      rewrite bind_ret_l;
      first [apply steady_validate_position | apply steady_validate_position_array].
Qed.

Lemma steady_validate_feature (fuel : nat) (feature : dict) (path : string) :
  json_depth (JObj feature) <= fuel ->
  steady anything (_validate_feature py_repr fuel feature path).
Proof.
  intros Hdepth. unfold _validate_feature.
  eapply steady_bind; [apply steady_type_gate | intros _ _].
  eapply steady_bind; [steady_walk | intros _ _].
  eapply steady_bind; [apply steady_property_gate | intros _ _].
  eapply steady_bind; [apply steady_property_gate | intros _ _].
  cbv zeta. unfold dict_get.
  destruct (dict_lookup "geometry" feature) as [geom |] eqn:Hgeom.
  - destruct (py_truthy geom); [ | now apply steady_ret].
    apply steady_validate_geometry.
    pose proof (json_depth_member _ _ _ Hgeom). lia.
  - now apply steady_ret.
Qed.

Lemma steady_validate_feature_collection (fuel : nat) (feature_collection : dict)
  (path : string) :
  json_depth (JObj feature_collection) <= fuel ->
  steady anything
       (_validate_feature_collection py_repr fuel feature_collection path).
Proof.
  intros Hdepth. unfold _validate_feature_collection.
  eapply steady_bind; [apply steady_type_gate | intros _ _].
  eapply steady_bind; [apply steady_get_check_crs | intros crs _].
  eapply steady_bind; [steady_walk | intros _ _].
  eapply steady_bind; [apply steady_property_gate | intros invalid Hlist].
  destruct invalid; cbn [negb]; [now apply steady_ret | ].
  destruct (Hlist eq_refl eq_refl) as [feats Hfeats].
  unfold dict_getitem. rewrite Hfeats, bind_ret_l.
  cbn [as_list]. rewrite bind_ret_l.
  apply steady_for_enumerate. intros idx feature Hfeature.
  eapply steady_bind; [apply steady_set_feature_idx | intros _ _].
  pose proof (json_depth_element feature feats Hfeature).
  pose proof (json_depth_member _ _ _ Hfeats).
  destruct feature; try (apply steady_validate_feature; lia); steady_walk.
Qed.

Lemma steady_validate_geojson_root (fuel : nat) (obj : json) :
  json_depth obj < fuel ->
  steady anything (_validate_geojson_root py_repr fuel obj).
Proof.
  intros Hdepth. unfold _validate_geojson_root. cbv zeta.
  eapply steady_bind; [apply steady_type_gate | intros invalid Hdict].
  destruct invalid; [now apply steady_ret | ].
  destruct (Hdict eq_refl) as [members ->].
  repeat match goal with
         | |- steady _ (if ?c then _ else _) => destruct c
         end.
  - apply steady_validate_feature_collection. lia.
  - apply steady_validate_feature. lia.
  - now apply steady_validate_geometry.
  - now apply steady_ret.
Qed.

End Steady.

(** The events of a [lint] call: the same whatever report the instance
    holds, and the report returned is the held one with them applied. *)
Lemma lint_log_independent (source_map : json -> string -> option nat)
  (py_repr : json -> string) (geojson_data : json) (self : GeoJsonLint) :
  exists log self',
    forall held,
      lint source_map py_repr geojson_data (with_errors held self) =
      (Returns (replay log held), with_errors (replay log held) self').
Proof.
  destruct (is_dict geojson_data) eqn:Hdict.
  - destruct geojson_data; try discriminate Hdict.
    pose (self1 := mkLint (check_crs self) (feature_idx self)
                     (Some (source_map (JObj members))) (errors self)).
    destruct (steady_validate_geojson_root py_repr
                (S (json_depth (JObj members))) (JObj members)
                (Nat.lt_succ_diag_r _) self1)
      as (u & log & self2 & _ & _ & Hrun); [discriminate | ].
    exists log, self2. intros held. specialize (Hrun held).
    unfold lint, bind, set_line_map.
    change (mkLint (check_crs (with_errors held self))
              (feature_idx (with_errors held self))
              (Some (source_map (JObj members)))
              (errors (with_errors held self)))
      with (with_errors held self1).
    rewrite Hrun. reflexivity.
  - exists [(msg_root, Some 0, feature_idx self)], self. intros held.
    destruct geojson_data; try discriminate Hdict; reflexivity.
Qed.

Lemma existsb_keys (message : string) (errs : report) :
  existsb (fun k => String.eqb k message) (map fst errs) = has_message message errs.
Proof.
  unfold has_message. induction errs as [| kv errs IH]; [reflexivity | ].
  cbn [map existsb]. now rewrite IH.
Qed.

(** The keys of a dict after a run of [_add_error] calls: the keys it had,
    in place, then the messages new to it in order of first occurrence. *)
Lemma replay_first_seen (log : list event) (errs : report) :
  map fst (replay log errs) =
  (map fst errs ++ first_seen (map fst errs) (map event_message log))%list.
Proof.
  revert errs. induction log as [| ev log IH]; intros errs.
  - cbn. now rewrite app_nil_r.
  - rewrite replay_cons, IH, record_error_keys.
    cbn [map first_seen]. unfold event_message at 2.
    rewrite existsb_keys.
    destruct (has_message (fst (fst ev)) errs); [reflexivity | ].
    now rewrite <- app_assoc.
Qed.

(** X4: whatever the document and the instance, the records a [lint] call
    makes (message, line and feature index of each [_add_error] call, in
    order) are the same whatever report the instance holds, and the report
    returned is the held report with them applied.  On an instance whose
    report is well formed the returned report is well formed: no message
    text occurs twice as a key, every entry has as many lines as feature
    indices and at least one of each; the messages present before the call
    keep their places, and the messages new to the report follow in the
    order in which the call first records them. *)
Theorem lint_report_stays_well_formed :
  forall (source_map : json -> string -> option nat) (py_repr : json -> string)
         (geojson_data : json) (self : GeoJsonLint),
    report_ok (errors self) ->
    exists log,
      (forall held,
          fst (lint source_map py_repr geojson_data (with_errors held self)) =
          Returns (replay log held))
      /\ exists errs self',
           lint source_map py_repr geojson_data self = (Returns errs, self')
           /\ errs = replay log (errors self)
           /\ report_ok errs
           /\ map fst errs =
              (map fst (errors self)
               ++ first_seen (map fst (errors self)) (map event_message log))%list.
Proof.
  intros source_map py_repr geojson_data self Hok.
  destruct (lint_log_independent source_map py_repr geojson_data self)
    as (log & self' & Hrun).
  exists log. split; [intros held; now rewrite Hrun | ].
  exists (replay log (errors self)), (with_errors (replay log (errors self)) self').
  split; [ | split; [reflexivity | split]].
  - rewrite <- (Hrun (errors self)). now destruct self.
  - now apply replay_ok.
  - apply replay_first_seen.
Qed.

(** An instance that holds two messages from earlier calls lints a
    FeatureCollection whose one feature lacks its "type" and "properties"
    members and has a Point of one value: "Missing 'type' member" is
    recorded again and stays second, and the two messages new to the
    report follow in the order in which the feature validator records
    them. *)
Lemma lint_report_stays_well_formed_witness :
  report_ok (errors after_two_messages)
  /\ (exists log,
        (forall held,
            fst (lint first_line_map opaque_repr
                   (feature_collection_doc [untyped_feature])
                   (with_errors held after_two_messages)) =
            Returns (replay log held))
        /\ exists errs self',
             lint first_line_map opaque_repr
               (feature_collection_doc [untyped_feature]) after_two_messages
             = (Returns errs, self')
             /\ errs = replay log (errors after_two_messages)
             /\ report_ok errs
             /\ map fst errs =
                ([msg_root; msg_missing_type]
                 ++ first_seen [msg_root; msg_missing_type]
                      (map event_message log))%list)
  /\ fst (lint first_line_map opaque_repr
            (feature_collection_doc [untyped_feature]) after_two_messages) =
     Returns
       [(msg_root, mkEntry [Some 0] [None]);
        (msg_missing_type, mkEntry [Some 1; Some 7; Some 1] [None; Some 2; Some 0]);
        (msg_member_required "properties", mkEntry [Some 1] [Some 0]);
        (msg_position_length, mkEntry [Some 1] [Some 0])].
Proof.
  assert (Hok : report_ok (errors after_two_messages)).
  { split.
    - constructor; [intros [H | []]; discriminate H | ].
      constructor; [intros [] | constructor].
    - repeat constructor; discriminate. }
  split; [exact Hok | split; [ | reflexivity]].
  exact (lint_report_stays_well_formed first_line_map opaque_repr
           (feature_collection_doc [untyped_feature]) after_two_messages Hok).
Defined.

(* ================================================================== *)
(** * Leaf geometries: what is accepted, and where errors are put *)
(* ================================================================== *)

Lemma record_error_all (PM : string -> Prop) (PL PF : option nat -> Prop)
  (message : string) (line fidx : option nat) (errs : report) :
  PM message -> PL line -> PF fidx ->
  report_all PM PL PF errs ->
  report_all PM PL PF (record_error message line fidx errs).
Proof.
  intros Hm Hl Hf Hall.
  induction Hall as [| [m e] errs (Hpm & Hpl & Hpf) Hrest IH].
  - repeat constructor; assumption.
  - cbn [record_error]. destruct (String.eqb m message).
    + constructor; [ | assumption]. simpl in *.
      repeat split; [assumption | | ]; apply Forall_app; split;
        auto using Forall_cons, Forall_nil.
    + constructor; [repeat split; assumption | exact IH].
Qed.

Lemma replay_all (PM : string -> Prop) (PL PF : option nat -> Prop)
  (log : list event) :
  forall errs,
    log_all PM PL PF log ->
    report_all PM PL PF errs ->
    report_all PM PL PF (replay log errs).
Proof.
  induction log as [| ev log IH]; intros errs Hlog Herrs; [exact Herrs | ].
  rewrite replay_cons. inversion Hlog as [| ? ? (Hm & Hl & Hf) Hrest]; subst.
  apply IH; [assumption | ]. now apply record_error_all.
Qed.

(** A report that recorded something is not empty. *)
Lemma record_error_not_nil (message : string) (line fidx : option nat)
  (errs : report) :
  record_error message line fidx errs <> [].
Proof.
  destruct errs as [| [m e] errs]; cbn [record_error]; [discriminate | ].
  destruct (String.eqb m message); discriminate.
Qed.

Lemma replay_nil_iff (log : list event) :
  replay log [] = [] <-> log = [].
Proof.
  split; [ | intros ->; reflexivity].
  destruct log as [| ev log]; [reflexivity | ].
  rewrite replay_cons. intros Hnil. exfalso.
  pose proof (replay_keys log
                (record_error (fst (fst ev)) (snd (fst ev)) (snd ev) []))
    as [added Hadded].
  rewrite Hnil in Hadded. cbn [map] in Hadded.
  symmetry in Hadded. apply app_eq_nil in Hadded as [Hkeys _].
  apply map_eq_nil in Hkeys. now apply record_error_not_nil in Hkeys.
Qed.

Section PositionLog.

Variable entries : string -> option nat.
Variable fidx : option nat.
Variable path : string.

Ltac position_log_ok :=
  unfold log_all;
  repeat first
    [ apply Forall_nil
    | apply Forall_cons; [split; [cbn; tauto | split; reflexivity] | ] ].

Lemma position_event_ok (message : string) :
  In message position_messages ->
  log_all (fun message => In message position_messages)
          (eq (one_indexed entries path)) (eq fidx)
          [(message, one_indexed entries path, fidx)].
Proof.
  intros Hin. apply Forall_cons; [ | apply Forall_nil].
  split; [exact Hin | split; reflexivity].
Qed.

Lemma validate_position_log (coords : json) (self : GeoJsonLint) :
  walking entries fidx self ->
  exists log,
    position_run entries fidx path log (_validate_position coords path) self
    /\ (log = [] <-> is_position coords = true).
Proof.
  intros [Hmap Hidx]. destruct self as [crs fi lm errs].
  cbn [line_map feature_idx] in Hmap, Hidx. subst lm fi.
  pose (ev := fun message : string => (message, one_indexed entries path, fidx)).
  destruct coords;
    try (exists [ev msg_position_array];
         split; [split; [reflexivity | position_log_ok] | split; discriminate]).
  unfold is_position.
  assert (Hlen : (List.length items <? 2)%nat || (3 <? List.length items)%nat
                 = negb ((2 <=? List.length items)%nat
                         && (List.length items <=? 3)%nat)).
  { destruct (Nat.ltb_spec (List.length items) 2);
      destruct (Nat.ltb_spec 3 (List.length items));
      destruct (Nat.leb_spec 2 (List.length items));
      destruct (Nat.leb_spec (List.length items) 3); try lia; reflexivity. }
  unfold position_run, _validate_position. rewrite Hlen.
  destruct ((2 <=? List.length items)%nat && (List.length items <=? 3)%nat);
    destruct (forallb is_int_or_float items); cbn [negb andb].
  - exists []. split; [split; [reflexivity | position_log_ok] | split; reflexivity].
  - exists [ev msg_position_number].
    split; [split; [reflexivity | position_log_ok] | split; discriminate].
  - exists [ev msg_position_length].
    split; [split; [reflexivity | position_log_ok] | split; discriminate].
  - exists [ev msg_position_length; ev msg_position_number].
    split; [split; [reflexivity | position_log_ok] | split; discriminate].
Qed.

Lemma for_each_position_log (accepts : json -> bool) (body : json -> M unit)
  (items : list json) :
  (forall x self, In x items -> walking entries fidx self ->
     exists log, position_run entries fidx path log (body x) self
                 /\ (log = [] <-> accepts x = true)) ->
  forall self, walking entries fidx self ->
    exists log, position_run entries fidx path log (for_each body items) self
                /\ (log = [] <-> forallb accepts items = true).
Proof.
  induction items as [| x items IH]; intros Hbody self Hself.
  - exists []. split; [split; [ | constructor] | split; reflexivity].
    cbn. unfold ret, with_errors. destruct self; reflexivity.
  - destruct (Hbody x self (or_introl eq_refl) Hself)
      as (log1 & [Hrun1 Hall1] & Hnil1).
    destruct (IH (fun y s Hy => Hbody y s (or_intror Hy))
                 (with_errors (replay log1 (errors self)) self)
                 (walking_with_errors entries fidx _ _ Hself))
      as (log2 & [Hrun2 Hall2] & Hnil2).
    exists (log1 ++ log2)%list. split; [split | ].
    + cbn [for_each]. unfold bind. rewrite Hrun1, Hrun2.
      rewrite replay_app. reflexivity.
    + apply Forall_app. split; assumption.
    + cbn [forallb]. rewrite andb_true_iff, <- Hnil1, <- Hnil2.
      split; [apply app_eq_nil | intros [-> ->]; reflexivity].
Qed.

Lemma validate_position_array_log (depth : nat) :
  forall (coords : json) (self : GeoJsonLint),
    walking entries fidx self ->
    exists log,
      position_run entries fidx path log (_validate_position_array coords depth path) self
      /\ (log = [] <-> well_nested depth coords = true).
Proof.
  induction depth as [| depth IH]; intros coords self Hself.
  - apply validate_position_log. exact Hself.
  - cbn [_validate_position_array well_nested].
    destruct coords;
      try (exists [(msg_coordinates_array, one_indexed entries path, fidx)];
           destruct Hself as [Hmap Hidx];
           split; [split; [ | apply position_event_ok; cbn; tauto]
                  | split; discriminate];
           unfold bind, _get_line_number, _add_error; rewrite Hmap, Hidx;
           reflexivity).
    apply for_each_position_log; [ | exact Hself].
    intros x s _ Hs. apply IH. exact Hs.
Qed.

End PositionLog.

Lemma coordinates_depth_cases (ty : string) (depth : nat) :
  coordinates_depth ty = Some depth ->
  (ty = "Point" /\ depth = 0) \/ (ty = "LineString" /\ depth = 1)
  \/ (ty = "MultiPoint" /\ depth = 1) \/ (ty = "Polygon" /\ depth = 2)
  \/ (ty = "MultiLineString" /\ depth = 2) \/ (ty = "MultiPolygon" /\ depth = 3).
Proof.
  unfold coordinates_depth.
  destruct (String.eqb_spec ty "Point"); [intros [= <-]; tauto | ].
  destruct (String.eqb_spec ty "LineString"); [intros [= <-]; tauto | ].
  destruct (String.eqb_spec ty "MultiPoint"); [intros [= <-]; tauto | ].
  destruct (String.eqb_spec ty "Polygon"); [intros [= <-]; tauto | ].
  destruct (String.eqb_spec ty "MultiLineString"); [intros [= <-]; tauto | ].
  destruct (String.eqb_spec ty "MultiPolygon"); [intros [= <-]; tauto | ].
  discriminate.
Qed.

(** Linting an object whose "type" is a leaf geometry type: the member
    gate on "coordinates", then the position walk at the depth of the type. *)
Lemma lint_leaf_geometry (source_map : json -> string -> option nat)
  (py_repr : json -> string) (check_crs : bool) (members : dict) (ty : string)
  (depth : nat) :
  dict_lookup "type" members = Some (JStr ty) ->
  coordinates_depth ty = Some depth ->
  let self1 := mkLint check_crs None (Some (source_map (JObj members))) [] in
  let at_root := one_indexed (source_map (JObj members)) "" in
  lint source_map py_repr (JObj members) (__init__ check_crs) =
  match dict_lookup "coordinates" members with
  | None =>
      (Returns [(msg_member_required "coordinates", mkEntry [at_root] [None])],
       with_errors [(msg_member_required "coordinates", mkEntry [at_root] [None])]
         self1)
  | Some (JArr items) =>
      bind (_validate_position_array (JArr items) depth "/coordinates")
           (fun _ => get_errors) self1
  | Some v =>
      (Returns [(msg_member_array "coordinates" v, mkEntry [at_root] [None])],
       with_errors [(msg_member_array "coordinates" v, mkEntry [at_root] [None])]
         self1)
  end.
Proof.
  intros Htype Hdepth self1 at_root. subst self1 at_root.
  apply coordinates_depth_cases in Hdepth.
  unfold lint, _validate_geojson_root, bind, set_line_map,
    _is_invalid_type_member, dict_get.
  rewrite Htype.
  destruct Hdepth as [[-> ->] | [[-> ->] | [[-> ->] | [[-> ->] | [[-> ->] | [-> ->]]]]]];
    cbn -[_validate_position_array json_depth _is_invalid_property dict_getitem];
    unfold dict_get; rewrite Htype;
    cbn -[_validate_position_array json_depth _is_invalid_property dict_getitem];
    unfold _is_invalid_property, dict_getitem;
    (destruct (dict_lookup "coordinates" members) as [[] |];
     cbn -[_validate_position_array json_depth];
     try reflexivity;
     match goal with
     | |- context [_validate_position_array ?c ?d ?p ?s] =>
         destruct (_validate_position_array c d p s) as [[u | e] s']; reflexivity
     | |- context [_validate_position ?c ?p ?s] =>
         change (_validate_position c p s) with (_validate_position_array c 0 p s);
         destruct (_validate_position_array c 0 p s) as [[u | e] s']; reflexivity
     end).
Qed.

(** X5: for an object whose "type" is one of the six leaf geometry types,
    whatever other members it carries, [lint] on a new validator returns
    the empty report exactly when "coordinates" is present and holds
    positions (arrays of two or three numbers) under exactly the number of
    array levels of the type: 0 for Point, 1 for LineString and MultiPoint,
    2 for Polygon and MultiLineString, 3 for MultiPolygon. *)
Theorem leaf_geometry_clean_iff_well_nested :
  forall (source_map : json -> string -> option nat) (py_repr : json -> string)
         (check_crs : bool) (members : dict) (ty : string) (depth : nat),
    dict_lookup "type" members = Some (JStr ty) ->
    coordinates_depth ty = Some depth ->
    (fst (lint source_map py_repr (JObj members) (__init__ check_crs)) = Returns []
     <-> exists coords,
           dict_lookup "coordinates" members = Some coords
           /\ well_nested depth coords = true).
Proof.
  intros source_map py_repr check_crs members ty depth Htype Hdepth.
  rewrite (lint_leaf_geometry source_map py_repr check_crs members ty depth
             Htype Hdepth).
  assert (Hnot : forall v, is_list v = false -> well_nested depth v = false).
  { intros v Hv. destruct depth; destruct v; try discriminate Hv; reflexivity. }
  destruct (dict_lookup "coordinates" members) as [coords |] eqn:Hcoords.
  - destruct (is_list coords) eqn:Hlist.
    + destruct coords; try discriminate Hlist.
      destruct (validate_position_array_log
                  (source_map (JObj members)) None "/coordinates" depth
                  (JArr items)
                  (mkLint check_crs None (Some (source_map (JObj members))) [])
                  (conj eq_refl eq_refl))
        as (log & [Hrun _] & Hnil).
      unfold bind. rewrite Hrun. cbn [fst get_errors errors with_errors].
      split.
      * intros [= Hempty]. apply replay_nil_iff in Hempty.
        exists (JArr items). split; [reflexivity | now apply Hnil].
      * intros (coords & [= <-] & Hwell). apply Hnil in Hwell. now subst log.
    + split.
      * destruct coords; try discriminate Hlist; discriminate.
      * intros (coords' & [= <-] & Hwell). rewrite (Hnot _ Hlist) in Hwell.
        discriminate.
  - split; [discriminate | intros (coords & Habs & _); discriminate].
Qed.

(** A LineString with a foreign member and two positions is clean. *)
Lemma leaf_geometry_clean_iff_well_nested_witness :
  fst (lint first_line_map opaque_repr
         (JObj [("bbox", JNull); ("type", JStr "LineString");
                ("coordinates", JArr [JArr [JInt 0; JInt 1];
                                      JArr [JInt 2; JInt 3; JInt 4]])])
         (__init__ false)) = Returns [].
Proof.
  apply (proj2 (leaf_geometry_clean_iff_well_nested first_line_map opaque_repr
                  false
                  [("bbox", JNull); ("type", JStr "LineString");
                   ("coordinates", JArr [JArr [JInt 0; JInt 1];
                                         JArr [JInt 2; JInt 3; JInt 4]])]
                  "LineString" 1 eq_refl eq_refl)).
  eexists. split; reflexivity.
Defined.

(** X6: when the "coordinates" of a leaf geometry are an array, every entry
    of the report is one of the four position messages and every
    occurrence carries the line of the "coordinates" member itself,
    whichever nested element it was found in, and no feature index. *)
Theorem leaf_geometry_errors_sit_on_coordinates_line :
  forall (source_map : json -> string -> option nat) (py_repr : json -> string)
         (check_crs : bool) (members : dict) (ty : string) (depth : nat)
         (items : list json),
    dict_lookup "type" members = Some (JStr ty) ->
    coordinates_depth ty = Some depth ->
    dict_lookup "coordinates" members = Some (JArr items) ->
    exists errs,
      fst (lint source_map py_repr (JObj members) (__init__ check_crs)) = Returns errs
      /\ report_all (fun message => In message position_messages)
                    (eq (one_indexed (source_map (JObj members)) "/coordinates"))
                    (eq None) errs.
Proof.
  intros source_map py_repr check_crs members ty depth items Htype Hdepth Hcoords.
  rewrite (lint_leaf_geometry source_map py_repr check_crs members ty depth
             Htype Hdepth), Hcoords.
  destruct (validate_position_array_log
              (source_map (JObj members)) None "/coordinates" depth (JArr items)
              (mkLint check_crs None (Some (source_map (JObj members))) [])
              (conj eq_refl eq_refl))
    as (log & [Hrun Hall] & _).
  unfold bind. rewrite Hrun. cbn [fst get_errors errors with_errors].
  eexists. split; [reflexivity | ].
  apply replay_all; [exact Hall | constructor].
Qed.

(** A Polygon with a short position and a non-number in different rings:
    both entries sit on the line of "coordinates". *)
Lemma leaf_geometry_errors_sit_on_coordinates_line_witness :
  exists errs,
    fst (lint first_line_map opaque_repr
           (geometry_doc "Polygon"
              (JArr [JArr [JArr [JInt 1]]; JArr [JArr [JInt 1; JStr "x"]]]))
           (__init__ false)) = Returns errs
    /\ report_all (fun message => In message position_messages)
                  (eq (Some 1)) (eq None) errs.
Proof.
  exact (leaf_geometry_errors_sit_on_coordinates_line first_line_map opaque_repr
           false
           [("type", JStr "Polygon");
            ("coordinates",
             JArr [JArr [JArr [JInt 1]]; JArr [JArr [JInt 1; JStr "x"]]])]
           "Polygon" 2
           [JArr [JArr [JInt 1]]; JArr [JArr [JInt 1; JStr "x"]]]
           eq_refl eq_refl eq_refl).
Defined.

(* ================================================================== *)
(** * Which messages and which feature indices a walk can record *)
(* ================================================================== *)

Section Tracked.

Variable PM : string -> Prop.
Variable J : option nat -> Prop.
Variable crs0 : bool.
Variable errs0 : report.
Variable py_repr : json -> string.

Hypothesis PM_missing_type : PM msg_missing_type.
Hypothesis PM_invalid_type :
  forall obj_type allowed, PM (msg_invalid_type py_repr obj_type allowed).
Hypothesis PM_member_required : forall name, PM (msg_member_required name).
Hypothesis PM_member_array : forall name v, PM (msg_member_array name v).
Hypothesis PM_member_object : forall name v, PM (msg_member_object name v).
Hypothesis PM_position_array : PM msg_position_array.
Hypothesis PM_position_length : PM msg_position_length.
Hypothesis PM_position_number : PM msg_position_number.
Hypothesis PM_coordinates_array : PM msg_coordinates_array.
Hypothesis PM_feature_id : PM msg_feature_id.
Hypothesis PM_feature_object : PM msg_feature_object.
Hypothesis PM_crs : crs0 = true -> PM msg_crs.

Lemma keeps_ret {A : Type} (Q : A -> Prop) (a : A) : Q a -> keeps PM J crs0 errs0 Q (ret a).
Proof.
  intros HQ self Hself. exists a, self.
  split; [reflexivity | split; assumption].
Qed.

Lemma keeps_bind {A B : Type} (Q : A -> Prop) (R : B -> Prop) (m : M A)
  (k : A -> M B) :
  keeps PM J crs0 errs0 Q m -> (forall a, Q a -> keeps PM J crs0 errs0 R (k a)) -> keeps PM J crs0 errs0 R (bind m k).
Proof.
  intros Hm Hk self Hself.
  destruct (Hm self Hself) as (a & self' & Hrun & Hself' & HQ).
  destruct (Hk a HQ self' Hself') as (b & self'' & Hrun' & Hself'' & HR).
  exists b, self''. unfold bind. rewrite Hrun.
  split; [assumption | split; assumption].
Qed.

Lemma keeps_add_error (message : string) (line : option nat) :
  PM message -> keeps PM J crs0 errs0 anything (_add_error message line).
Proof.
  intros Hmsg self (Hmap & Hcrs & Hidx & log & Hall & Hlog).
  eexists tt, _. split; [reflexivity | ]. split; [ | exact I].
  split; [exact Hmap | split; [exact Hcrs | split; [exact Hidx | ]]].
  exists (log ++ [(message, line, feature_idx self)])%list. split.
  - apply Forall_app. split; [exact Hall | ].
    constructor; [ | constructor]. repeat split; assumption.
  - cbn [errors with_errors]. rewrite replay_app, <- Hlog. reflexivity.
Qed.

Lemma keeps_get_line_number (path : string) :
  keeps PM J crs0 errs0 anything (_get_line_number path).
Proof.
  intros self Hself. pose proof Hself as (Hmap & _).
  unfold _get_line_number.
  destruct (line_map self) as [entries |] eqn:E; [ | congruence].
  eexists _, self. split; [reflexivity | split; [assumption | exact I]].
Qed.

Lemma keeps_get_check_crs : keeps PM J crs0 errs0 (fun crs => crs = crs0) get_check_crs.
Proof.
  intros self Hself. pose proof Hself as (_ & Hcrs & _).
  exists (check_crs self), self.
  split; [reflexivity | split; assumption].
Qed.

Lemma keeps_set_feature_idx (idx : nat) :
  J (Some idx) -> keeps PM J crs0 errs0 anything (set_feature_idx idx).
Proof.
  intros HJ self (Hmap & Hcrs & _ & Hlog).
  eexists tt, _. split; [reflexivity | ]. split; [ | exact I].
  split; [exact Hmap | split; [exact Hcrs | split; [exact HJ | exact Hlog]]].
Qed.

Lemma keeps_for_each {A : Type} (body : A -> M unit) (l : list A) :
  (forall x, In x l -> keeps PM J crs0 errs0 anything (body x)) ->
  keeps PM J crs0 errs0 anything (for_each body l).
Proof.
  induction l as [| x l IH]; intros Hbody; cbn [for_each].
  - now apply keeps_ret.
  - eapply keeps_bind; [apply Hbody; now left | intros _ _].
    apply IH. intros y Hy. apply Hbody. now right.
Qed.

(** The loop hands its body only indices within the list. *)
Lemma keeps_for_enumerate {A : Type} (body : nat -> A -> M unit) (l : list A) :
  forall idx,
    (forall i x, idx <= i < idx + List.length l -> In x l ->
                 keeps PM J crs0 errs0 anything (body i x)) ->
    keeps PM J crs0 errs0 anything (for_enumerate body idx l).
Proof.
  induction l as [| x l IH]; intros idx Hbody; cbn [for_enumerate].
  - now apply keeps_ret.
  - eapply keeps_bind;
      [apply Hbody; [cbn [List.length]; lia | now left] | intros _ _].
    apply IH. intros i y Hi Hy. apply Hbody; [cbn [List.length]; lia | now right].
Qed.

Lemma keeps_report_failure (Q : bool -> Prop) (path message : string) :
  PM message -> Q true ->
  keeps PM J crs0 errs0 Q (line <- _get_line_number path ;; _add_error message line ;; ret true).
Proof.
  intros Hmsg HQ.
  eapply keeps_bind; [apply keeps_get_line_number | intros line _].
  eapply keeps_bind; [now apply keeps_add_error | intros _ _].
  now apply keeps_ret.
Qed.

Lemma keeps_report (path message : string) :
  PM message ->
  keeps PM J crs0 errs0 anything (line <- _get_line_number path ;; _add_error message line).
Proof.
  intros Hmsg.
  eapply keeps_bind; [apply keeps_get_line_number | intros line _].
  now apply keeps_add_error.
Qed.

Lemma keeps_type_gate (obj : json) (allowed_types : list string) (path : string) :
  keeps PM J crs0 errs0 (fun invalid => invalid = false -> exists members, obj = JObj members)
         (_is_invalid_type_member py_repr obj allowed_types path).
Proof.
  unfold _is_invalid_type_member.
  destruct obj; try (apply keeps_ret; discriminate).
  cbv zeta.
  destruct (negb (py_truthy (dict_get "type" members)));
    [apply keeps_report_failure; [exact PM_missing_type | discriminate] | ].
  destruct (negb (py_in (dict_get "type" members) allowed_types));
    [apply keeps_report_failure; [apply PM_invalid_type | discriminate] | ].
  apply keeps_ret. eauto.
Qed.

Lemma keeps_property_gate (obj : dict) (name type_str path : string) :
  keeps PM J crs0 errs0 (fun invalid =>
            invalid = false -> type_str = "array" ->
            exists items, dict_lookup name obj = Some (JArr items))
         (_is_invalid_property obj name type_str path).
Proof.
  unfold _is_invalid_property.
  destruct (dict_lookup name obj) as [v |];
    [ | apply keeps_report_failure; [apply PM_member_required | discriminate]].
  destruct (String.eqb type_str "array" && negb (is_list v)) eqn:Harr;
    [apply keeps_report_failure; [apply PM_member_array | discriminate] | ].
  assert (Hlist : type_str = "array" -> exists items, Some v = Some (JArr items)).
  { intros ->. rewrite String.eqb_refl in Harr. cbn [andb] in Harr.
    destruct v; try discriminate Harr. eauto. }
  destruct (String.eqb type_str "object" && negb (is_dict v)).
  - destruct (existsb (String.eqb name) ["geometry"; "properties"] && is_none v).
    + apply keeps_ret. auto.
    + apply keeps_report_failure; [apply PM_member_object | discriminate].
  - apply keeps_ret. auto.
Qed.

Lemma keeps_validate_position (coords : json) (path : string) :
  keeps PM J crs0 errs0 anything (_validate_position coords path).
Proof.
  unfold _validate_position.
  destruct coords; try (now apply keeps_report).
  eapply keeps_bind; [ | intros _ _].
  - destruct ((List.length items <? 2)%nat || (3 <? List.length items)%nat);
      [now apply keeps_report | now apply keeps_ret].
  - destruct (negb (forallb is_int_or_float items));
      [now apply keeps_report | now apply keeps_ret].
Qed.

Lemma keeps_validate_position_array (depth : nat) :
  forall (coords : json) (path : string),
    keeps PM J crs0 errs0 anything (_validate_position_array coords depth path).
Proof.
  induction depth as [| depth IH]; intros coords path;
    cbn [_validate_position_array].
  - apply keeps_validate_position.
  - destruct coords; try (now apply keeps_report).
    apply keeps_for_each. intros p _. apply IH.
Qed.

Lemma keeps_validate_geometry (fuel : nat) :
  forall (geometry : json) (path : string),
    json_depth geometry < fuel ->
    keeps PM J crs0 errs0 anything (_validate_geometry py_repr fuel geometry path).
Proof.
  induction fuel as [| fuel IH]; intros geometry path Hdepth; [lia | ].
  cbn [_validate_geometry].
  eapply keeps_bind; [apply keeps_type_gate | intros invalid Hdict].
  destruct invalid; [now apply keeps_ret | ].
  destruct (Hdict eq_refl) as [members ->]. cbv zeta.
  destruct (py_eq_str (dict_get "type" members) "GeometryCollection").
  - eapply keeps_bind; [apply keeps_property_gate | intros invalid Hlist].
    destruct invalid; cbn [negb]; [now apply keeps_ret | ].
    destruct (Hlist eq_refl eq_refl) as [items Hitems].
    unfold dict_getitem. rewrite Hitems, bind_ret_l.
    cbn [as_list]. rewrite bind_ret_l.
    apply keeps_for_enumerate. intros idx geom _ Hgeom. apply IH.
    pose proof (json_depth_element geom items Hgeom).
    pose proof (json_depth_member _ _ _ Hitems). lia.
  - eapply keeps_bind; [apply keeps_property_gate | intros invalid Hlist].
    destruct invalid; cbn [negb]; [now apply keeps_ret | ].
    destruct (Hlist eq_refl eq_refl) as [items Hitems].
    unfold dict_getitem. rewrite Hitems.
    repeat match goal with
           | |- keeps _ _ _ _ _ (if ?c then _ else _) => destruct c
           end;
      try (now apply keeps_ret);
      rewrite bind_ret_l;
      first [apply keeps_validate_position | apply keeps_validate_position_array].
Qed.

Lemma keeps_validate_feature (fuel : nat) (feature : dict) (path : string) :
  json_depth (JObj feature) <= fuel ->
  keeps PM J crs0 errs0 anything (_validate_feature py_repr fuel feature path).
Proof.
  intros Hdepth. unfold _validate_feature.
  eapply keeps_bind; [apply keeps_type_gate | intros _ _].
  eapply keeps_bind; [ | intros _ _].
  { destruct (dict_contains "id" feature
              && negb (is_str_or_int (dict_get "id" feature)));
      [now apply keeps_report | now apply keeps_ret]. }
  eapply keeps_bind; [apply keeps_property_gate | intros _ _].
  eapply keeps_bind; [apply keeps_property_gate | intros _ _].
  cbv zeta. unfold dict_get.
  destruct (dict_lookup "geometry" feature) as [geom |] eqn:Hgeom.
  - destruct (py_truthy geom); [ | now apply keeps_ret].
    apply keeps_validate_geometry.
    pose proof (json_depth_member _ _ _ Hgeom). lia.
  - now apply keeps_ret.
Qed.

(** The part of [_validate_feature_collection] after the CRS test. *)
Lemma keeps_features_loop (fuel : nat) (feature_collection : dict) (path : string) :
  json_depth (JObj feature_collection) <= fuel ->
  (forall feats idx,
      dict_lookup "features" feature_collection = Some (JArr feats) ->
      idx < List.length feats -> J (Some idx)) ->
  keeps PM J crs0 errs0 anything (features_loop py_repr fuel feature_collection path).
Proof.
  intros Hdepth HJ. unfold features_loop.
  eapply keeps_bind; [apply keeps_property_gate | intros invalid Hlist].
  destruct invalid; cbn [negb]; [now apply keeps_ret | ].
  destruct (Hlist eq_refl eq_refl) as [feats Hfeats].
  unfold dict_getitem. rewrite Hfeats, bind_ret_l.
  cbn [as_list]. rewrite bind_ret_l.
  apply keeps_for_enumerate. intros idx feature Hidx Hfeature.
  eapply keeps_bind;
    [apply keeps_set_feature_idx; apply (HJ feats); [assumption | lia]
    | intros _ _].
  pose proof (json_depth_element feature feats Hfeature).
  pose proof (json_depth_member _ _ _ Hfeats).
  destruct feature; try (apply keeps_validate_feature; lia);
    now apply keeps_report.
Qed.

Lemma keeps_validate_feature_collection (fuel : nat) (feature_collection : dict)
  (path : string) :
  json_depth (JObj feature_collection) <= fuel ->
  (forall feats idx,
      dict_lookup "features" feature_collection = Some (JArr feats) ->
      idx < List.length feats -> J (Some idx)) ->
  keeps PM J crs0 errs0 anything
    (_validate_feature_collection py_repr fuel feature_collection path).
Proof.
  intros Hdepth HJ. unfold _validate_feature_collection.
  eapply keeps_bind; [apply keeps_type_gate | intros _ _].
  eapply keeps_bind; [apply keeps_get_check_crs | intros crs ->].
  eapply (keeps_bind anything);
    [ | intros _ _; now apply (keeps_features_loop fuel feature_collection path)].
  destruct (crs0 && dict_contains "crs" feature_collection) eqn:Hcrs;
    [ | now apply keeps_ret].
  apply andb_true_iff in Hcrs as [Hcrs _].
  apply keeps_report. now apply PM_crs.
Qed.

Lemma keeps_validate_geojson_root (fuel : nat) (obj : json) :
  json_depth obj < fuel ->
  (forall members feats idx,
      obj = JObj members ->
      dict_get "type" members = JStr "FeatureCollection" ->
      dict_lookup "features" members = Some (JArr feats) ->
      idx < List.length feats -> J (Some idx)) ->
  keeps PM J crs0 errs0 anything (_validate_geojson_root py_repr fuel obj).
Proof.
  intros Hdepth HJ. unfold _validate_geojson_root. cbv zeta.
  eapply keeps_bind; [apply keeps_type_gate | intros invalid Hdict].
  destruct invalid; [now apply keeps_ret | ].
  destruct (Hdict eq_refl) as [members ->].
  destruct (py_eq_str (dict_get "type" members) "FeatureCollection") eqn:Hfc.
  - apply keeps_validate_feature_collection; [lia | ].
    intros feats idx Hfeats Hidx. apply (HJ members feats); auto.
    destruct (dict_get "type" members); try discriminate Hfc.
    cbn [py_eq_str] in Hfc. apply String.eqb_eq in Hfc. now subst.
  - destruct (py_eq_str (dict_get "type" members) "Feature");
      [apply keeps_validate_feature; lia | ].
    destruct (py_in (dict_get "type" members) GEOMETRY_TYPES);
      [now apply keeps_validate_geometry | now apply keeps_ret].
Qed.

End Tracked.

(** A call of [lint]: it returns the report of the instance, which is the
    earlier report followed by events within the bounds. *)
Lemma lint_log_within (PM : string -> Prop) (J : option nat -> Prop)
  (source_map : json -> string -> option nat) (py_repr : json -> string)
  (geojson_data : json) (self : GeoJsonLint) :
  messages_within PM py_repr (check_crs self) ->
  J (feature_idx self) ->
  (forall members feats idx,
      geojson_data = JObj members ->
      dict_get "type" members = JStr "FeatureCollection" ->
      dict_lookup "features" members = Some (JArr feats) ->
      idx < List.length feats -> J (Some idx)) ->
  exists errs self' log,
    lint source_map py_repr geojson_data self = (Returns errs, self')
    /\ errs = replay log (errors self)
    /\ log_all PM (fun _ => True) J log.
Proof.
  intros (Hroot & H1 & H2 & H3 & H4 & H5 & H6 & H7 & H8 & H9 & H10 & H11 & H12)
         Hidx HJ.
  destruct (is_dict geojson_data) eqn:Hdict.
  - destruct geojson_data; try discriminate Hdict.
    unfold lint.
    pose (self1 := mkLint (check_crs self) (feature_idx self)
                     (Some (source_map (JObj members))) (errors self)).
    assert (Hstart : tracked PM J (check_crs self) (errors self) self1).
    { split; [discriminate | split; [reflexivity | split; [exact Hidx | ]]].
      exists []. split; [constructor | reflexivity]. }
    destruct (keeps_validate_geojson_root PM J (check_crs self) (errors self)
                py_repr H1 H2 H3 H4 H5 H6 H7 H8 H9 H10 H11 H12
                (S (json_depth (JObj members))) (JObj members)
                (Nat.lt_succ_diag_r _) HJ self1 Hstart)
      as (u & self2 & Hrun & (_ & _ & _ & log & Hall & Hlog) & _).
    exists (errors self2), self2, log.
    split; [ | split; assumption].
    unfold bind, set_line_map. fold self1. rewrite Hrun. reflexivity.
  - exists (record_error msg_root (Some 0) (feature_idx self) (errors self)),
      (with_errors (record_error msg_root (Some 0) (feature_idx self)
                      (errors self)) self),
      [(msg_root, Some 0, feature_idx self)].
    split; [destruct geojson_data; try discriminate Hdict; reflexivity | ].
    split; [reflexivity | ].
    constructor; [ | constructor]. repeat split; assumption.
Qed.

(** X7: every feature index in the report of a new validator is absent or
    is the index of an element of the "features" array of the root
    FeatureCollection; a document of any other kind yields no feature index
    at all. *)
Theorem feature_indices_point_into_features :
  forall (source_map : json -> string -> option nat) (py_repr : json -> string)
         (check_crs : bool) (geojson_data : json),
    exists errs,
      fst (lint source_map py_repr geojson_data (__init__ check_crs)) = Returns errs
      /\ report_all (fun _ => True) (fun _ => True)
                    (feature_index_of geojson_data) errs.
Proof.
  intros source_map py_repr check_crs geojson_data.
  destruct (lint_log_within (fun _ => True) (feature_index_of geojson_data)
              source_map py_repr geojson_data (__init__ check_crs))
    as (errs & self' & log & Hrun & Herrs & Hlog).
  - unfold messages_within. tauto.
  - exact I.
  - intros members feats idx Hobj Htype Hfeats Hidx.
    exists members, feats. auto.
  - exists errs. rewrite Hrun. split; [reflexivity | ].
    rewrite Herrs. apply replay_all; [exact Hlog | constructor].
Qed.

Lemma fixed_known (py_repr : json -> string) (message : string) :
  In message fixed_messages -> known_message py_repr message.
Proof. intros H. now left. Qed.

(** X8: every message text in the report of a new validator is one of the
    nine fixed texts or an instance of the four templates (invalid type,
    member required, member must be an array, member must be an object). *)
Theorem lint_records_known_messages_only :
  forall (source_map : json -> string -> option nat) (py_repr : json -> string)
         (check_crs : bool) (geojson_data : json),
    exists errs,
      fst (lint source_map py_repr geojson_data (__init__ check_crs)) = Returns errs
      /\ Forall (known_message py_repr) (map fst errs).
Proof.
  intros source_map py_repr check_crs geojson_data.
  destruct (lint_log_within (known_message py_repr) (fun _ => True)
              source_map py_repr geojson_data (__init__ check_crs))
    as (errs & self' & log & Hrun & Herrs & Hlog).
  - unfold messages_within.
    repeat match goal with
           | |- _ /\ _ => split
           end;
      try (apply fixed_known; cbn; tauto);
      intros; try (apply fixed_known; cbn; tauto); unfold known_message; eauto 8.
  - exact I.
  - intros; exact I.
  - exists errs. rewrite Hrun. split; [reflexivity | ].
    assert (Hall : report_all (known_message py_repr) (fun _ => True)
                              (fun _ => True) errs).
    { rewrite Herrs. apply replay_all; [exact Hlog | constructor]. }
    apply Forall_map. unfold report_all in Hall.
    eapply Forall_impl; [ | exact Hall]. intros kv [H _]. exact H.
Qed.

(** Events with other messages leave the entry of [message] as it is. *)
Lemma record_error_lookup_other (message other : string) (line fidx : option nat)
  (errs : report) :
  other <> message ->
  report_lookup message (record_error other line fidx errs) =
  report_lookup message errs.
Proof.
  intros Hneq. induction errs as [| [m e] errs IH].
  - cbn. destruct (String.eqb_spec other message); [contradiction | reflexivity].
  - cbn [record_error report_lookup].
    destruct (String.eqb_spec m other) as [-> | Hm]; cbn [report_lookup].
    + destruct (String.eqb_spec other message); [contradiction | reflexivity].
    + destruct (String.eqb m message); [reflexivity | exact IH].
Qed.

Lemma replay_lookup_other (message : string) (J : option nat -> Prop)
  (log : list event) :
  forall errs,
    log_all (fun m => m <> message) (fun _ => True) J log ->
    report_lookup message (replay log errs) = report_lookup message errs.
Proof.
  induction log as [| ev log IH]; intros errs Hlog; [reflexivity | ].
  rewrite replay_cons. inversion Hlog as [| ? ? (Hm & _) Hrest]; subst.
  rewrite IH by assumption. now apply record_error_lookup_other.
Qed.

Lemma report_lookup_has_message (message : string) (errs : report) :
  has_message message errs = false <-> report_lookup message errs = None.
Proof.
  induction errs as [| [m e] errs IH]; [split; reflexivity | ].
  cbn [has_message existsb report_lookup fst].
  destruct (String.eqb m message); cbn [orb]; [split; discriminate | exact IH].
Qed.

(** No message of the walk, other than the CRS message itself, reads like
    the CRS message. *)
Lemma messages_differ_from_crs (py_repr : json -> string) :
  messages_within (fun m => m <> msg_crs) py_repr false.
Proof.
  unfold messages_within.
  repeat match goal with
         | |- _ /\ _ => split
         end;
    intros; try discriminate.
Qed.

(** X9: with [check_crs] off, the CRS message is never recorded: a report
    that does not hold it before a call of [lint] does not hold it after. *)
Theorem crs_message_only_when_switched_on :
  forall (source_map : json -> string -> option nat) (py_repr : json -> string)
         (geojson_data : json) (self : GeoJsonLint),
    check_crs self = false ->
    has_message msg_crs (errors self) = false ->
    exists errs,
      fst (lint source_map py_repr geojson_data self) = Returns errs
      /\ has_message msg_crs errs = false.
Proof.
  intros source_map py_repr geojson_data self Hcrs Hbefore.
  destruct (lint_log_within (fun m => m <> msg_crs) (fun _ => True)
              source_map py_repr geojson_data self)
    as (errs & self' & log & Hrun & Herrs & Hlog).
  - rewrite Hcrs. apply messages_differ_from_crs.
  - exact I.
  - intros; exact I.
  - exists errs. rewrite Hrun. split; [reflexivity | ].
    apply report_lookup_has_message. rewrite Herrs.
    rewrite (replay_lookup_other msg_crs (fun _ => True)) by exact Hlog.
    now apply report_lookup_has_message.
Qed.

(** A FeatureCollection with a "crs" member, linted with the test off. *)
Lemma crs_message_only_when_switched_on_witness :
  exists errs,
    fst (lint first_line_map opaque_repr
           (JObj [("type", JStr "FeatureCollection"); ("crs", JStr "EPSG:4326");
                  ("features", JArr [])])
           (__init__ false)) = Returns errs
    /\ has_message msg_crs errs = false.
Proof.
  exact (crs_message_only_when_switched_on first_line_map opaque_repr
           (JObj [("type", JStr "FeatureCollection"); ("crs", JStr "EPSG:4326");
                  ("features", JArr [])])
           (__init__ false) eq_refl eq_refl).
Defined.

(** Linting a FeatureCollection that carries "crs", with the CRS test on:
    the CRS message is the first event, and the features loop follows. *)
Lemma lint_collection_with_crs (source_map : json -> string -> option nat)
  (py_repr : json -> string) (members : dict) :
  dict_get "type" members = JStr "FeatureCollection" ->
  dict_contains "crs" members = true ->
  lint source_map py_repr (JObj members) (__init__ true) =
  bind (features_loop py_repr (S (json_depth (JObj members))) members "")
       (fun _ => get_errors)
       (mkLint true None (Some (source_map (JObj members)))
          [(msg_crs,
            mkEntry [one_indexed (source_map (JObj members)) "/crs"] [None])]).
Proof.
  intros Htype Hcrs.
  unfold lint, _validate_geojson_root, _validate_feature_collection.
  fold (features_loop py_repr (S (json_depth (JObj members))) members "").
  unfold bind, set_line_map, get_check_crs, _is_invalid_type_member.
  cbn -[features_loop json_depth dict_get dict_contains].
  rewrite !Htype.
  cbn -[features_loop json_depth dict_get dict_contains].
  rewrite Hcrs.
  cbn -[features_loop json_depth dict_get dict_contains].
  destruct (features_loop py_repr (S (json_depth (JObj members))) members "" _)
    as [[u | e] self']; reflexivity.
Qed.

(** X10: with [check_crs] on, a FeatureCollection that carries a "crs"
    member, whatever its value and whatever the features hold, gets the CRS
    message exactly once, at the line of the "crs" member and without a
    feature index. *)
Theorem crs_message_recorded_exactly_once :
  forall (source_map : json -> string -> option nat) (py_repr : json -> string)
         (members : dict),
    dict_get "type" members = JStr "FeatureCollection" ->
    dict_contains "crs" members = true ->
    exists errs,
      fst (lint source_map py_repr (JObj members) (__init__ true)) = Returns errs
      /\ report_lookup msg_crs errs =
         Some (mkEntry [one_indexed (source_map (JObj members)) "/crs"] [None]).
Proof.
  intros source_map py_repr members Htype Hcrs.
  rewrite lint_collection_with_crs by assumption.
  pose (errs1 := [(msg_crs,
                   mkEntry [one_indexed (source_map (JObj members)) "/crs"] [None])]).
  pose (self1 := mkLint true None (Some (source_map (JObj members))) errs1).
  destruct (messages_differ_from_crs py_repr)
    as (_ & _ & _ & H3 & H4 & H5 & H6 & H7 & H8 & H9 & H10 & H11 & _).
  assert (H2 : forall obj_type allowed,
             msg_invalid_type py_repr obj_type allowed <> msg_crs)
    by (intros; discriminate).
  assert (H1 : msg_missing_type <> msg_crs) by discriminate.
  destruct (keeps_features_loop (fun m => m <> msg_crs) (fun _ => True) true errs1
              py_repr H1 H2 H3 H4 H5 H6 H7 H8 H9 H10 H11
              (S (json_depth (JObj members))) members ""
              (Nat.le_succ_diag_r _) (fun _ _ _ _ => I) self1)
    as (u & self2 & Hrun & (_ & _ & _ & log & Hall & Hlog) & _).
  { split; [discriminate | split; [reflexivity | split; [exact I | ]]].
    exists []. split; [constructor | reflexivity]. }
  fold errs1. fold self1. unfold bind. rewrite Hrun.
  exists (errors self2). split; [reflexivity | ].
  rewrite Hlog.
  rewrite (replay_lookup_other msg_crs (fun _ => True)) by exact Hall.
  reflexivity.
Qed.

(** A FeatureCollection with a "crs" member and two bad features. *)
Lemma crs_message_recorded_exactly_once_witness :
  exists errs,
    fst (lint first_line_map opaque_repr
           (JObj [("type", JStr "FeatureCollection"); ("crs", JNull);
                  ("features", JArr [JInt 1; JObj []])])
           (__init__ true)) = Returns errs
    /\ report_lookup msg_crs errs = Some (mkEntry [Some 1] [None]).
Proof.
  exact (crs_message_recorded_exactly_once first_line_map opaque_repr
           [("type", JStr "FeatureCollection"); ("crs", JNull);
            ("features", JArr [JInt 1; JObj []])] eq_refl eq_refl).
Defined.

(* ================================================================== *)
(** * Where a missing member is reported *)
(* ================================================================== *)

Lemma starts_with_self (sep rest : string) : starts_with sep (sep ++ rest) = true.
Proof.
  induction sep as [| c sep IH]; [reflexivity | ].
  cbn [append starts_with]. now rewrite Ascii.eqb_refl, IH.
Qed.

(** A word without "/" that starts [u ++ "/..."] starts [u]. *)
Lemma starts_with_before_slash (w u t : string) :
  no_char "/" w = true ->
  starts_with w (u ++ String "/" t) = true ->
  starts_with w u = true.
Proof.
  revert u. induction w as [| a w IH]; intros u Hw Hstart; [reflexivity | ].
  cbn [no_char] in Hw. apply andb_true_iff in Hw as [Ha Hw].
  destruct u as [| b u]; cbn [append starts_with] in *.
  - apply andb_true_iff in Hstart as [Hab _]. rewrite Hab in Ha. discriminate.
  - apply andb_true_iff in Hstart as [Hab Hrest]. rewrite Hab.
    now apply IH.
Qed.

Lemma split_go_head_segment (w parent rest cur : string) :
  no_char "/" w = true ->
  occurs (String "/" w) parent = false ->
  hd "" (py_split_go (String "/" w) 0 cur (parent ++ String "/" w ++ rest))
  = cur ++ parent.
Proof.
  intros Hw. revert cur. induction parent as [| c parent IH]; intros cur Hocc.
  - change ("" ++ String "/" w ++ rest) with (String "/" (w ++ rest)).
    cbn [py_split_go].
    change (String "/" (w ++ rest)) with (String "/" w ++ rest).
    rewrite starts_with_self. cbn [hd]. now rewrite append_empty_r.
  - cbn [occurs] in Hocc. apply orb_false_iff in Hocc as [Hhere Hrest].
    change (String c parent ++ String "/" w ++ rest)
      with (String c (parent ++ String "/" w ++ rest)).
    cbn [py_split_go].
    destruct (starts_with (String "/" w) (String c (parent ++ String "/" w ++ rest)))
      eqn:Hs.
    + exfalso. cbn [starts_with] in Hs, Hhere.
      apply andb_true_iff in Hs as [Hc Hs].
      change (String "/" w ++ rest) with (String "/" (w ++ rest)) in Hs.
      apply starts_with_before_slash in Hs; [ | assumption].
      rewrite Hc, Hs in Hhere. discriminate.
    + rewrite IH by assumption. now rewrite append_assoc.
Qed.

Lemma split_go_absent (sep s cur : string) :
  occurs sep s = false ->
  py_split_go sep 0 cur s = [cur ++ s].
Proof.
  revert cur. induction s as [| c s IH]; intros cur Hocc.
  - cbn. now rewrite append_empty_r.
  - cbn [occurs] in Hocc. apply orb_false_iff in Hocc as [Hhere Hrest].
    cbn [py_split_go]. rewrite Hhere, IH by assumption.
    now rewrite append_assoc.
Qed.

(** X11: when a required member is absent, the message
    "<name> member required" (the name in double quotes) is recorded at the
    part of the gate's path that comes before the first "/<name>".  Called with path
    parent/name, as for "features", "properties" and "geometry", that is the
    parent object; called with the path of the geometry itself, as for
    "coordinates" and "geometries", it is that geometry unless its path goes
    through "/<name>": a GeometryCollection nested in another one at
    outer/geometries/i and lacking "geometries" is reported at [outer]. *)
Theorem missing_member_is_reported_before_its_name :
  forall (obj : dict) (name type_str : string) (entries : string -> option nat)
         (self : GeoJsonLint),
    line_map self = Some entries ->
    dict_lookup name obj = None ->
    let recorded_at := fun at_path =>
      (Returns true,
       with_errors
         (record_error (msg_member_required name) (one_indexed entries at_path)
            (feature_idx self) (errors self)) self) in
    (forall parent rest,
        no_char "/" name = true ->
        occurs ("/" ++ name) parent = false ->
        _is_invalid_property obj name type_str (parent ++ "/" ++ name ++ rest) self
        = recorded_at parent)
    /\ (forall path,
          occurs ("/" ++ name) path = false ->
          _is_invalid_property obj name type_str path self = recorded_at path).
Proof.
  intros obj name type_str entries self Hmap Habsent recorded_at.
  subst recorded_at. split.
  - intros parent rest Hname Hocc.
    unfold _is_invalid_property. rewrite Habsent.
    unfold bind, _get_line_number, _add_error, ret. rewrite Hmap.
    unfold split_head, py_split.
    change ("/" ++ name) with (String "/" name) in *.
    replace (parent ++ "/" ++ name ++ rest)
      with (parent ++ String "/" name ++ rest) by reflexivity.
    rewrite split_go_head_segment by assumption. reflexivity.
  - intros path Hocc.
    unfold _is_invalid_property. rewrite Habsent.
    unfold bind, _get_line_number, _add_error, ret. rewrite Hmap.
    unfold split_head, py_split. rewrite split_go_absent by assumption.
    reflexivity.
Qed.

(** A collection at "/geometries/0" without "geometries" is reported on the
    line of the root; a feature at "/features/2" without "geometry" is
    reported on its own line. *)
Lemma missing_member_is_reported_before_its_name_witness :
  _is_invalid_property [("type", JStr "GeometryCollection")] "geometries" "array"
    "/geometries/0" (mkLint false None (Some root_or_inner) []) =
  (Returns true,
   mkLint false None (Some root_or_inner)
     [(msg_member_required "geometries", mkEntry [Some 1] [None])])
  /\ _is_invalid_property [("type", JStr "Feature")] "geometry" "object"
       "/features/2/geometry" (mkLint false (Some 2) (Some root_or_inner) []) =
     (Returns true,
      mkLint false (Some 2) (Some root_or_inner)
        [(msg_member_required "geometry", mkEntry [Some 6] [Some 2])]).
Proof.
  split.
  - exact (proj1 (missing_member_is_reported_before_its_name
                    [("type", JStr "GeometryCollection")] "geometries" "array"
                    root_or_inner (mkLint false None (Some root_or_inner) [])
                    eq_refl eq_refl) "" "/0" eq_refl eq_refl).
  - exact (proj1 (missing_member_is_reported_before_its_name
                    [("type", JStr "Feature")] "geometry" "object"
                    root_or_inner (mkLint false (Some 2) (Some root_or_inner) [])
                    eq_refl eq_refl) "/features/2" "" eq_refl eq_refl).
Defined.

(* ================================================================== *)
(** * The downstream checks on geometries the linter accepts *)
(* ================================================================== *)

Lemma uint_has_no_dot (d : Decimal.uint) :
  no_char "." (NilEmpty.string_of_uint d) = true.
Proof. induction d; cbn; auto. Qed.

Lemma str_of_Z_has_no_dot (n : Z) : no_char "." (str_of_Z n) = true.
Proof.
  unfold str_of_Z, NilZero.string_of_int.
  destruct (Z.to_int n) as [d | d]; unfold NilZero.string_of_uint;
    destruct d; cbn [no_char negb andb Ascii.eqb Bool.eqb];
    try reflexivity; apply (uint_has_no_dot _).
Qed.

Lemma no_char_occurs (c : ascii) (s : string) :
  no_char c s = true -> occurs (String c "") s = false.
Proof.
  induction s as [| a s IH]; intros H; [reflexivity | ].
  cbn [no_char] in H. apply andb_true_iff in H as [Ha Hs].
  cbn [occurs starts_with]. rewrite IH by assumption.
  rewrite Ascii.eqb_sym. apply negb_true_iff in Ha. now rewrite Ha.
Qed.

(** [str(x).split(".")] has a single piece for an [int] or a [bool]. *)
Lemma split_integer_text (py_repr : json -> string) (x : json) :
  (exists n, x = JInt n) \/ (exists b, x = JBool b) ->
  nth_error (py_split "." (py_str py_repr x)) 1 = None.
Proof.
  intros [[n ->] | [b ->]].
  - unfold py_split. cbn [py_str].
    rewrite split_go_absent; [reflexivity | ].
    apply no_char_occurs, str_of_Z_has_no_dot.
  - destruct b; reflexivity.
Qed.

(** X12: [check_excessive_coordinate_precision] raises IndexError on every
    geometry whose first ring (or first line) starts with a position whose
    first coordinate is an integer or a boolean: the text of such a number
    has no "." to split at. *)
Theorem precision_check_raises_on_integer_coordinate :
  forall (py_repr : json -> string) (geometry : dict) (x : json)
         (position_rest ring_rest rings_rest : list json),
    dict_lookup "coordinates" geometry =
      Some (JArr (JArr (JArr (x :: position_rest) :: ring_rest) :: rings_rest)) ->
    (exists n, x = JInt n) \/ (exists b, x = JBool b) ->
    check_excessive_coordinate_precision py_repr (JObj geometry) = Raises IndexError.
Proof.
  intros py_repr geometry x position_rest ring_rest rings_rest Hcoords Hx.
  unfold check_excessive_coordinate_precision, py_getitem_str.
  rewrite Hcoords.
  pose proof (split_integer_text py_repr x Hx) as Hpieces.
  destruct ring_rest;
    cbn [and_then py_getitem_int nth_error py_slice_prefix firstn py_iter
         comprehension] in *;
    rewrite Hpieces; reflexivity.
Qed.

(** A Polygon with integer corners, which the linter accepts. *)
Lemma precision_check_raises_on_integer_coordinate_witness :
  fst (lint first_line_map opaque_repr (geometry_doc "Polygon" integer_ring)
         (__init__ false)) = Returns []
  /\ check_excessive_coordinate_precision opaque_repr
       (geometry_doc "Polygon" integer_ring) = Raises IndexError.
Proof.
  split; [reflexivity | ].
  exact (precision_check_raises_on_integer_coordinate opaque_repr
           [("type", JStr "Polygon"); ("coordinates", integer_ring)]
           (JInt 0) [JInt 0]
           [JArr [JInt 4; JInt 0]; JArr [JInt 4; JInt 4]; JArr [JInt 0; JInt 0]]
           [] eq_refl (or_introl (ex_intro _ 0%Z eq_refl))).
Defined.

(** X13: on a geometry whose first ring starts with a well-formed position
    (two or three numbers), [check_more_than_2d_coordinates] without
    [check_all_coordinates] returns whether that position has three
    coordinates; with [check_all_coordinates] it returns True for three
    coordinates and raises TypeError for two, since its loops then take
    [len] of a number. *)
Theorem dimension_check_on_first_position :
  forall (geometry : dict) (position ring_rest rings_rest : list json),
    dict_lookup "coordinates" geometry =
      Some (JArr (JArr (JArr position :: ring_rest) :: rings_rest)) ->
    is_position (JArr position) = true ->
    check_more_than_2d_coordinates (JObj geometry) false
      = Returns (JBool (2 <? List.length position)%nat)
    /\ check_more_than_2d_coordinates (JObj geometry) true
      = (if (2 <? List.length position)%nat then Returns (JBool true)
         else Raises TypeError).
Proof.
  intros geometry position ring_rest rings_rest Hcoords Hpos.
  unfold check_more_than_2d_coordinates, py_getitem_str. rewrite Hcoords.
  cbn [and_then py_getitem_int nth_error py_len py_iter].
  destruct (2 <? List.length position)%nat eqn:Hlen; [split; reflexivity | ].
  split; [reflexivity | ].
  cbn [is_position] in Hpos.
  apply andb_true_iff in Hpos as [Hbounds Hnumbers].
  apply andb_true_iff in Hbounds as [Hmin _].
  destruct position as [| x position]; [discriminate Hmin | ].
  cbn [forallb] in Hnumbers. apply andb_true_iff in Hnumbers as [Hx _].
  cbn [any_ring_longer and_then py_iter any_coord_longer].
  destruct x; try discriminate Hx; reflexivity.
Qed.

(** The Polygon with integer corners: False without the flag, TypeError
    with it. *)
Lemma dimension_check_on_first_position_witness :
  check_more_than_2d_coordinates (geometry_doc "Polygon" integer_ring) false
    = Returns (JBool false)
  /\ check_more_than_2d_coordinates (geometry_doc "Polygon" integer_ring) true
    = Raises TypeError.
Proof.
  exact (dimension_check_on_first_position
           [("type", JStr "Polygon"); ("coordinates", integer_ring)]
           [JInt 0; JInt 0]
           [JArr [JInt 4; JInt 0]; JArr [JInt 4; JInt 4]; JArr [JInt 0; JInt 0]]
           [] eq_refl eq_refl).
Defined.

(* ================================================================== *)
(** * Features that are not objects *)
(* ================================================================== *)

Lemma replay_same_message (message : string) (line : nat -> option nat)
  (fidx : nat -> option nat) (indices : list nat) :
  forall ls fs,
    replay (map (fun i => (message, line i, fidx i)) indices)
           [(message, mkEntry ls fs)] =
    [(message, mkEntry (ls ++ map line indices)%list (fs ++ map fidx indices)%list)].
Proof.
  induction indices as [| i indices IH]; intros ls fs.
  - cbn. now rewrite !app_nil_r.
  - cbn [map]. rewrite replay_cons. cbn [fst snd record_error].
    rewrite String.eqb_refl, IH. cbn [lines features map].
    now rewrite <- !app_assoc.
Qed.

(** The loop over features none of which is an object. *)
Lemma features_loop_non_objects (py_repr : json -> string) (fuel : nat)
  (path : string) (entries : string -> option nat) (crs : bool) (feats : list json) :
  forallb (fun v => negb (is_dict v)) feats = true ->
  forall idx fi errs,
    for_enumerate
      (fun idx feature =>
         set_feature_idx idx ;;
         match feature with
         | JObj members =>
             _validate_feature py_repr fuel members
               (path ++ "/features/" ++ str_of_nat idx)
         | _ =>
             line <- _get_line_number (path ++ "/features/" ++ str_of_nat idx) ;;
             _add_error msg_feature_object line
         end)
      idx feats (mkLint crs fi (Some entries) errs) =
    (Returns tt,
     mkLint crs
       (match feats with [] => fi | _ => Some (idx + List.length feats - 1) end)
       (Some entries)
       (replay (map (non_object_event entries path) (seq idx (List.length feats)))
               errs)).
Proof.
  induction feats as [| x feats IH]; intros Hall idx fi errs; [reflexivity | ].
  cbn [forallb] in Hall. apply andb_true_iff in Hall as [Hx Hall].
  cbn [for_enumerate]. unfold bind at 1.
  assert (Hstep :
    (set_feature_idx idx ;;
     match x with
     | JObj members =>
         _validate_feature py_repr fuel members
           (path ++ "/features/" ++ str_of_nat idx)
     | _ =>
         line <- _get_line_number (path ++ "/features/" ++ str_of_nat idx) ;;
         _add_error msg_feature_object line
     end) (mkLint crs fi (Some entries) errs) =
    (Returns tt,
     mkLint crs (Some idx) (Some entries)
       (record_error msg_feature_object
          (one_indexed entries (path ++ "/features/" ++ str_of_nat idx))
          (Some idx) errs))).
  { destruct x; try discriminate Hx; reflexivity. }
  rewrite Hstep, (IH Hall). cbn [List.length seq map].
  rewrite replay_cons. unfold non_object_event at 2. cbn [fst snd].
  assert (Hlast : match feats with
                  | [] => Some idx
                  | _ :: _ => Some (S idx + List.length feats - 1)
                  end = Some (idx + S (List.length feats) - 1))
    by (destruct feats; cbn [List.length]; f_equal; lia).
  rewrite Hlast. reflexivity.
Qed.

(** X15: in a FeatureCollection none of whose features is an object, every
    feature is reported under the one message "Every feature must be a
    dictionary/object.", in order, each with its own index and the line of
    its own path /features/i; an empty features array gives the empty
    report. *)
Theorem non_object_features_reported_by_index :
  forall (source_map : json -> string -> option nat) (py_repr : json -> string)
         (check_crs : bool) (feats : list json),
    forallb (fun v => negb (is_dict v)) feats = true ->
    let doc := feature_collection_doc feats in
    let indices := seq 0 (List.length feats) in
    fst (lint source_map py_repr doc (__init__ check_crs)) =
    Returns
      (match feats with
       | [] => []
       | _ =>
           [(msg_feature_object,
             mkEntry
               (map (fun i => one_indexed (source_map doc)
                                ("/features/" ++ str_of_nat i)) indices)
               (map Some indices))]
       end).
Proof.
  intros source_map py_repr check_crs feats Hall doc indices.
  subst doc indices.
  unfold lint, feature_collection_doc, _validate_geojson_root,
    _validate_feature_collection.
  unfold bind at 1 2. cbn -[for_enumerate json_depth seq].
  rewrite andb_false_r. cbn -[for_enumerate json_depth seq].
  rewrite (features_loop_non_objects py_repr _ "" _ check_crs feats Hall 0 None []).
  cbn [fst get_errors errors].
  destruct feats as [| x feats]; [reflexivity | ].
  cbn [List.length seq map]. rewrite replay_cons.
  unfold non_object_event at 1. cbn [fst snd record_error].
  unfold non_object_event.
  rewrite (replay_same_message msg_feature_object
             (fun i => one_indexed _ ("" ++ "/features/" ++ str_of_nat i)) Some).
  reflexivity.
Qed.

(** Three features, none an object. *)
Lemma non_object_features_reported_by_index_witness :
  fst (lint first_line_map opaque_repr
         (feature_collection_doc [JInt 1; JNull; JArr []]) (__init__ false)) =
  Returns [(msg_feature_object,
            mkEntry [Some 1; Some 1; Some 1] [Some 0; Some 1; Some 2])].
Proof.
  exact (non_object_features_reported_by_index first_line_map opaque_repr false
           [JInt 1; JNull; JArr []] eq_refl).
Defined.

(* ================================================================== *)
(** * The feature index a call leaves behind *)
(* ================================================================== *)

Lemma bind_returns {A B : Type} (m : M A) (k : A -> M B) (self : GeoJsonLint)
  (b : B) (self'' : GeoJsonLint) :
  bind m k self = (Returns b, self'') ->
  exists a self', m self = (Returns a, self') /\ k a self' = (Returns b, self'').
Proof.
  unfold bind. destruct (m self) as [[a | e] self']; [eauto | discriminate].
Qed.

Lemma idx_kept_ret {A : Type} (a : A) : idx_after eq (ret a).
Proof. intros self a' self' [= _ <-]. reflexivity. Qed.

Lemma idx_kept_raise {A : Type} (e : exn) : idx_after eq (@raise A e).
Proof. intros self a self' H. discriminate H. Qed.

Lemma idx_after_bind {A B : Type} (R1 R2 R : option nat -> option nat -> Prop)
  (m : M A) (k : A -> M B) :
  (forall f f' f'', R1 f f' -> R2 f' f'' -> R f f'') ->
  idx_after R1 m -> (forall a, idx_after R2 (k a)) -> idx_after R (bind m k).
Proof.
  intros Hcomp Hm Hk self b self'' Hrun.
  apply bind_returns in Hrun as (a & self' & Hrun1 & Hrun2).
  eapply Hcomp; [eapply Hm | eapply Hk]; eassumption.
Qed.

Lemma idx_kept_bind {A B : Type} (m : M A) (k : A -> M B) :
  idx_after eq m -> (forall a, idx_after eq (k a)) -> idx_after eq (bind m k).
Proof. apply idx_after_bind. intros f f' f'' -> ->. reflexivity. Qed.

Lemma idx_kept_add_error (message : string) (line : option nat) :
  idx_after eq (_add_error message line).
Proof. intros self a self' [= _ <-]. reflexivity. Qed.

Lemma idx_kept_get_line_number (path : string) :
  idx_after eq (_get_line_number path).
Proof.
  intros self a self'. unfold _get_line_number.
  destruct (line_map self); intros [= _ <-]. reflexivity.
Qed.

Lemma idx_kept_get_check_crs : idx_after eq get_check_crs.
Proof. intros self a self' [= _ <-]. reflexivity. Qed.

Lemma idx_kept_dict_getitem (name : string) (d : dict) :
  idx_after eq (dict_getitem name d).
Proof.
  unfold dict_getitem. destruct (dict_lookup name d);
    [apply idx_kept_ret | apply idx_kept_raise].
Qed.

Lemma idx_kept_as_list (v : json) : idx_after eq (as_list v).
Proof. destruct v; first [apply idx_kept_ret | apply idx_kept_raise]. Qed.

Lemma idx_kept_for_each {A : Type} (body : A -> M unit) (l : list A) :
  (forall x, idx_after eq (body x)) -> idx_after eq (for_each body l).
Proof.
  intros Hbody. induction l as [| x l IH]; cbn [for_each].
  - apply idx_kept_ret.
  - apply idx_kept_bind; [apply Hbody | intros _; exact IH].
Qed.

Lemma idx_kept_for_enumerate {A : Type} (body : nat -> A -> M unit) (l : list A) :
  (forall i x, idx_after eq (body i x)) ->
  forall idx, idx_after eq (for_enumerate body idx l).
Proof.
  intros Hbody. induction l as [| x l IH]; intros idx; cbn [for_enumerate].
  - apply idx_kept_ret.
  - apply idx_kept_bind; [apply Hbody | intros _; apply IH].
Qed.

Create HintDb idx.

#[local] Hint Resolve idx_kept_ret idx_kept_raise idx_kept_add_error
  idx_kept_get_line_number idx_kept_get_check_crs idx_kept_dict_getitem
  idx_kept_as_list : idx.

(** Walks through a method body that never assigns the feature index. *)
Ltac idx_walk :=
  repeat first
    [ solve [auto with idx]
    | apply idx_kept_bind; [ | intro ]
    | match goal with
      | |- idx_after eq (if ?c then _ else _) => destruct c
      | |- idx_after eq (match ?x with _ => _ end) => destruct x
      end ].

Lemma idx_kept_type_gate (py_repr : json -> string) (obj : json)
  (allowed_types : list string) (path : string) :
  idx_after eq (_is_invalid_type_member py_repr obj allowed_types path).
Proof. unfold _is_invalid_type_member. cbv zeta. idx_walk. Qed.

Lemma idx_kept_property_gate (obj : dict) (name type_str path : string) :
  idx_after eq (_is_invalid_property obj name type_str path).
Proof. unfold _is_invalid_property. idx_walk. Qed.

Lemma idx_kept_validate_position (coords : json) (path : string) :
  idx_after eq (_validate_position coords path).
Proof. unfold _validate_position. idx_walk. Qed.

Lemma idx_kept_validate_position_array (depth : nat) :
  forall (coords : json) (path : string),
    idx_after eq (_validate_position_array coords depth path).
Proof.
  induction depth as [| depth IH]; intros coords path;
    cbn [_validate_position_array].
  - apply idx_kept_validate_position.
  - destruct coords; idx_walk.
    apply idx_kept_for_each. intros p. apply IH.
Qed.

#[local] Hint Resolve idx_kept_type_gate idx_kept_property_gate
  idx_kept_validate_position idx_kept_validate_position_array : idx.

Lemma idx_kept_validate_geometry (py_repr : json -> string) (fuel : nat) :
  forall (geometry : json) (path : string),
    idx_after eq (_validate_geometry py_repr fuel geometry path).
Proof.
  induction fuel as [| fuel IH]; intros geometry path; cbn [_validate_geometry].
  - apply idx_kept_raise.
  - apply idx_kept_bind; [auto with idx | intros invalid].
    destruct invalid; [auto with idx | ].
    destruct geometry; try apply idx_kept_raise. cbv zeta.
    destruct (py_eq_str (dict_get "type" members) "GeometryCollection").
    + apply idx_kept_bind; [auto with idx | intros invalid].
      destruct invalid; cbn [negb]; [auto with idx | ].
      apply idx_kept_bind; [auto with idx | intros geometries].
      apply idx_kept_bind; [auto with idx | intros geoms].
      apply idx_kept_for_enumerate. intros i geom. apply IH.
    + apply idx_kept_bind; [auto with idx | intros invalid].
      destruct invalid; cbn [negb]; [auto with idx | ].
      repeat match goal with
             | |- idx_after eq (if ?c then _ else _) => destruct c
             end;
        try (apply idx_kept_bind; [ | intro ]); auto with idx.
Qed.

Lemma idx_kept_validate_feature (py_repr : json -> string) (fuel : nat)
  (feature : dict) (path : string) :
  idx_after eq (_validate_feature py_repr fuel feature path).
Proof.
  unfold _validate_feature.
  apply idx_kept_bind; [auto with idx | intros _].
  apply idx_kept_bind; [idx_walk | intros _].
  apply idx_kept_bind; [auto with idx | intros _].
  apply idx_kept_bind; [auto with idx | intros _].
  cbv zeta. destruct (py_truthy (dict_get "geometry" feature));
    [apply idx_kept_validate_geometry | auto with idx].
Qed.

(** A loop that assigns the index on every round ends on the last index. *)
Lemma loop_ends_on_last_index {A : Type} (body : nat -> A -> M unit) (l : list A) :
  (forall i x, idx_after eq (body i x)) ->
  forall idx,
    idx_after (fun f f' =>
                 f' = match l with
                      | [] => f
                      | _ => Some (idx + List.length l - 1)
                      end)
              (for_enumerate (fun i x => set_feature_idx i ;; body i x) idx l).
Proof.
  intros Hbody. induction l as [| x l IH]; intros idx; cbn [for_enumerate].
  - intros self a self' [= _ <-]. reflexivity.
  - intros self u self'' Hrun.
    apply bind_returns in Hrun as (u1 & self1 & Hrun1 & Hrun2).
    apply bind_returns in Hrun1 as (u0 & self0 & Hset & Hrun1).
    injection Hset as _ <-.
    apply Hbody in Hrun1. cbn [feature_idx] in Hrun1.
    apply IH in Hrun2. rewrite Hrun2, <- Hrun1.
    destruct l; cbn [List.length]; f_equal; lia.
Qed.

Lemma report_failure_returns_true (path message : string) (self : GeoJsonLint)
  (b : bool) (self' : GeoJsonLint) :
  (line <- _get_line_number path ;; _add_error message line ;; ret true) self
    = (Returns b, self') ->
  b = true /\ feature_idx self' = feature_idx self.
Proof.
  unfold bind, _get_line_number, _add_error, ret.
  destruct (line_map self); [ | discriminate].
  intros [= <- <-]. split; reflexivity.
Qed.

Lemma idx_after_features_loop (py_repr : json -> string) (fuel : nat)
  (feature_collection : dict) (path : string) :
  idx_after (fun f f' =>
               f' = match dict_lookup "features" feature_collection with
                    | Some (JArr (x :: feats)) => Some (List.length feats)
                    | _ => f
                    end)
            (features_loop py_repr fuel feature_collection path).
Proof.
  unfold features_loop, _is_invalid_property, dict_getitem.
  destruct (dict_lookup "features" feature_collection) as [v |].
  - destruct (is_list v) eqn:Hlist.
    + destruct v; try discriminate Hlist.
      cbn [String.eqb Ascii.eqb Bool.eqb andb negb is_list].
      rewrite !bind_ret_l. cbn [negb as_list]. rewrite bind_ret_l.
      intros self a self' Hrun.
      apply (loop_ends_on_last_index
               (fun idx feature =>
                  match feature with
                  | JObj members =>
                      _validate_feature py_repr fuel members
                        (path ++ "/features/" ++ str_of_nat idx)
                  | _ =>
                      line <- _get_line_number
                                (path ++ "/features/" ++ str_of_nat idx) ;;
                      _add_error msg_feature_object line
                  end)) in Hrun.
      * rewrite Hrun. destruct items; [reflexivity | ].
        cbn [List.length]. f_equal. lia.
      * intros i x. destruct x; try apply idx_kept_validate_feature; idx_walk.
    + cbn [String.eqb Ascii.eqb Bool.eqb andb negb].
      intros self a self' Hrun.
      apply bind_returns in Hrun as (invalid & self1 & Hgate & Hrest).
      apply report_failure_returns_true in Hgate as [-> Hidx].
      cbn [negb] in Hrest. injection Hrest as _ <-. rewrite Hidx.
      destruct v; try discriminate Hlist; reflexivity.
  - intros self a self' Hrun.
    apply bind_returns in Hrun as (invalid & self1 & Hgate & Hrest).
    apply report_failure_returns_true in Hgate as [-> Hidx].
    cbn [negb] in Hrest. injection Hrest as _ <-. exact Hidx.
Qed.

Lemma idx_after_validate_feature_collection (py_repr : json -> string)
  (fuel : nat) (feature_collection : dict) (path : string) :
  idx_after (fun f f' =>
               f' = match dict_lookup "features" feature_collection with
                    | Some (JArr (x :: feats)) => Some (List.length feats)
                    | _ => f
                    end)
            (_validate_feature_collection py_repr fuel feature_collection path).
Proof.
  unfold _validate_feature_collection.
  fold (features_loop py_repr fuel feature_collection path).
  eapply (idx_after_bind eq); [ | auto with idx | intros _].
  { intros f f' f'' -> H. exact H. }
  eapply (idx_after_bind eq); [ | auto with idx | intros crs].
  { intros f f' f'' -> H. exact H. }
  eapply (idx_after_bind eq); [ | idx_walk | intros _].
  { intros f f' f'' -> H. exact H. }
  apply idx_after_features_loop.
Qed.

Lemma idx_kept_flip {A : Type} (m : M A) :
  idx_after eq m -> idx_after (fun f f' => f' = f) m.
Proof. intros H self a self' Hrun. symmetry. eapply H. eassumption. Qed.

Lemma idx_after_validate_geojson_root (py_repr : json -> string) (fuel : nat)
  (obj : json) :
  idx_after (fun f f' => f' = index_left_by obj f)
            (_validate_geojson_root py_repr fuel obj).
Proof.
  unfold _validate_geojson_root, index_left_by. cbv zeta.
  destruct obj; try solve [apply idx_kept_flip; idx_walk].
  destruct (py_eq_str (dict_get "type" members) "FeatureCollection") eqn:Hfc.
  - assert (Htype : dict_get "type" members = JStr "FeatureCollection").
    { destruct (dict_get "type" members); try discriminate Hfc.
      cbn [py_eq_str] in Hfc. apply String.eqb_eq in Hfc. now subst. }
    unfold _is_invalid_type_member. cbv zeta. rewrite Htype.
    cbn [py_truthy py_in existsb py_eq_str String.eqb Ascii.eqb Bool.eqb
         negb orb andb GEOJSON_TYPES app].
    rewrite bind_ret_l. apply idx_after_validate_feature_collection.
  - apply idx_kept_flip.
    apply idx_kept_bind; [auto with idx | intros invalid].
    destruct invalid; [auto with idx | ].
    destruct (py_eq_str (dict_get "type" members) "Feature");
      [apply idx_kept_validate_feature | ].
    destruct (py_in (dict_get "type" members) GEOMETRY_TYPES);
      [apply idx_kept_validate_geometry | auto with idx].
Qed.

(** X16: [lint] never clears the feature index.  After a call, the
    instance holds the index of the last element of the features array when
    the document is a FeatureCollection whose "features" is a non-empty
    array, and the index it held before the call in every other case. *)
Theorem lint_leaves_last_feature_index :
  forall (source_map : json -> string -> option nat) (py_repr : json -> string)
         (geojson_data : json) (self : GeoJsonLint),
    feature_idx (snd (lint source_map py_repr geojson_data self)) =
    index_left_by geojson_data (feature_idx self).
Proof.
  intros source_map py_repr geojson_data self.
  destruct (lint_returns_grown_report source_map py_repr geojson_data self)
    as (errs & self' & Hrun & _).
  rewrite Hrun. cbn [snd].
  destruct (is_dict geojson_data) eqn:Hdict.
  - destruct geojson_data; try discriminate Hdict.
    unfold lint in Hrun.
    apply bind_returns in Hrun as (u0 & self0 & Hset & Hrun).
    injection Hset as _ <-.
    apply bind_returns in Hrun as (u1 & self1 & Hroot & Hget).
    injection Hget as _ <-.
    apply idx_after_validate_geojson_root in Hroot. exact Hroot.
  - assert (Hkept : index_left_by geojson_data (feature_idx self) = feature_idx self)
      by (destruct geojson_data; try discriminate Hdict; reflexivity).
    rewrite Hkept.
    destruct geojson_data; try discriminate Hdict;
      injection Hrun as _ <-; reflexivity.
Qed.

(* ================================================================== *)
(** * Valid documents are reported clean *)
(* ================================================================== *)

Section Quiet.

Variable crs0 : bool.
Variable py_repr : json -> string.

Lemma quiet_ret {A : Type} (Q : A -> Prop) (a : A) : Q a -> quiet crs0 Q (ret a).
Proof. intros HQ self Hmap Hcrs. exists a, self. auto. Qed.

Lemma quiet_bind {A B : Type} (Q : A -> Prop) (R : B -> Prop) (m : M A)
  (k : A -> M B) :
  quiet crs0 Q m -> (forall a, Q a -> quiet crs0 R (k a)) ->
  quiet crs0 R (bind m k).
Proof.
  intros Hm Hk self Hmap Hcrs.
  destruct (Hm self Hmap Hcrs) as (a & self' & Hrun & Herrs & Hmap' & Hcrs' & HQ).
  destruct (Hk a HQ self' Hmap' Hcrs')
    as (b & self'' & Hrun' & Herrs' & Hmap'' & Hcrs'' & HR).
  exists b, self''. unfold bind. rewrite Hrun.
  repeat split; try assumption. congruence.
Qed.

Lemma quiet_set_feature_idx (idx : nat) : quiet crs0 anything (set_feature_idx idx).
Proof.
  intros self Hmap Hcrs. eexists tt, _.
  split; [reflexivity | ]. repeat split; assumption.
Qed.

Lemma quiet_for_enumerate {A : Type} (body : nat -> A -> M unit) (l : list A) :
  forall idx,
    (forall i x, In x l -> quiet crs0 anything (body i x)) ->
    quiet crs0 anything (for_enumerate body idx l).
Proof.
  induction l as [| x l IH]; intros idx Hbody; cbn [for_enumerate].
  - now apply quiet_ret.
  - eapply quiet_bind; [apply Hbody; now left | intros _ _].
    apply IH. intros i y Hy. apply Hbody. now right.
Qed.

(** Well-nested coordinates pass the position validators in silence. *)
Lemma quiet_validate_position_array (depth : nat) (coords : json) (path : string) :
  well_nested depth coords = true ->
  quiet crs0 anything (_validate_position_array coords depth path).
Proof.
  intros Hwell self Hmap Hcrs.
  destruct (line_map self) as [entries |] eqn:Hentries; [ | congruence].
  destruct (validate_position_array_log entries (feature_idx self) path depth
              coords self (conj Hentries eq_refl))
    as (log & [Hrun _] & Hnil).
  apply Hnil in Hwell. subst log.
  exists tt, (with_errors (replay [] (errors self)) self).
  split; [exact Hrun | ].
  cbn [errors line_map check_crs with_errors replay fold_left].
  repeat split; try assumption. congruence.
Qed.

(** The type gate lets a non-empty allowed name through without a word. *)
Lemma type_gate_passes (members : dict) (ty : string) (allowed_types : list string)
  (path : string) :
  dict_get "type" members = JStr ty ->
  String.eqb ty "" = false ->
  py_in (JStr ty) allowed_types = true ->
  _is_invalid_type_member py_repr (JObj members) allowed_types path = ret false.
Proof.
  intros Htype Hne Hin. unfold _is_invalid_type_member. cbv zeta.
  rewrite Htype, Hin. cbn [py_truthy]. rewrite Hne. reflexivity.
Qed.

(** The array gate lets an array through without a word. *)
Lemma array_gate_passes (obj : dict) (name path : string) (items : list json) :
  dict_lookup name obj = Some (JArr items) ->
  _is_invalid_property obj name "array" path = ret false.
Proof. intros H. unfold _is_invalid_property. now rewrite H. Qed.

Lemma quiet_validate_geometry (bound : nat) :
  forall (geometry : json) (path : string) (fuel : nat),
    valid_geometry bound geometry = true ->
    json_depth geometry < fuel ->
    quiet crs0 anything (_validate_geometry py_repr fuel geometry path).
Proof.
  induction bound as [| bound IH]; intros geometry path fuel Hvalid Hdepth;
    [discriminate Hvalid | ].
  destruct fuel as [| fuel]; [lia | ].
  cbn [valid_geometry] in Hvalid.
  destruct geometry; try discriminate Hvalid.
  destruct (dict_get "type" members) as [| | | | ty | |] eqn:Htype;
    try discriminate Hvalid.
  cbn [_validate_geometry]. cbv zeta.
  destruct (String.eqb_spec ty "GeometryCollection") as [-> | Hleaf].
  - rewrite (type_gate_passes members "GeometryCollection" GEOMETRY_TYPES _ Htype)
      by reflexivity.
    rewrite bind_ret_l, Htype. cbn [py_eq_str String.eqb Ascii.eqb Bool.eqb].
    destruct (dict_lookup "geometries" members) as [[| | | | | geoms |] |] eqn:Hgeoms;
      try discriminate Hvalid.
    rewrite (array_gate_passes members "geometries" path geoms Hgeoms).
    rewrite bind_ret_l. cbn [negb]. unfold dict_getitem.
    rewrite Hgeoms, bind_ret_l. cbn [as_list]. rewrite bind_ret_l.
    apply quiet_for_enumerate. intros i geom Hgeom.
    rewrite forallb_forall in Hvalid. apply IH; [now apply Hvalid | ].
    pose proof (json_depth_element geom geoms Hgeom).
    pose proof (json_depth_member _ _ _ Hgeoms). lia.
  - unfold valid_leaf in Hvalid.
    destruct (coordinates_depth ty) as [depth |] eqn:Hdepth_ty;
      [ | discriminate Hvalid].
    destruct (dict_lookup "coordinates" members) as [coords |] eqn:Hcoords;
      [ | discriminate Hvalid].
    assert (Harr : exists items, coords = JArr items).
    { destruct depth; destruct coords; try discriminate Hvalid; eauto. }
    destruct Harr as [items ->].
    apply coordinates_depth_cases in Hdepth_ty.
    destruct Hdepth_ty
      as [[-> ->] | [[-> ->] | [[-> ->] | [[-> ->] | [[-> ->] | [-> ->]]]]]];
      rewrite (type_gate_passes members _ GEOMETRY_TYPES _ Htype)
        by reflexivity;
      rewrite bind_ret_l, Htype;
      cbn [py_eq_str py_in existsb String.eqb Ascii.eqb Bool.eqb orb];
      rewrite (array_gate_passes members "coordinates" path items Hcoords);
      rewrite bind_ret_l; cbn [negb]; unfold dict_getitem;
      rewrite Hcoords, bind_ret_l;
      first [ apply (quiet_validate_position_array 0 (JArr items)); exact Hvalid
            | apply quiet_validate_position_array; exact Hvalid ].
Qed.

Lemma py_eq_str_true (v : json) (s : string) :
  py_eq_str v s = true -> v = JStr s.
Proof.
  destruct v; try discriminate. cbn [py_eq_str].
  intros H. apply String.eqb_eq in H. now subst.
Qed.

Lemma valid_geometry_is_nonempty_object (bound : nat) (g : json) :
  valid_geometry bound g = true ->
  exists members, g = JObj members /\ py_truthy g = true.
Proof.
  destruct bound as [| bound]; [discriminate | ]. cbn [valid_geometry].
  destruct g; try discriminate. intros Hvalid. exists members.
  split; [reflexivity | ].
  destruct members; [discriminate Hvalid | reflexivity].
Qed.

Lemma quiet_validate_feature (bound fuel : nat) (feature : dict) (path : string) :
  valid_feature bound feature = true ->
  json_depth (JObj feature) <= fuel ->
  quiet crs0 anything (_validate_feature py_repr fuel feature path).
Proof.
  unfold valid_feature. intros Hvalid Hdepth.
  apply andb_true_iff in Hvalid as [Hvalid Hgeometry].
  apply andb_true_iff in Hvalid as [Hvalid Hproperties].
  apply andb_true_iff in Hvalid as [Htype Hid].
  apply py_eq_str_true in Htype.
  unfold _validate_feature.
  rewrite (type_gate_passes feature "Feature" ["Feature"] _ Htype)
    by reflexivity.
  rewrite bind_ret_l.
  assert (Hid' : dict_contains "id" feature
                 && negb (is_str_or_int (dict_get "id" feature)) = false)
    by (destruct (dict_contains "id" feature);
        destruct (is_str_or_int (dict_get "id" feature));
        try reflexivity; discriminate Hid).
  rewrite Hid', bind_ret_l.
  assert (Hprop : _is_invalid_property feature "properties" "object"
                    (path ++ "/properties") = ret false).
  { unfold _is_invalid_property.
    destruct (dict_lookup "properties" feature) as [[| | | | | |] |];
      try discriminate Hproperties; reflexivity. }
  rewrite Hprop, bind_ret_l. cbv zeta. unfold dict_get.
  destruct (dict_lookup "geometry" feature) as [geom |] eqn:Hgeom;
    [ | discriminate Hgeometry].
  assert (Hcases : geom = JNull \/ valid_geometry bound geom = true)
    by (destruct geom; auto).
  destruct Hcases as [-> | Hgeom_valid].
  - assert (Hgate : _is_invalid_property feature "geometry" "object"
                      (path ++ "/geometry") = ret false)
      by (unfold _is_invalid_property; rewrite Hgeom; reflexivity).
    rewrite Hgate, bind_ret_l. now apply quiet_ret.
  - destruct (valid_geometry_is_nonempty_object _ _ Hgeom_valid)
      as (members & -> & Htruthy).
    assert (Hgate : _is_invalid_property feature "geometry" "object"
                      (path ++ "/geometry") = ret false)
      by (unfold _is_invalid_property; rewrite Hgeom; reflexivity).
    rewrite Hgate, bind_ret_l, Htruthy.
    apply (quiet_validate_geometry bound); [exact Hgeom_valid | ].
    pose proof (json_depth_member _ _ _ Hgeom). lia.
Qed.

Lemma quiet_get_check_crs : quiet crs0 (fun crs => crs = crs0) get_check_crs.
Proof.
  intros self Hmap Hcrs. exists (check_crs self), self.
  split; [reflexivity | ]. repeat split; assumption.
Qed.

Lemma quiet_validate_geojson_root (bound fuel : nat) (obj : json) :
  valid_document bound crs0 obj = true ->
  json_depth obj < fuel ->
  quiet crs0 anything (_validate_geojson_root py_repr fuel obj).
Proof.
  unfold valid_document. intros Hvalid Hdepth.
  destruct obj; try discriminate Hvalid.
  unfold _validate_geojson_root. cbv zeta.
  destruct (py_eq_str (dict_get "type" members) "FeatureCollection") eqn:Hfc.
  - pose proof (py_eq_str_true _ _ Hfc) as Htype.
    apply andb_true_iff in Hvalid as [Hcrs Hfeatures].
    rewrite (type_gate_passes members "FeatureCollection" GEOJSON_TYPES _ Htype)
      by reflexivity.
    rewrite bind_ret_l. unfold _validate_feature_collection.
    rewrite (type_gate_passes members "FeatureCollection" ["FeatureCollection"]
               _ Htype) by reflexivity.
    rewrite bind_ret_l.
    eapply quiet_bind; [apply quiet_get_check_crs | intros crs ->].
    apply negb_true_iff in Hcrs. rewrite Hcrs, bind_ret_l.
    destruct (dict_lookup "features" members) as [[| | | | | feats |] |] eqn:Hfeats;
      try discriminate Hfeatures.
    rewrite (array_gate_passes members "features" _ feats Hfeats).
    rewrite bind_ret_l. cbn [negb]. unfold dict_getitem.
    rewrite Hfeats, bind_ret_l. cbn [as_list]. rewrite bind_ret_l.
    apply quiet_for_enumerate. intros idx feature Hfeature.
    eapply quiet_bind; [apply quiet_set_feature_idx | intros _ _].
    rewrite forallb_forall in Hfeatures. specialize (Hfeatures feature Hfeature).
    destruct feature; try discriminate Hfeatures.
    apply (quiet_validate_feature bound); [exact Hfeatures | ].
    pose proof (json_depth_element _ _ Hfeature).
    pose proof (json_depth_member _ _ _ Hfeats). lia.
  - destruct (py_eq_str (dict_get "type" members) "Feature") eqn:Hfeature.
    + pose proof (py_eq_str_true _ _ Hfeature) as Htype.
      rewrite (type_gate_passes members "Feature" GEOJSON_TYPES _ Htype)
        by reflexivity.
      rewrite bind_ret_l.
      apply (quiet_validate_feature bound); [exact Hvalid | lia].
    + pose proof Hvalid as Hgeometry.
      destruct bound as [| bound']; [discriminate Hvalid | ].
      cbn [valid_geometry] in Hvalid.
      destruct (dict_get "type" members) as [| | | | ty | |] eqn:Htype;
        try discriminate Hvalid.
      assert (Hin : py_in (JStr ty) GEOMETRY_TYPES = true
                    /\ String.eqb ty "" = false).
      { destruct (String.eqb_spec ty "GeometryCollection") as [-> | _];
          [split; reflexivity | ].
        unfold valid_leaf in Hvalid.
        destruct (coordinates_depth ty) as [depth |] eqn:Hd;
          [ | discriminate Hvalid].
        apply coordinates_depth_cases in Hd.
        destruct Hd as [[-> _] | [[-> _] | [[-> _] | [[-> _] | [[-> _] | [-> _]]]]]];
          split; reflexivity. }
      destruct Hin as [Hin Hne].
      assert (Hin' : py_in (JStr ty) GEOJSON_TYPES = true).
      { unfold GEOJSON_TYPES, py_in in *. rewrite existsb_app, Hin.
        apply orb_true_r. }
      fold (dict_get "type" members) in Htype.
      rewrite (type_gate_passes members ty GEOJSON_TYPES _ Htype Hne Hin').
      rewrite bind_ret_l, ?Htype, ?Hin.
      cbn [py_eq_str] in Hfc, Hfeature. cbn [py_eq_str].
      rewrite ?Hfc, ?Hfeature, ?Hin.
      apply (quiet_validate_geometry (S bound')); assumption.
Qed.

End Quiet.

(** Linting a valid document leaves the report as it was. *)
Lemma lint_on_valid_document (source_map : json -> string -> option nat)
  (py_repr : json -> string) (bound : nat) (geojson_data : json)
  (self : GeoJsonLint) :
  valid_document bound (check_crs self) geojson_data = true ->
  fst (lint source_map py_repr geojson_data self) = Returns (errors self).
Proof.
  intros Hvalid.
  destruct geojson_data; try discriminate Hvalid.
  unfold lint.
  pose (self1 := mkLint (check_crs self) (feature_idx self)
                   (Some (source_map (JObj members))) (errors self)).
  destruct (quiet_validate_geojson_root (check_crs self) py_repr bound
              (S (json_depth (JObj members))) (JObj members) Hvalid
              (Nat.lt_succ_diag_r _) self1)
    as (u & self2 & Hrun & Herrs & _); [discriminate | reflexivity | ].
  unfold bind, set_line_map. fold self1. rewrite Hrun.
  cbn [fst get_errors]. now rewrite Herrs.
Qed.

(** X17: a structurally valid document is reported clean.  For a
    FeatureCollection of valid Features (carrying no "crs" when the CRS
    test is on), a valid Feature, or a valid geometry (a leaf geometry with
    well-nested positions, or a GeometryCollection of valid geometries),
    [lint] returns the report of the instance as it was before the call:
    the empty report on a new validator. *)
Theorem valid_document_adds_no_error :
  forall (source_map : json -> string -> option nat) (py_repr : json -> string)
         (bound : nat) (geojson_data : json) (self : GeoJsonLint),
    valid_document bound (check_crs self) geojson_data = true ->
    fst (lint source_map py_repr geojson_data self) = Returns (errors self).
Proof.
  intros source_map py_repr bound geojson_data self.
  apply lint_on_valid_document.
Qed.

(** A FeatureCollection with a located and an unlocated Feature, linted on
    a new validator. *)
Lemma valid_document_adds_no_error_witness :
  fst (lint first_line_map opaque_repr
         (feature_collection_doc
            [JObj [("type", JStr "Feature"); ("id", JInt 7);
                   ("properties", JObj [("name", JStr "a")]);
                   ("geometry",
                    geometry_collection_doc
                      [geometry_doc "Point" (JArr [JInt 1; JInt 2]);
                       geometry_doc "Polygon" integer_ring])];
             bare_feature])
         (__init__ true)) = Returns [].
Proof.
  exact (valid_document_adds_no_error first_line_map opaque_repr 3
           (feature_collection_doc
              [JObj [("type", JStr "Feature"); ("id", JInt 7);
                     ("properties", JObj [("name", JStr "a")]);
                     ("geometry",
                      geometry_collection_doc
                        [geometry_doc "Point" (JArr [JInt 1; JInt 2]);
                         geometry_doc "Polygon" integer_ring])];
               bare_feature])
           (__init__ true) eq_refl).
Defined.

(* ================================================================== *)
(** * The "id" of a Feature, and the aggregator *)
(* ================================================================== *)

Lemma valid_feature_split (bound : nat) (members : dict) :
  valid_feature bound members =
  valid_feature_rest bound members
  && (negb (dict_contains "id" members) || is_str_or_int (dict_get "id" members)).
Proof.
  unfold valid_feature, valid_feature_rest.
  destruct (py_eq_str (dict_get "type" members) "Feature");
    destruct (negb (dict_contains "id" members)
              || is_str_or_int (dict_get "id" members));
    destruct (dict_lookup "properties" members) as [[| | | | | |] |];
    destruct (dict_lookup "geometry" members) as [g |];
    cbn [andb]; try reflexivity; try now rewrite andb_true_r.
  all: try now rewrite andb_false_r.
Qed.

(** X14: in a Feature that is otherwise valid, an "id" that is a string,
    an integer or a boolean is accepted; any other "id" (null, a float, an
    array, an object) gives exactly one entry, the "id" message, at the
    line of the "id" member. *)
Theorem feature_id_accepts_strings_and_integers :
  forall (source_map : json -> string -> option nat) (py_repr : json -> string)
         (crs : bool) (bound : nat) (members : dict) (id : json),
    valid_feature_rest bound members = true ->
    dict_lookup "id" members = Some id ->
    fst (lint source_map py_repr (JObj members) (__init__ crs)) =
    Returns
      (if is_str_or_int id then []
       else [(msg_feature_id,
              mkEntry [one_indexed (source_map (JObj members)) "/id"] [None])]).
Proof.
  intros source_map py_repr crs bound members id Hrest Hid.
  assert (Hcontains : dict_contains "id" members = true)
    by (unfold dict_contains; now rewrite Hid).
  assert (Hget : dict_get "id" members = id)
    by (unfold dict_get; now rewrite Hid).
  destruct (is_str_or_int id) eqn:Hok.
  - apply (lint_on_valid_document source_map py_repr bound (JObj members)
             (__init__ crs)).
    pose proof Hrest as Htype. unfold valid_feature_rest in Htype.
    apply andb_true_iff in Htype as [Htype _].
    apply andb_true_iff in Htype as [Htype _].
    apply py_eq_str_true in Htype.
    unfold valid_document. rewrite Htype. cbn [py_eq_str String.eqb Ascii.eqb Bool.eqb].
    rewrite valid_feature_split, Hrest, Hget, Hok.
    now rewrite orb_true_r.
  - pose (entry := [(msg_feature_id,
                     mkEntry [one_indexed (source_map (JObj members)) "/id"] [None])]).
    pose (self2 := mkLint crs None (Some (source_map (JObj members))) entry).
    pose proof Hrest as Htype. unfold valid_feature_rest in Htype.
    apply andb_true_iff in Htype as [Htype Hgeometry].
    apply andb_true_iff in Htype as [Htype Hproperties].
    apply py_eq_str_true in Htype.
    assert (Hprop : forall path, _is_invalid_property members "properties" "object"
                                   path = ret false).
    { intros path. unfold _is_invalid_property.
      destruct (dict_lookup "properties" members) as [[| | | | | |] |];
        try discriminate Hproperties; reflexivity. }
    unfold lint, _validate_geojson_root. cbv zeta.
    rewrite (type_gate_passes py_repr members "Feature" GEOJSON_TYPES _ Htype)
      by reflexivity.
    rewrite bind_ret_l, Htype. cbn [py_eq_str String.eqb Ascii.eqb Bool.eqb].
    unfold _validate_feature.
    rewrite (type_gate_passes py_repr members "Feature" ["Feature"] _ Htype)
      by reflexivity.
    rewrite bind_ret_l, Hcontains, Hget, Hok. cbn [andb negb].
    rewrite Hprop. cbv zeta. unfold dict_get.
    destruct (dict_lookup "geometry" members) as [geom |] eqn:Hgeom;
      [ | discriminate Hgeometry].
    assert (Hgate : forall path, _is_invalid_property members "geometry" "object"
                                   path = ret false).
    { intros path. unfold _is_invalid_property. rewrite Hgeom.
      destruct geom; try reflexivity;
        destruct bound; discriminate Hgeometry. }
    rewrite Hgate.
    assert (Hcases : geom = JNull \/ valid_geometry bound geom = true)
      by (destruct geom; auto).
    destruct Hcases as [-> | Hgeom_valid]; [reflexivity | ].
    destruct (valid_geometry_is_nonempty_object _ _ Hgeom_valid)
      as (gm & -> & Htruthy).
    rewrite Htruthy.
    destruct (quiet_validate_geometry crs py_repr bound (JObj gm)
                ("" ++ "/geometry") (S (json_depth (JObj members))) Hgeom_valid)
      with (self := self2)
      as (u & self3 & Hrun & Herrs & _);
      [ pose proof (json_depth_member _ _ _ Hgeom); lia
      | discriminate | reflexivity | ].
    unfold bind, set_line_map, _get_line_number, _add_error, ret, get_errors.
    cbn [line_map feature_idx errors check_crs with_errors record_error __init__].
    match goal with
    | |- context [with_errors ?e ?s] => change (with_errors e s) with self2
    end.
    rewrite Hrun. cbn [fst]. now rewrite Herrs.
Qed.

(** A Feature with a float "id" and one with a string "id". *)
Lemma feature_id_accepts_strings_and_integers_witness :
  fst (lint first_line_map opaque_repr
         (JObj [("type", JStr "Feature"); ("id", JFloat (S754_zero false));
                ("properties", JNull); ("geometry", JNull)])
         (__init__ false)) =
  Returns [(msg_feature_id, mkEntry [Some 1] [None])]
  /\ fst (lint first_line_map opaque_repr
            (JObj [("type", JStr "Feature"); ("id", JStr "a7");
                   ("properties", JNull); ("geometry", JNull)])
            (__init__ false)) = Returns [].
Proof.
  split.
  - exact (feature_id_accepts_strings_and_integers first_line_map opaque_repr
             false 1
             [("type", JStr "Feature"); ("id", JFloat (S754_zero false));
              ("properties", JNull); ("geometry", JNull)]
             (JFloat (S754_zero false)) eq_refl eq_refl).
  - exact (feature_id_accepts_strings_and_integers first_line_map opaque_repr
             false 1
             [("type", JStr "Feature"); ("id", JStr "a7");
              ("properties", JNull); ("geometry", JNull)]
             (JStr "a7") eq_refl eq_refl).
Defined.

Lemma record_error_lookup_same (message : string) (line fidx : option nat)
  (errs : report) :
  report_lookup message (record_error message line fidx errs) =
  Some (match report_lookup message errs with
        | Some e => mkEntry (lines e ++ [line])%list (features e ++ [fidx])%list
        | None => mkEntry [line] [fidx]
        end).
Proof.
  induction errs as [| [m e] errs IH].
  - cbn. now rewrite String.eqb_refl.
  - cbn [record_error report_lookup].
    destruct (String.eqb m message) eqn:Hm; cbn [report_lookup]; rewrite Hm;
      [reflexivity | exact IH].
Qed.

(** X18: [_add_error] on the instance's report: the entry of the message
    gains the line and the current feature index at the end of its two
    lists, or is created with them when the message is new, and the entry
    of every other message is left as it was. *)
Theorem add_error_extends_one_entry :
  forall (message : string) (line : option nat) (self : GeoJsonLint),
    report_lookup message (errors (snd (_add_error message line self))) =
      Some (match report_lookup message (errors self) with
            | Some e => mkEntry (lines e ++ [line])%list
                                (features e ++ [feature_idx self])%list
            | None => mkEntry [line] [feature_idx self]
            end)
    /\ forall other,
        other <> message ->
        report_lookup other (errors (snd (_add_error message line self))) =
        report_lookup other (errors self).
Proof.
  intros message line self. cbn [_add_error snd errors with_errors]. split.
  - apply record_error_lookup_same.
  - intros other Hneq. apply record_error_lookup_other. congruence.
Qed.

(** A second occurrence of a message, while another message is present. *)
Lemma add_error_extends_one_entry_witness :
  report_lookup "a"
    (errors (snd (_add_error "b" (Some 4)
                    (mkLint false (Some 1) None
                       [("a", mkEntry [None] [None]);
                        ("b", mkEntry [Some 2] [Some 0])])))) =
  Some (mkEntry [None] [None]).
Proof.
  refine (proj2 (add_error_extends_one_entry "b" (Some 4)
                   (mkLint false (Some 1) None
                      [("a", mkEntry [None] [None]);
                       ("b", mkEntry [Some 2] [Some 0])])) "a" _).
  discriminate.
Defined.
